(** * Hockey shot map: data loading, filtering, binning and colouring

    A shallow embedding of the TypeScript sources
    - [src/services/hockeyApi.ts]   (the [ShotData] interface),
    - [src/services/csvLoader.ts]   (row conversion, [filterData],
                                     [getDatasetSummary]),
    - [components/InteractiveHockeyHeatMap] (the [filteredData] memo and the
                                     chart effect: scales, hexbin, fill),
    followed by the properties of the specification stated over it. *)

From Stdlib Require Import ZArith QArith Qcanon Qround Qabs Qpower List Bool Lia.
From Stdlib Require Import Permutation.
From Stdlib Require Import String Ascii Lqa.
From stdpp Require Import base strings pretty gmap.

Import ListNotations.
Local Open Scope string_scope.
Local Open Scope Z_scope.

(* ===================================================================== *)
(** * JavaScript numbers *)
(* ===================================================================== *)

(** A JavaScript [number] is modelled by its value: [NaN], one of the two
    infinities, or a finite value.  Finite values are canonical rationals
    ([Qc]), so that Leibniz equality is numeric equality, and there is a
    single zero.  The operations [add], [sub], [mul] and [div] give the
    exact result; they serve the geometry of the chart (scales, cells,
    radii), where the values are compared only.  The operations [addD],
    [subD], [mulD] and [divD] round to the nearest double as the machine
    does; they serve the sums and the averages of xG values and the
    density scale, where the rounding decides the colour of a bin, and
    the clock of a record. *)
Module Num.

Inductive number : Type :=
  | NaN
  | PosInf
  | NegInf
  | Fin (q : Qc).

(** Equality is decided by comparing the rationals, so that it computes. *)
#[global] Instance number_eq_dec : EqDecision number.
Proof.
  intros a b; unfold Decision.
  destruct a as [| | |p], b as [| | |q];
    try (right; discriminate); try (left; reflexivity).
  destruct (Qeq_bool p q) eqn:E.
  - left. f_equal. apply Qc_is_canon, Qeq_bool_iff, E.
  - right. intros [= ->]. rewrite (proj2 (Qeq_bool_iff q q)) in E by reflexivity.
    discriminate.
Defined.

(** Decimal literals: [dec n d] is the number n/d. *)
Definition dec (n : Z) (d : positive) : number := Fin (Q2Qc (n # d)).
Definition ofZ (z : Z) : number := dec z 1.
Definition ofNat (n : nat) : number := ofZ (Z.of_nat n).

Definition zero : number := ofZ 0.
Definition one : number := ofZ 1.

Definition isNaN (a : number) : bool :=
  match a with NaN => true | _ => false end.

Definition isFinite (a : number) : bool :=
  match a with Fin _ => true | _ => false end.

(** Sign of a finite value, as a comparison with zero. *)
Definition sgn (q : Qc) : comparison := (q ?= Q2Qc 0)%Qc.

(** Three-way comparison; [None] when an operand is [NaN] (every
    relational operator is then false). *)
Definition compare (a b : number) : option comparison :=
  match a, b with
  | NaN, _ | _, NaN => None
  | PosInf, PosInf => Some Eq
  | PosInf, _ => Some Gt
  | _, PosInf => Some Lt
  | NegInf, NegInf => Some Eq
  | NegInf, _ => Some Lt
  | _, NegInf => Some Gt
  | Fin p, Fin q => Some (p ?= q)%Qc
  end.

(** [a < b], [a > b], [a <= b], [a >= b]. *)
Definition lt (a b : number) : bool :=
  match compare a b with Some Lt => true | _ => false end.
Definition gt (a b : number) : bool := lt b a.
Definition le (a b : number) : bool :=
  match compare a b with Some Lt | Some Eq => true | _ => false end.
Definition ge (a b : number) : bool := le b a.

(** SameValueZero, the equality of [Array.prototype.includes] and of
    [Set]: like [===] except that [NaN] equals itself. *)
Definition sameValueZero (a b : number) : bool := bool_decide (a = b).

(** [a === b]: [NaN] differs from everything, itself included. *)
Definition strictEq (a b : number) : bool := negb (isNaN a) && bool_decide (a = b).

Definition neg (a : number) : number :=
  match a with
  | NaN => NaN
  | PosInf => NegInf
  | NegInf => PosInf
  | Fin q => Fin (- q)%Qc
  end.

Definition add (a b : number) : number :=
  match a, b with
  | NaN, _ | _, NaN => NaN
  | PosInf, NegInf | NegInf, PosInf => NaN
  | PosInf, _ | _, PosInf => PosInf
  | NegInf, _ | _, NegInf => NegInf
  | Fin p, Fin q => Fin (p + q)%Qc
  end.

Definition sub (a b : number) : number := add a (neg b).

(** An infinity scaled by a finite or infinite factor of sign [s]. *)
Definition signedInf (positive : bool) : number :=
  if positive then PosInf else NegInf.

Definition mulInf (positive : bool) (b : number) : number :=
  match b with
  | NaN => NaN
  | PosInf => signedInf positive
  | NegInf => signedInf (negb positive)
  | Fin q =>
      match sgn q with
      | Eq => NaN
      | Gt => signedInf positive
      | Lt => signedInf (negb positive)
      end
  end.

Definition mul (a b : number) : number :=
  match a, b with
  | NaN, _ => NaN
  | PosInf, _ => mulInf true b
  | NegInf, _ => mulInf false b
  | Fin _, NaN => NaN
  | Fin _, PosInf => mulInf true a
  | Fin _, NegInf => mulInf false a
  | Fin p, Fin q => Fin (p * q)%Qc
  end.

(** Division.  A finite non-zero value over zero is an infinity and
    zero over zero is [NaN]: nothing is raised. *)
Definition div (a b : number) : number :=
  match a, b with
  | NaN, _ | _, NaN => NaN
  | (PosInf | NegInf), (PosInf | NegInf) => NaN
  | PosInf, Fin q => signedInf (negb (match sgn q with Lt => true | _ => false end))
  | NegInf, Fin q => signedInf (match sgn q with Lt => true | _ => false end)
  | Fin _, (PosInf | NegInf) => zero
  | Fin p, Fin q =>
      match sgn q with
      | Eq => match sgn p with
              | Eq => NaN
              | Gt => PosInf
              | Lt => NegInf
              end
      | _ => Fin (p / q)%Qc
      end
  end.

(** [Math.abs] and [Math.round] (half-way cases round up). *)
Definition abs (a : number) : number :=
  match a with
  | NaN => NaN
  | PosInf | NegInf => PosInf
  | Fin q => match sgn q with Lt => Fin (- q)%Qc | _ => Fin q end
  end.

Definition round (a : number) : number :=
  match a with
  | Fin q => ofZ (Qfloor (q + Q2Qc (1 # 2))%Qc)
  | _ => a
  end.

(** [Math.floor]. *)
Definition floor (a : number) : number :=
  match a with
  | Fin q => ofZ (Qfloor q)
  | _ => a
  end.

(** [a % b]: [NaN] when [a] is infinite or [b] is zero, [a] when [b] is
    infinite, and otherwise [a] minus [b] times the quotient truncated
    towards zero.  On doubles the result is a double: nothing is
    rounded. *)
Definition rem (a b : number) : number :=
  match a, b with
  | NaN, _ | _, NaN => NaN
  | (PosInf | NegInf), _ => NaN
  | Fin _, (PosInf | NegInf) => a
  | Fin p, Fin q =>
      match sgn q with
      | Eq => NaN
      | _ =>
          let t := (p / q)%Qc in
          let n := match sgn t with Lt => Qceiling t | _ => Qfloor t end in
          Fin (p - q * Q2Qc (inject_Z n))%Qc
      end
  end.

(** Truthiness of a number: [NaN] and zero are falsy. *)
Definition truthy (a : number) : bool :=
  match a with
  | NaN => false
  | PosInf | NegInf => true
  | Fin q => match sgn q with Eq => false | _ => true end
  end.

(** [a || b] on numbers. *)
Definition or (a b : number) : number := if truthy a then a else b.

(** Binary [Math.min] and [Math.max]: [NaN] is contagious. *)
Definition min2 (a b : number) : number :=
  if isNaN a || isNaN b then NaN else if lt b a then b else a.
Definition max2 (a b : number) : number :=
  if isNaN a || isNaN b then NaN else if lt a b then b else a.

(** [Math.min(...xs)] and [Math.max(...xs)]: with no argument the results
    are [Infinity] and [-Infinity]. *)
Definition min (xs : list number) : number := fold_left min2 xs PosInf.
Definition max (xs : list number) : number := fold_left max2 xs NegInf.

(** The largest integer up to which every integer is a double, 2^53. *)
Definition maxSafeInteger : Z := 9007199254740992.

(** The greatest length of an array, 2^32 - 1. *)
Definition maxArrayLength : Z := 4294967295.

(** 2^k, for an exponent of either sign. *)
Definition pow2 (k : Z) : Q := Qpower 2 k.

(** The exponent e with 2^e <= |q| < 2^(e+1), for q other than 0: the
    difference of the bit lengths of numerator and denominator, or one
    less. *)
Definition binade (q : Q) : Z :=
  let e := Z.log2 (Z.abs (Qnum q)) - Z.log2 (Zpos (Qden q)) in
  if Qle_bool (pow2 e) (Qabs q) then e else e - 1.

(** The nearest integer; half-way between two, the even one. *)
Definition roundHalfEven (q : Q) : Z :=
  let f := Qfloor q in
  match Qcompare (q - inject_Z f) (1 # 2) with
  | Lt => f
  | Gt => f + 1
  | Eq => if Z.even f then f else f + 1
  end.

(** The spacing of the doubles around a rational other than 0: a
    significand has 53 bits, and the spacing is never below 2^-1074. *)
Definition ulp (q : Q) : Q := pow2 (Z.max (binade q - 52) (-1074)).

(** The magnitude of the multiple of the spacing nearest to a rational. *)
Definition nearest (q : Q) : Q :=
  inject_Z (roundHalfEven (Qabs q / ulp q)) * ulp q.

(** The double nearest to a rational (IEEE 754 binary64, round to
    nearest, ties to even), an infinity from 2^1024 on.  An integer of
    magnitude at most 2^53 is a double as it stands. *)
Definition double (q : Qc) : number :=
  if Qeq_bool q (inject_Z (Qfloor q)) && (Z.abs (Qfloor q) <=? maxSafeInteger)
  then Fin q
  else if Qle_bool (pow2 1024) (nearest q)
  then (if Qnum q <? 0 then NegInf else PosInf)
  else Fin (Q2Qc (if Qnum q <? 0 then - nearest q else nearest q)).

(** A number as the double it stands for. *)
Definition toDouble (a : number) : number :=
  match a with
  | Fin q => double q
  | _ => a
  end.

(** The arithmetic of the machine: the operands are doubles and the exact
    result is rounded to a double. *)
Definition addD (a b : number) : number := toDouble (add (toDouble a) (toDouble b)).
Definition subD (a b : number) : number := toDouble (sub (toDouble a) (toDouble b)).
Definition mulD (a b : number) : number := toDouble (mul (toDouble a) (toDouble b)).
Definition divD (a b : number) : number := toDouble (div (toDouble a) (toDouble b)).

(** [xs.reduce((sum, v) => sum + v, 0)]. *)
Definition sum (xs : list number) : number := fold_left addD xs zero.

(** [xs.includes(v)]. *)
Definition includes (xs : list number) (v : number) : bool :=
  existsb (sameValueZero v) xs.

(** [a & 1]: the low bit of [ToInt32 a].  [ToInt32] truncates towards
    zero and wraps modulo 2^32, which keeps the low bit; [NaN] and the
    infinities convert to 0. *)
Definition land1 (a : number) : number :=
  match a with
  | Fin q =>
      let t := match sgn q with Lt => Qceiling q | _ => Qfloor q end in
      ofZ (Z.land t 1)
  | _ => zero
  end.

End Num.

Import Num.

(* ===================================================================== *)
(** * Strings, parsing and formatting *)
(* ===================================================================== *)

Module Str.

(** Truthiness of a string, and [a || b] where [a] may be [undefined]. *)
Definition truthy (s : string) : bool :=
  match s with EmptyString => false | _ => true end.

Definition truthyOpt (v : option string) : bool :=
  match v with Some s => truthy s | None => false end.

Definition or (v : option string) (d : string) : string :=
  match v with
  | Some s => if truthy s then s else d
  | None => d
  end.

(** [xs.includes(v)] on strings. *)
Definition includes (xs : list string) (v : string) : bool :=
  existsb (String.eqb v) xs.

(** White space skipped by [parseFloat] and [parseInt] (the ASCII part of
    StrWhiteSpaceChar: TAB, LF, VT, FF, CR, SP). *)
Definition isWhite (c : ascii) : bool :=
  let n := nat_of_ascii c in
  ((9 <=? n) && (n <=? 13) || (n =? 32))%nat.

Fixpoint skipWhite (s : string) : string :=
  match s with
  | String c r => if isWhite c then skipWhite r else s
  | EmptyString => s
  end.

(** An optional sign: [true] when it is a minus. *)
Definition sign (s : string) : bool * string :=
  match s with
  | String "-" r => (true, r)
  | String "+" r => (false, r)
  | _ => (false, s)
  end.

(** Value of a digit in the given radix (10 or 16). *)
Definition digitOf (radix : Z) (c : ascii) : option Z :=
  let n := Z.of_nat (nat_of_ascii c) in
  let v :=
    if (48 <=? n) && (n <=? 57) then Some (n - 48)
    else if (97 <=? n) && (n <=? 102) then Some (n - 87)
    else if (65 <=? n) && (n <=? 70) then Some (n - 55)
    else None in
  match v with
  | Some d => if d <? radix then Some d else None
  | None => None
  end.

(** The longest prefix of digits, and what follows it. *)
Fixpoint digits (radix : Z) (s : string) : list Z * string :=
  match s with
  | String c r =>
      match digitOf radix c with
      | Some d => let '(ds, r') := digits radix r in (d :: ds, r')
      | None => ([], s)
      end
  | EmptyString => ([], s)
  end.

Definition valueOf (radix : Z) (ds : list Z) : Z :=
  fold_left (fun acc d => radix * acc + d) ds 0.

(** The exponent part [e[+-]ddd] of a decimal literal; 0 when there is
    none or when it has no digit. *)
Definition exponent (s : string) : Z :=
  match s with
  | String c r =>
      if (Ascii.eqb c "e" || Ascii.eqb c "E")%bool then
        let '(negative, r1) := sign r in
        let '(ds, _) := digits 10 r1 in
        match ds with
        | [] => 0
        | _ => if negative then - valueOf 10 ds else valueOf 10 ds
        end
      else 0
  | EmptyString => 0
  end.

(** [parseFloat(s)]: the value of the longest prefix of the trimmed string
    that is a decimal literal, [NaN] when there is none.  The value is
    kept as the decimal that is written, which stands for the double
    nearest to it; it is an infinity, or 0, where that double is. *)
Definition parseFloat (s : string) : number :=
  let s0 := skipWhite s in
  let '(negative, s1) := sign s0 in
  if String.prefix "Infinity" s1 then signedInf (negb negative)
  else
    let '(ip, s2) := digits 10 s1 in
    let '(fp, s3) :=
      match s2 with
      | String "." r => digits 10 r
      | _ => ([], s2)
      end in
    match (ip ++ fp)%list with
    | [] => NaN
    | ds =>
        let m := valueOf 10 ds in
        let e := exponent s3 - Z.of_nat (length fp) in
        let q := ((m # 1) * Qpower (10 # 1) e)%Q in
        let v := Q2Qc (if negative then - q else q)%Q in
        match double v with
        | Fin d => if Num.truthy (Fin d) then Fin v else zero
        | infinity => infinity
        end
    end.

(** The integer that [parseInt(s)], with no radix, reads: the value of
    the digits that follow the white space and the sign, [None] when
    there is no digit. *)
Definition integerOf (s : string) : option Z :=
  let s0 := skipWhite s in
  let '(negative, s1) := sign s0 in
  let '(radix, s2) :=
    match s1 with
    | String "0" (String c r) =>
        if (Ascii.eqb c "x" || Ascii.eqb c "X")%bool then (16, r) else (10, s1)
    | _ => (10, s1)
    end in
  let '(ds, _) := digits radix s2 in
  match ds with
  | [] => None
  | _ => Some (if negative then - valueOf radix ds else valueOf radix ds)
  end.

(** [parseInt(s)]: the double nearest to that integer (the integer
    itself up to 2^53 in magnitude, an infinity from 2^1024 on), [NaN]
    when there is no digit. *)
Definition parseInt (s : string) : number :=
  match integerOf s with
  | Some z => toDouble (ofZ z)
  | None => NaN
  end.

(** The argument of [parseFloat] and [parseInt] is first converted to a
    string; [undefined] becomes the string "undefined", which is no
    number. *)
Definition parseFloatV (v : option string) : number :=
  match v with Some s => parseFloat s | None => NaN end.

Definition parseIntV (v : option string) : number :=
  match v with Some s => parseInt s | None => NaN end.

(** The decimal text of an integer. *)
Definition toString (z : Z) : string := pretty z.

(** [n] zeros. *)
Fixpoint zeros (n : nat) : string :=
  match n with
  | O => ""
  | S m => String "0" (zeros m)
  end.

Fixpoint stripTrailingZeros (s : string) : string :=
  match s with
  | EmptyString => EmptyString
  | String c r =>
      match stripTrailingZeros r with
      | EmptyString => if Ascii.eqb c "0" then EmptyString else String c EmptyString
      | r' => String c r'
      end
  end.

(** The least [n] with [v < 10^n], for a positive [v]: the number of
    digits of the integer part, or minus the number of zeros that follow
    the decimal point. *)
Fixpoint leadingZeros (fuel : nat) (v : Q) : nat :=
  match fuel with
  | O => O
  | S f => if Qle_bool (1 # 10) v then O else S (leadingZeros f (v * 10))
  end.

Definition decimalExponent (v : Q) : Z :=
  if Qle_bool 1 v then Z.of_nat (String.length (pretty (Qfloor v)))
  else - Z.of_nat (leadingZeros 400 v).

(** The decimals of [k] digits next to [v], below and above. *)
Definition neighbours (v : Q) (n k : Z) : list Q :=
  let scale := Qpower 10 (n - k) in
  let lo := Qfloor (v / scale) in
  [inject_Z lo * scale; inject_Z (lo + 1) * scale]%Q.

(** Whether a decimal is read back as the double [v]. *)
Definition roundTrips (v : Qc) (c : Q) : bool :=
  match double (Q2Qc c) with
  | Fin p => Qeq_bool p v
  | _ => false
  end.

Definition closest (v : Q) (cs : list Q) : option Q :=
  match cs with
  | [] => None
  | [c] => Some c
  | c1 :: c2 :: _ =>
      Some (if Qle_bool (Qabs (v - c1)) (Qabs (c2 - v)) then c1 else c2)
  end.

(** The decimal with the fewest digits that is read back as the double
    [v]; of two, the closest. *)
Fixpoint shortest (v : Qc) (n : Z) (ks : list nat) : Q :=
  match ks with
  | [] => v
  | k :: r =>
      match closest v (List.filter (roundTrips v) (neighbours v n (Z.of_nat k))) with
      | Some c => c
      | None => shortest v n r
      end
  end.

(** [Number.prototype.toString] on a positive double: the digits of
    that decimal, written in full up to 10^21, with a decimal point or
    with zeros after "0." down to 10^-6, and with an exponent beyond. *)
Definition ofPositive (v : Qc) : string :=
  let c := shortest v (decimalExponent v) (seq 1 17) in
  let n := decimalExponent c in
  let digits := stripTrailingZeros (pretty (Qfloor (c / Qpower 10 (n - 17)))) in
  let k := Z.of_nat (String.length digits) in
  if (k <=? n) && (n <=? 21) then digits ++ zeros (Z.to_nat (n - k))
  else if (0 <? n) && (n <=? 21) then
    String.substring 0 (Z.to_nat n) digits ++ "."
      ++ String.substring (Z.to_nat n) (Z.to_nat (k - n)) digits
  else if (-6 <? n) && (n <=? 0) then "0." ++ zeros (Z.to_nat (- n)) ++ digits
  else
    let e := n - 1 in
    let mantissa :=
      if k =? 1 then digits
      else String.substring 0 1 digits ++ "."
             ++ String.substring 1 (Z.to_nat (k - 1)) digits in
    mantissa ++ "e" ++ (if e <? 0 then "-" else "+") ++ pretty (Z.abs e).

(** [n.toString()], and the text of a number in a template literal.  An
    integer of at most 2^53 in magnitude is written with all its
    digits. *)
Definition ofNumber (a : number) : string :=
  match a with
  | NaN => "NaN"
  | PosInf => "Infinity"
  | NegInf => "-Infinity"
  | Fin q =>
      if Qeq_bool q (inject_Z (Qfloor q)) && (Z.abs (Qfloor q) <=? maxSafeInteger)
      then toString (Qfloor q)
      else match sgn q with
           | Lt => "-" ++ ofPositive (- q)%Qc
           | _ => ofPositive q
           end
  end.

(** [s.padStart(2, '0')]. *)
Definition padStart2 (s : string) : string :=
  match s with
  | EmptyString => "00"
  | String c EmptyString => String "0" s
  | _ => s
  end.

End Str.

(* ===================================================================== *)
(** * The shot record ([services/hockeyApi.ts]) *)
(* ===================================================================== *)

Module Shot.

(** [interface ShotData].  An optional field is an [option]; [None] is
    [undefined].  [shotOutcome] is not declared by the interface but is
    written into every object the CSV loader builds. *)
Record ShotData : Type := mkShotData {
  x : number;
  y : number;
  xG : number;
  shotType : option string;
  shotOutcome : option string;
  period : option number;
  time : option string;
  gameId : option string;
  playerId : option string;
  teamId : option string
}.

End Shot.

Export Shot.

(** Truthiness of an optional number. *)
Definition truthyNum (v : option number) : bool :=
  match v with Some n => Num.truthy n | None => false end.

(** [v || d] for an optional number. *)
Definition orNum (v : option number) (d : number) : number :=
  match v with Some n => Num.or n d | None => d end.

(** [Array.from(new Set(xs))]: the distinct elements in the order of their
    first occurrence. *)
Fixpoint distinctFrom {A : Type} (eqb : A -> A -> bool) (seen xs : list A) : list A :=
  match xs with
  | [] => []
  | v :: r =>
      if existsb (eqb v) seen then distinctFrom eqb seen r
      else v :: distinctFrom eqb (v :: seen) r
  end.

Definition distinct {A : Type} (eqb : A -> A -> bool) (xs : list A) : list A :=
  distinctFrom eqb [] xs.

(** [xs.filter(Boolean)] over optional values: the defined, truthy ones. *)
Definition truthyStrings (xs : list (option string)) : list string :=
  omap (fun v => match v with
                 | Some s => if Str.truthy s then Some s else None
                 | None => None
                 end) xs.

Definition truthyNumbers (xs : list (option number)) : list number :=
  omap (fun v => match v with
                 | Some n => if Num.truthy n then Some n else None
                 | None => None
                 end) xs.

(* ===================================================================== *)
(** * The CSV loader ([services/csvLoader.ts]) *)
(* ===================================================================== *)

Module CsvLoaderService.

(** A row as [d3.csv] yields it: an object from column names to the text
    of the cell.  A column the file does not have reads as [undefined]. *)
Abbreviation CsvRow := (gmap string string).

(** [secondsRemainingToTime]. *)
Definition secondsRemainingToTime (secondsRemaining : number) : string :=
  let minutes := Num.floor (divD secondsRemaining (ofZ 60)) in
  let seconds := Num.rem secondsRemaining (ofZ 60) in
  Str.ofNumber minutes ++ ":" ++ Str.padStart2 (Str.ofNumber seconds).

(** [convertCsvRowToShotData]. *)
Definition convertCsvRowToShotData (row : CsvRow) : ShotData :=
  let csvX := Str.parseFloatV (row !! "x") in
  let csvY := Str.parseFloatV (row !! "y") in
  let transformedX := csvX in
  let transformedY := csvY in
  {| x := transformedX;
     y := transformedY;
     xG := Num.or (Str.parseFloatV (row !! "xG")) zero;
     shotType := Some (Str.or (row !! "shot_type") "Unknown");
     shotOutcome := row !! "shot_outcome";
     period := Some (Num.or (Str.parseIntV (row !! "period")) one);
     time := Some (secondsRemainingToTime
                     (Num.or (Str.parseIntV (row !! "period_seconds_remaining"))
                             zero));
     gameId := row !! "game_id";
     playerId := None;
     teamId := row !! "event_team" |}.

(** [loadHockeyDataFromCsv]: [d3.csv] either fails, and the failure is
    thrown again, or yields the rows, which are converted one by one. *)
Definition loadHockeyDataFromCsv {E : Type} (csvData : E + list CsvRow)
  : E + list ShotData :=
  match csvData with
  | inl error => inl error
  | inr rows => inr (map convertCsvRowToShotData rows)
  end.

(** The [filters] argument of [filterData]. *)
Record Criteria : Type := mkCriteria {
  teams : option (list string);
  shotOutcomes : option (list string);
  periods : option (list number);
  minXG : option number;
  maxXG : option number
}.

(** The callback of [data.filter] in [filterData].  An array, even an
    empty one, is truthy. *)
Definition keeps (filters : Criteria) (shot : ShotData) : bool :=
  if match teams filters, teamId shot with
     | Some ts, Some t => Str.truthy t && negb (Str.includes ts t)
     | _, _ => false
     end
  then false
  else if match periods filters, period shot with
          | Some ps, Some p => Num.truthy p && negb (Num.includes ps p)
          | _, _ => false
          end
  then false
  else if match minXG filters with
          | Some m => Num.lt (xG shot) m
          | None => false
          end
  then false
  else if match maxXG filters with
          | Some m => Num.gt (xG shot) m
          | None => false
          end
  then false
  else true.

Definition filterData (data : list ShotData) (filters : Criteria) : list ShotData :=
  List.filter (keeps filters) data.

(** The field [coordinateRanges] of the summary. *)
Record CoordinateRanges : Type := mkCoordinateRanges {
  xMin : number;
  xMax : number;
  yMin : number;
  yMax : number
}.

(** The result of [getDatasetSummary]; [summaryTeams] and
    [summaryPeriods] are its fields [teams] and [periods]. *)
Record DatasetSummary : Type := mkDatasetSummary {
  totalShots : nat;
  totalXG : number;
  avgXG : number;
  summaryTeams : list string;
  summaryPeriods : list number;
  shotTypes : list string;
  coordinateRanges : CoordinateRanges
}.

(** [getDatasetSummary]. *)
Definition getDatasetSummary (data : list ShotData) : DatasetSummary :=
  let teams := distinct String.eqb (truthyStrings (map teamId data)) in
  let periods := distinct Num.sameValueZero (truthyNumbers (map period data)) in
  let shotTypes := distinct String.eqb (truthyStrings (map shotType data)) in
  let xCoords := map x data in
  let yCoords := map y data in
  let xGValues := map xG data in
  {| totalShots := length data;
     totalXG := Num.sum xGValues;
     avgXG := divD (Num.sum xGValues) (ofNat (length data));
     summaryTeams := teams;
     summaryPeriods := periods;
     shotTypes := shotTypes;
     coordinateRanges :=
       {| xMin := Num.min xCoords;
          xMax := Num.max xCoords;
          yMin := Num.min yCoords;
          yMax := Num.max yCoords |} |}.

End CsvLoaderService.

(* ===================================================================== *)
(** * The d3 functions the chart calls *)
(* ===================================================================== *)

(** The d3 packages are dependencies of the application (d3 7.9, d3-hexbin
    0.2.2) and their code is not part of the sources.  Each function is
    modelled from what the specification says of it, computed the way the
    package of that release computes it. *)
Module D3.

(** Modelled from the spec: [d3.mean] (package d3-array, not part of the
    sources).  Section 3 has the mean of the members' values; as in
    d3-array, a value that is no number ([NaN]) is skipped and the result
    is [undefined] when no value is left. *)
Definition meanStep (acc : nat * number) (v : number) : nat * number :=
  if Num.ge v v then (S (fst acc), addD (snd acc) v) else acc.

Definition mean {A : Type} (values : list A) (valueof : A -> number) : option number :=
  let '(count, sum) := fold_left meanStep (map valueof values) (O, zero) in
  match count with
  | O => None
  | _ => Some (divD sum (ofNat count))
  end.

(** Modelled from the spec: [d3.max] (package d3-array, not part of the
    sources), the maximum bin count of section 4.4; [undefined] when there
    is no bin. *)
Definition max {A : Type} (values : list A) (valueof : A -> nat) : option nat :=
  match map valueof values with
  | [] => None
  | v :: r => Some (fold_left Nat.max r v)
  end.

(** Modelled from the spec: [d3.scaleLinear] belongs to the d3-scale
    package, which is not part of the sources.  Section 4.3 describes the
    coordinate-to-pixel mapping as a linear transform given by a domain
    range and a target pixel range, which maps a domain of zero width to a
    fixed pixel position; the definition realises it the way d3-scale's
    continuous scale does ([normalize], [interpolateNumber], [bimap]). *)
Definition normalize (a b : number) : number -> number :=
  let w := sub b a in
  if Num.truthy w then fun v => div (sub v a) w
  else fun _ => if isNaN w then NaN else dec 1 2.

(** Modelled from the spec: the linear interpolation of the target pixel
    range ([interpolateNumber] of d3-interpolate, not part of the
    sources). *)
Definition interpolateNumber (a b : number) : number -> number :=
  fun t => add (mul a (sub one t)) (mul b t).

(** Modelled from the spec: the composition of the two ([bimap] of
    d3-scale, not part of the sources); a descending domain is turned
    around together with the range. *)
Definition bimap (domain range : number * number) : number -> number :=
  let '(d0, d1) := domain in
  let '(r0, r1) := range in
  if Num.lt d1 d0
  then fun v => interpolateNumber r1 r0 (normalize d1 d0 v)
  else fun v => interpolateNumber r0 r1 (normalize d0 d1 v).

(** Modelled from the spec: the scale [d3.scaleLinear] builds (d3-scale,
    not part of the sources).  [NaN] maps to the scale's [unknown] value,
    which is [undefined]. *)
Definition scaleLinear (domain range : number * number) (v : number) : option number :=
  if isNaN v then None else Some (bimap domain range v).

(** [+v] where [v] may be [undefined]. *)
Definition toNumber (v : option number) : number :=
  match v with Some n => n | None => NaN end.

(** Modelled from the spec: [d3.scaleSequential] (package d3-scale, not
    part of the sources), the density ramp of section 4.4 over the domain
    [[x0, x1]]: the interpolator applied to the position of the value in
    the domain, as d3-scale computes it. *)
Definition scaleSequential {C : Type} (domain : number * number)
    (interpolator : number -> C) (unknown : C) (v : number) : C :=
  let '(t0, t1) := domain in
  let k10 := if Num.strictEq t0 t1 then zero else divD one (subD t1 t0) in
  if isNaN v then unknown
  else interpolator (if Num.strictEq k10 zero then dec 1 2
                     else mulD (subD v t0) k10).

(** Modelled from the spec: [d3.hexbin] (package d3-hexbin, not part of
    the sources).  Section 4.3: every pixel position is assigned to a cell
    of a hexagonal tiling of the given radius, the records are grouped by
    cell and only cells with a member are produced.  The cell arithmetic,
    the skipping of a position that is [NaN] and the order of the bins
    are those of d3-hexbin.

    A bin is the array of its points together with its centre. *)
Record Bin (A : Type) : Type := mkBin {
  points : list A;
  binX : number;
  binY : number
}.
Arguments mkBin {A} _ _ _.
Arguments points {A} _.
Arguments binX {A} _.
Arguments binY {A} _.

(** The key [pi + "-" + pj] of a bin.  The text is only ever used as a
    key, and it determines both numbers, so the pair stands for it. *)
Definition BinId : Type := number * number.

Section Hexbin.

Context {A : Type}.
(** The accessors and the radius of the layout. *)
Variables (px py : A -> number) (r : number).

(** [Math.sin(Math.PI / 3)], to the sixteen digits of the double, and the
    horizontal and vertical spacing d3-hexbin derives from the radius. *)
Definition sinThirdPi : number := dec 8660254037844386 10000000000000000.

Definition dx : number := mul (mul r (ofZ 2)) sinThirdPi.
Definition dy : number := mul r (dec 3 2).

(** Modelled from the spec: the cell of a position in the hexagonal
    tiling, with the arithmetic of d3-hexbin (not part of the sources). *)
Definition cellOf (px0 py0 : number) : BinId :=
  let py := div py0 dy in
  let pj := Num.round py in
  let px := sub (div px0 dx) (div (land1 pj) (ofZ 2)) in
  let pi := Num.round px in
  let py1 := sub py pj in
  if Num.gt (mul (Num.abs py1) (ofZ 3)) one then
    let px1 := sub px pi in
    let pi2 := add pi (div (if Num.lt px pi then ofZ (-1) else one) (ofZ 2)) in
    let pj2 := add pj (if Num.lt py pj then ofZ (-1) else one) in
    let px2 := sub px pi2 in
    let py2 := sub py pj2 in
    if Num.gt (add (mul px1 px1) (mul py1 py1)) (add (mul px2 px2) (mul py2 py2))
    then (add pi2 (div (if Num.truthy (land1 pj) then one else ofZ (-1)) (ofZ 2)), pj2)
    else (pi, pj)
  else (pi, pj).

(** Modelled from the spec: grouping by cell, as d3-hexbin (not part of
    the sources) does it:
    [bin = binsById[id]; if (bin) bin.push(point); else bins.push(...)].
    The bins are kept in the order in which they were created. *)
Fixpoint addPoint (id : BinId) (point : A) (bins : list (BinId * Bin A))
  : list (BinId * Bin A) :=
  match bins with
  | [] =>
      [(id, {| points := [point];
               binX := mul (add (fst id) (div (land1 (snd id)) (ofZ 2))) dx;
               binY := mul (snd id) dy |})]
  | (id', bin) :: rest =>
      if decide (id' = id)
      then (id', {| points := points bin ++ [point];
                    binX := binX bin;
                    binY := binY bin |}) :: rest
      else (id', bin) :: addPoint id point rest
  end.

(** Modelled from the spec: one turn of the loop of d3-hexbin (not part
    of the sources); a point with a [NaN] coordinate is skipped. *)
Definition hexbinStep (bins : list (BinId * Bin A)) (point : A)
  : list (BinId * Bin A) :=
  if isNaN (px point) || isNaN (py point) then bins
  else addPoint (cellOf (px point) (py point)) point bins.

(** Modelled from the spec: the layout [d3.hexbin] (d3-hexbin, not part
    of the sources) applied to the points: one bin per cell that has a
    member. *)
Definition hexbinLoop (pts : list A) : list (BinId * Bin A) :=
  fold_left hexbinStep pts [].

Definition hexbin (pts : list A) : list (Bin A) :=
  map snd (hexbinLoop pts).

End Hexbin.

(** Modelled from the spec: [d3.sum] (package d3-array, not part of the
    sources), the total of section 3; as in d3-array only a value that is
    truthy is added, so that [NaN] and 0 are passed over. *)
Definition sum {A : Type} (values : list A) (valueof : A -> number) : number :=
  fold_left (fun acc v => if Num.truthy v then addD acc v else acc)
            (map valueof values) zero.

End D3.

(* ===================================================================== *)
(** * The heat map component ([InteractiveHockeyHeatMap]) *)
(* ===================================================================== *)

Module HeatMap.

Import CsvLoaderService.

(** [interface FilterState]. *)
Record FilterState : Type := mkFilterState {
  selectedTeams : list string;
  selectedPeriods : list number;
  selectedShotOutcomes : list string;
  minXG : number;
  maxXG : number;
  shotType : list string;
  showOnlyGoals : bool;
  showOnlyHighDanger : bool
}.

(** The initial state of the filters. *)
Definition initialFilters : FilterState :=
  {| selectedTeams := [];
     selectedPeriods := [];
     selectedShotOutcomes := [];
     minXG := zero;
     maxXG := one;
     shotType := [];
     showOnlyGoals := false;
     showOnlyHighDanger := false |}.

(** The update made once the data is loaded:
    [setFilters(prev => ({...prev, maxXG: Math.max(...), minXG: Math.min(...)}))]. *)
Definition filtersOnLoad (prev : FilterState) (data : list ShotData) : FilterState :=
  {| selectedTeams := selectedTeams prev;
     selectedPeriods := selectedPeriods prev;
     selectedShotOutcomes := selectedShotOutcomes prev;
     minXG := Num.min (map xG data);
     maxXG := Num.max (map xG data);
     shotType := shotType prev;
     showOnlyGoals := showOnlyGoals prev;
     showOnlyHighDanger := showOnlyHighDanger prev |}.

(** [xs.length && c]: a guard that is off for the empty array. *)
Definition nonEmpty {A : Type} (xs : list A) : bool :=
  match xs with [] => false | _ => true end.

(** The outcome simulated from the xG value. *)
Definition outcomeOf (shot : ShotData) : string :=
  if Num.gt (xG shot) (dec 2 10) then "GOAL"
  else if Num.gt (xG shot) (dec 1 10) then "SHOT"
  else "MISSED_SHOT".

(** The callback of [shotData.filter] in the [filteredData] memo. *)
Definition passes (filters : FilterState) (shot : ShotData) : bool :=
  (* Team filter *)
  if nonEmpty (selectedTeams filters)
     && negb (Str.includes (selectedTeams filters) (Str.or (teamId shot) ""))
  then false
  (* Period filter *)
  else if nonEmpty (selectedPeriods filters)
          && negb (Num.includes (selectedPeriods filters) (orNum (period shot) zero))
  then false
  (* Shot outcome filter *)
  else if nonEmpty (selectedShotOutcomes filters)
          && negb (Str.includes (selectedShotOutcomes filters) (outcomeOf shot))
  then false
  (* xG range filter *)
  else if Num.lt (xG shot) (minXG filters) || Num.gt (xG shot) (maxXG filters)
  then false
  (* Shot type filter *)
  else if nonEmpty (shotType filters)
          && negb (Str.includes (shotType filters) (Str.or (Shot.shotType shot) ""))
  then false
  (* Only goals filter *)
  else if showOnlyGoals filters && Num.lt (xG shot) (dec 8 10)
  then false
  (* Only high danger filter *)
  else if showOnlyHighDanger filters && Num.lt (xG shot) (dec 15 100)
  then false
  else true.

(** The [filteredData] memo. *)
Definition filteredData (shotData : list ShotData) (filters : FilterState)
  : list ShotData :=
  match shotData with
  | [] => []
  | _ => List.filter (passes filters) shotData
  end.

(** ** The chart effect *)

Definition width : number := ofZ 1000.
Definition height : number := ofZ 700.
Definition marginTop : number := ofZ 80.
Definition marginRight : number := ofZ 200.
Definition marginBottom : number := ofZ 80.
Definition marginLeft : number := ofZ 80.

Definition xScale (dataSummary : DatasetSummary) : number -> option number :=
  let dataXMin := xMin (coordinateRanges dataSummary) in
  let dataXMax := xMax (coordinateRanges dataSummary) in
  D3.scaleLinear (dataXMin, dataXMax) (marginLeft, sub width marginRight).

Definition yScale (dataSummary : DatasetSummary) : number -> option number :=
  let dataYMin := yMin (coordinateRanges dataSummary) in
  let dataYMax := yMax (coordinateRanges dataSummary) in
  D3.scaleLinear (dataYMax, dataYMin) (marginTop, sub height marginBottom).

(** [hexbin(filteredData)], with the accessors and the radius the chart
    configures. *)
Definition hexData (dataSummary : DatasetSummary) (filters : FilterState)
    (filteredData : list ShotData) : list (D3.Bin ShotData) :=
  D3.hexbin (fun d => D3.toNumber (xScale dataSummary (x d)))
            (fun d => D3.toNumber (yScale dataSummary (y d)))
            (if showOnlyHighDanger filters then ofZ 8 else ofZ 12)
            filteredData.

(** [d3.max(hexData, d => d.length) || 1]. *)
Definition maxBinSize (hexData : list (D3.Bin ShotData)) : nat :=
  match D3.max hexData (fun d => length (D3.points d)) with
  | Some (S n) => S n
  | _ => 1%nat
  end.

(** The bins that are drawn: [hexData.filter(d => d.length > 0)]. *)
Definition drawnBins (hexData : list (D3.Bin ShotData)) : list (D3.Bin ShotData) :=
  List.filter (fun d => (0 <? length (D3.points d))%nat) hexData.

Section Fill.

(** The colour ramps [d3.interpolateReds] and [d3.interpolateYlOrRd]
    (package d3-scale-chromatic) are taken as they are, whatever the type
    of colours; [unknown] is what a scale answers to [NaN]. *)
Variable Color : Type.
Variables interpolateReds interpolateYlOrRd : number -> Color.
Variable unknown : Color.

Definition colorScale (maxBinSize : nat) : number -> Color :=
  D3.scaleSequential (zero, ofNat maxBinSize) interpolateYlOrRd unknown.

(** The callback of [.attr('fill', ...)]. *)
Definition fill (filters : FilterState) (maxBinSize : nat) (d : list ShotData)
  : Color :=
  let avgXG := orNum (D3.mean d xG) zero in
  let intensity := divD (ofNat (length d)) (ofNat maxBinSize) in
  if showOnlyHighDanger filters then interpolateReds avgXG
  else if Num.gt avgXG (toDouble (dec 1 10)) then
    interpolateReds (Num.min [one; addD intensity avgXG])
  else colorScale maxBinSize (ofNat (length d)).

(** The hexagons of the chart with their colours, in drawing order.
    The effect does nothing when there is no filtered data or no
    summary yet. *)
Definition chart (shotData : list ShotData) (dataSummary : option DatasetSummary)
    (filters : FilterState) : option (list (D3.Bin ShotData * Color)) :=
  let filtered := filteredData shotData filters in
  match filtered, dataSummary with
  | [], _ | _, None => None
  | _, Some summary =>
      let bins := hexData summary filters filtered in
      let m := maxBinSize bins in
      Some (map (fun d => (d, fill filters m (D3.points d))) (drawnBins bins))
  end.

End Fill.

End HeatMap.

(* ===================================================================== *)
(** * The state of the component and its handlers *)
(* ===================================================================== *)

Module Component.

Import CsvLoaderService HeatMap.

(** The state the component keeps with [useState] (the tooltip apart). *)
Record State : Type := mkState {
  shotData : list ShotData;
  isLoading : bool;
  error : option string;
  dataSummary : option DatasetSummary;
  filters : FilterState
}.

(** The state of the first render. *)
Definition initialState : State :=
  {| shotData := [];
     isLoading := true;
     error := None;
     dataSummary := None;
     filters := initialFilters |}.

Section Loading.

(** [Math.min(...xs)] and [Math.max(...xs)] pass every element of [xs]
    as an argument of the call, and an engine throws a [RangeError] when
    they are more than its stack holds (some hundred thousand).
    [spreads n] tells whether the engine accepts [n] arguments. *)
Variable spreads : nat -> bool.

(** The state once [loadData] has run to its end, given what [d3.csv]
    produced: the rows, or a failure.  The [catch] handles the failure of
    [d3.csv], which leaves everything as it was, and the [RangeError] of
    [getDatasetSummary], which is thrown once the records are set; in
    both cases the summary and the filters stay as they were and the
    message is recorded. *)
Definition loadData {E : Type} (csvData : E + list CsvRow) (st : State) : State :=
  match loadHockeyDataFromCsv csvData with
  | inr data =>
      if spreads (length data)
      then {| shotData := data;
              isLoading := false;
              error := None;
              dataSummary := Some (getDatasetSummary data);
              filters := filtersOnLoad (filters st) data |}
      else {| shotData := data;
              isLoading := false;
              error := Some "Failed to load hockey data from CSV";
              dataSummary := dataSummary st;
              filters := filters st |}
  | inl _ =>
      {| shotData := shotData st;
         isLoading := false;
         error := Some "Failed to load hockey data from CSV";
         dataSummary := dataSummary st;
         filters := filters st |}
  end.

End Loading.

(** What the component returns: the loading screen, the error screen or
    the page with the controls and the chart. *)
Inductive Screen : Type :=
  | LoadingScreen
  | ErrorScreen (message : string)
  | MainScreen.

Definition render (st : State) : Screen :=
  if isLoading st then LoadingScreen
  else match error st with
       | Some message => if Str.truthy message then ErrorScreen message else MainScreen
       | None => MainScreen
       end.

(** [currentArray.includes(value) ? currentArray.filter(item => item !== value)
                                  : [...currentArray, value]]. *)
Definition toggleArray {A : Type} (includes : list A -> A -> bool)
    (strictEq : A -> A -> bool) (currentArray : list A) (value : A) : list A :=
  if includes currentArray value
  then List.filter (fun item => negb (strictEq item value)) currentArray
  else currentArray ++ [value].

Definition toggleStrings : list string -> string -> list string :=
  toggleArray Str.includes String.eqb.

Definition toggleNumbers : list number -> number -> list number :=
  toggleArray Num.includes Num.strictEq.

(** The key of an array filter together with the value to toggle. *)
Inductive Toggle : Type :=
  | ToggleSelectedTeams (value : string)
  | ToggleSelectedPeriods (value : number)
  | ToggleSelectedShotOutcomes (value : string)
  | ToggleShotType (value : string).

(** [toggleArrayFilter(key, value)], as the update of the filters. *)
Definition toggleArrayFilter (t : Toggle) (prev : FilterState) : FilterState :=
  match t with
  | ToggleSelectedTeams value =>
      {| selectedTeams := toggleStrings (selectedTeams prev) value;
         selectedPeriods := selectedPeriods prev;
         selectedShotOutcomes := selectedShotOutcomes prev;
         minXG := minXG prev; maxXG := maxXG prev;
         shotType := shotType prev;
         showOnlyGoals := showOnlyGoals prev;
         showOnlyHighDanger := showOnlyHighDanger prev |}
  | ToggleSelectedPeriods value =>
      {| selectedTeams := selectedTeams prev;
         selectedPeriods := toggleNumbers (selectedPeriods prev) value;
         selectedShotOutcomes := selectedShotOutcomes prev;
         minXG := minXG prev; maxXG := maxXG prev;
         shotType := shotType prev;
         showOnlyGoals := showOnlyGoals prev;
         showOnlyHighDanger := showOnlyHighDanger prev |}
  | ToggleSelectedShotOutcomes value =>
      {| selectedTeams := selectedTeams prev;
         selectedPeriods := selectedPeriods prev;
         selectedShotOutcomes := toggleStrings (selectedShotOutcomes prev) value;
         minXG := minXG prev; maxXG := maxXG prev;
         shotType := shotType prev;
         showOnlyGoals := showOnlyGoals prev;
         showOnlyHighDanger := showOnlyHighDanger prev |}
  | ToggleShotType value =>
      {| selectedTeams := selectedTeams prev;
         selectedPeriods := selectedPeriods prev;
         selectedShotOutcomes := selectedShotOutcomes prev;
         minXG := minXG prev; maxXG := maxXG prev;
         shotType := toggleStrings (shotType prev) value;
         showOnlyGoals := showOnlyGoals prev;
         showOnlyHighDanger := showOnlyHighDanger prev |}
  end.

(** A key of the filters together with the value to store under it. *)
Inductive Update : Type :=
  | UpdateSelectedTeams (value : list string)
  | UpdateSelectedPeriods (value : list number)
  | UpdateSelectedShotOutcomes (value : list string)
  | UpdateMinXG (value : number)
  | UpdateMaxXG (value : number)
  | UpdateShotType (value : list string)
  | UpdateShowOnlyGoals (value : bool)
  | UpdateShowOnlyHighDanger (value : bool).

(** [updateFilter(key, value)], as the update of the filters:
    [{ ...prev, [key]: value }]. *)
Definition updateFilter (u : Update) (prev : FilterState) : FilterState :=
  {| selectedTeams :=
       match u with UpdateSelectedTeams v => v | _ => selectedTeams prev end;
     selectedPeriods :=
       match u with UpdateSelectedPeriods v => v | _ => selectedPeriods prev end;
     selectedShotOutcomes :=
       match u with
       | UpdateSelectedShotOutcomes v => v
       | _ => selectedShotOutcomes prev
       end;
     minXG := match u with UpdateMinXG v => v | _ => minXG prev end;
     maxXG := match u with UpdateMaxXG v => v | _ => maxXG prev end;
     shotType := match u with UpdateShotType v => v | _ => shotType prev end;
     showOnlyGoals :=
       match u with UpdateShowOnlyGoals v => v | _ => showOnlyGoals prev end;
     showOnlyHighDanger :=
       match u with
       | UpdateShowOnlyHighDanger v => v
       | _ => showOnlyHighDanger prev
       end |}.

(** [clearFilters]: the bounds go back to 0 and 1 when there is a summary
    (its [coordinateRanges] is an object, hence truthy) and stay as they
    are otherwise. *)
Definition clearFilters (dataSummary : option DatasetSummary)
    (filters : FilterState) : FilterState :=
  {| selectedTeams := [];
     selectedPeriods := [];
     selectedShotOutcomes := [];
     minXG := match dataSummary with Some _ => zero | None => minXG filters end;
     maxXG := match dataSummary with Some _ => one | None => maxXG filters end;
     shotType := [];
     showOnlyGoals := false;
     showOnlyHighDanger := false |}.

(** The records drawn as gold circles,
    [filteredData.filter(d => d.xG > 0.15)], unless the high-danger view
    is on, and the radius [3 + d.xG * 8] of a circle. *)
Definition highXgShots (filters : FilterState) (filteredData : list ShotData)
  : list ShotData :=
  if showOnlyHighDanger filters then []
  else List.filter (fun d => Num.gt (xG d) (dec 15 100)) filteredData.


(** The numbers of the stats box, before they are formatted. *)
Definition statsShots (filteredData : list ShotData) : nat := length filteredData.

Definition statsTotalXG (filteredData : list ShotData) : number :=
  D3.sum filteredData xG.

Definition statsAvgXG (filteredData : list ShotData) : number :=
  orNum (D3.mean filteredData xG) zero.

Definition statsHighDanger (filteredData : list ShotData) : nat :=
  length (List.filter (fun d => Num.gt (xG d) (dec 15 100)) filteredData).

(** The horizontal position of the tooltip:
    [Math.max(10, Math.min(tooltip.x - 100, window.innerWidth - 220))]. *)
Definition tooltipLeft (tooltipX innerWidth : number) : number :=
  Num.max [ofZ 10; Num.min [sub tooltipX (ofZ 100); sub innerWidth (ofZ 220)]].

End Component.

(* ===================================================================== *)
(** * The specification's reading of the filter and of a bin *)
(* ===================================================================== *)

(** These definitions follow the words of the specification (sections 3,
    4.2 and 4.4); they are compared with the code below. *)
Module Spec.

Import HeatMap.

(** An allowlist passes a value when it is empty or contains the value. *)
Definition teamPasses (cfg : FilterState) (r : ShotData) : bool :=
  match selectedTeams cfg with
  | [] => true
  | allow => Str.includes allow (default "" (teamId r))
  end.

Definition periodPasses (cfg : FilterState) (r : ShotData) : bool :=
  match selectedPeriods cfg with
  | [] => true
  | allow => Num.includes allow (default zero (period r))
  end.

Definition shotTypePasses (cfg : FilterState) (r : ShotData) : bool :=
  match shotType cfg with
  | [] => true
  | allow => Str.includes allow (default "" (Shot.shotType r))
  end.

(** [expectedGoalMin <= expectedGoalValue <= expectedGoalMax]. *)
Definition rangePasses (cfg : FilterState) (r : ShotData) : bool :=
  Num.le (minXG cfg) (xG r) && Num.le (xG r) (maxXG cfg).

Definition highQualityPasses (cfg : FilterState) (r : ShotData) : bool :=
  if showOnlyGoals cfg then Num.ge (xG r) (dec 8 10) else true.

Definition highDangerPasses (cfg : FilterState) (r : ShotData) : bool :=
  if showOnlyHighDanger cfg then Num.ge (xG r) (dec 15 100) else true.

(** A record passes when it satisfies every predicate. *)
Definition satisfies (cfg : FilterState) (r : ShotData) : bool :=
  teamPasses cfg r && periodPasses cfg r && rangePasses cfg r
  && shotTypePasses cfg r && highQualityPasses cfg r && highDangerPasses cfg r.

(** The values of a record and of a configuration are real numbers and
    integers: none of them is [NaN]. *)
Definition realRecord (r : ShotData) : Prop :=
  isNaN (xG r) = false /\ period r <> Some NaN.

Definition realRange (cfg : FilterState) : Prop :=
  isNaN (minXG cfg) = false /\ isNaN (maxXG cfg) = false.

(** [averageExpectedGoal] of a bin: the mean of its members' values, the
    sum of the values over their number, as the machine computes them. *)
Definition averageExpectedGoal (members : list ShotData) : number :=
  divD (Num.sum (map xG members)) (ofNat (length members)).

(** The density-only ramp at the position of the count in
    [[0, maxBinCount]].  The position is the count times the reciprocal
    of the maximum, each rounded as the machine rounds it; it is
    count / maxBinCount up to that rounding. *)
Definition densityRamp {Color : Type} (interpolateYlOrRd : number -> Color)
    (maxBinCount : nat) (count : nat) : Color :=
  interpolateYlOrRd (mulD (ofNat count) (divD one (ofNat maxBinCount))).

End Spec.

(* ===================================================================== *)
(** * Auxiliary definitions of the statements *)
(* ===================================================================== *)

Section Auxiliary.

Import CsvLoaderService.

(** The members of all the bins of the binning loop, bin after bin. *)
Definition membersOf {A : Type} (bins : list (D3.BinId * D3.Bin A)) : list A :=
  concat (map (fun b => D3.points (snd b)) bins).

(** Replacing the team list, or the period list, of the criteria. *)
Definition withTeams (ts : option (list string)) (filters : Criteria) : Criteria :=
  {| teams := ts;
     shotOutcomes := shotOutcomes filters;
     periods := periods filters;
     minXG := minXG filters;
     maxXG := maxXG filters |}.

Definition withPeriods (ps : option (list number)) (filters : Criteria) : Criteria :=
  {| teams := teams filters;
     shotOutcomes := shotOutcomes filters;
     periods := ps;
     minXG := minXG filters;
     maxXG := maxXG filters |}.

Definition withShotOutcomes (so : option (list string)) (filters : Criteria)
  : Criteria :=
  {| teams := teams filters;
     shotOutcomes := so;
     periods := periods filters;
     minXG := minXG filters;
     maxXG := maxXG filters |}.

(** The criteria of [filterData] that ask for the teams, the periods and
    the range that the filters of the component select. *)
Definition criteriaOf (filters : HeatMap.FilterState) : Criteria :=
  {| teams := Some (HeatMap.selectedTeams filters);
     shotOutcomes := None;
     periods := Some (HeatMap.selectedPeriods filters);
     minXG := Some (HeatMap.minXG filters);
     maxXG := Some (HeatMap.maxXG filters) |}.

(** The value of a toggle is not [NaN] (a text never is). *)
Definition toggleOfValue (t : Component.Toggle) : Prop :=
  match t with
  | Component.ToggleSelectedPeriods value => isNaN value = false
  | _ => True
  end.

(** Two lists with the same elements. *)
Definition sameMembers {A : Type} (l l' : list A) : Prop :=
  forall w, In w l <-> In w l'.

(** What holds of every record the loader builds. *)
Definition loadedRecord (shot : ShotData) : Prop :=
  isNaN (xG shot) = false
  /\ truthyNum (period shot) = true
  /\ Str.truthyOpt (shotType shot) = true
  /\ time shot <> None
  /\ playerId shot = None.

End Auxiliary.

(* ===================================================================== *)
(** * Sample inputs *)
(* ===================================================================== *)

Module Samples.

Import CsvLoaderService HeatMap.

Definition shot (x0 y0 xG0 : number) (period0 : Z) (team : string) : ShotData :=
  {| x := x0; y := y0; xG := xG0;
     Shot.shotType := None; shotOutcome := None;
     period := Some (ofZ period0); time := None;
     gameId := None; playerId := None; teamId := Some team |}.

(** The two records of the specification's binning scenario, and a third
    one elsewhere on the ice. *)
Definition shotEDM : ShotData := shot (ofZ 15) (ofZ 5) (dec 15 100) 1 "EDM".
Definition shotTOR : ShotData := shot (dec 152 10) (dec 51 10) (dec 25 100) 1 "TOR".
Definition shotFar : ShotData := shot (ofZ (-40)) (ofZ (-20)) (dec 5 100) 2 "EDM".

Definition threeShots : list ShotData := [shotEDM; shotTOR; shotFar].

(** A record whose team is the empty text, as an empty cell loads. *)
Definition shotNoTeam : ShotData := shot (ofZ 15) (ofZ 5) (dec 15 100) 1 "".

(** A record without a team. *)
Definition shotAbsentTeam : ShotData :=
  {| x := ofZ 15; y := ofZ 5; xG := dec 15 100;
     Shot.shotType := None; shotOutcome := None;
     period := None; time := None;
     gameId := None; playerId := None; teamId := None |}.

(** A row whose x cell is no number. *)
Definition malformedRow : CsvRow :=
  {[ "x" := "n/a"; "y" := "12.5"; "xG" := "0.2"; "period" := "2";
     "event_team" := "EDM" ]}.

(** Criteria with an empty team list, and with an empty period list. *)
Definition noTeamAllowed : Criteria :=
  {| teams := Some []; shotOutcomes := None; periods := None;
     CsvLoaderService.minXG := None; CsvLoaderService.maxXG := None |}.

Definition noPeriodAllowed : Criteria :=
  {| teams := None; shotOutcomes := None; periods := Some [];
     CsvLoaderService.minXG := None; CsvLoaderService.maxXG := None |}.

(** The filters as they stand once [threeShots] is loaded. *)
Definition loadedFilters : FilterState := filtersOnLoad initialFilters threeShots.

(** Only period 2 selected. *)
Definition periodTwo : FilterState :=
  {| selectedTeams := []; selectedPeriods := [ofZ 2]; selectedShotOutcomes := [];
     HeatMap.minXG := zero; HeatMap.maxXG := one; shotType := [];
     showOnlyGoals := false; showOnlyHighDanger := false |}.

(** The high-danger view. *)
Definition highDanger : FilterState :=
  {| selectedTeams := []; selectedPeriods := []; selectedShotOutcomes := [];
     HeatMap.minXG := zero; HeatMap.maxXG := one; shotType := [];
     showOnlyGoals := false; showOnlyHighDanger := true |}.

(** A row with coordinates only, and a row with a period and a clock. *)
Definition bareRow : CsvRow := {[ "x" := "-35.5"; "y" := "12" ]}.

Definition timedRow : CsvRow :=
  {[ "x" := "-35.5"; "y" := "12"; "period" := "2";
     "period_seconds_remaining" := "125" ]}.

(** A record whose xG is no number, and one whose x is no number. *)
Definition shotNaNxG : ShotData := shot (ofZ 15) (ofZ 5) NaN 1 "EDM".
Definition shotNaNx : ShotData := shot NaN (ofZ 5) (dec 15 100) 1 "EDM".

(** One team and one period selected. *)
Definition edmPeriodOne : FilterState :=
  {| selectedTeams := ["EDM"]; selectedPeriods := [ofZ 1];
     selectedShotOutcomes := [];
     HeatMap.minXG := zero; HeatMap.maxXG := one; shotType := [];
     showOnlyGoals := false; showOnlyHighDanger := false |}.

(** High quality shots only. *)
Definition highQuality : FilterState :=
  {| selectedTeams := []; selectedPeriods := []; selectedShotOutcomes := [];
     HeatMap.minXG := zero; HeatMap.maxXG := one; shotType := [];
     showOnlyGoals := true; showOnlyHighDanger := false |}.

(** The three simulated outcomes selected. *)
Definition everyOutcome : FilterState :=
  {| selectedTeams := []; selectedPeriods := [];
     selectedShotOutcomes := ["GOAL"; "SHOT"; "MISSED_SHOT"];
     HeatMap.minXG := zero; HeatMap.maxXG := one; shotType := [];
     showOnlyGoals := false; showOnlyHighDanger := false |}.

(** Records whose xG is exactly 0.8 and exactly 0.15 (the latter is
    [shotEDM]). *)
Definition shotEight : ShotData := shot (ofZ 15) (ofZ 5) (dec 8 10) 1 "EDM".

(** Two ramps to evaluate the colour on: the value itself, tagged. *)
Definition sampleReds (t : number) : string * number := ("Reds", t).
Definition sampleYlOrRd (t : number) : string * number := ("YlOrRd", t).
Definition sampleUnknown : string * number := ("unknown", NaN).

End Samples.

(* ===================================================================== *)
(** * Proof automation *)
(* ===================================================================== *)

(** Equality of two numbers that are given in full. *)
Ltac number_eq :=
  vm_compute;
  first [ reflexivity
        | f_equal; apply Qc_is_canon; vm_compute; reflexivity
        | do 2 f_equal; apply Qc_is_canon; vm_compute; reflexivity ].

(** Case analysis on the guards of a chain of early returns. *)
Ltac case_guards :=
  repeat match goal with
         | |- context [if ?b then false else _] =>
             lazymatch b with
             | true => fail
             | false => fail
             | _ => destruct b eqn:?; cbv iota
             end
         end.

(** Linear arithmetic over canonical rationals, through the rationals. *)
Ltac qc_lra :=
  unfold Qclt, Qcle, Qcplus, Qcmult, Qcminus, Qcopp, Q2Qc in *;
  cbn [this] in *;
  rewrite ?Qred_correct in *;
  lra.

(* ===================================================================== *)
(** * Facts about numbers *)
(* ===================================================================== *)

Section NumFacts.

Lemma sgn_Eq (q : Qc) : sgn q = Eq -> q = Q2Qc 0.
Proof.
  unfold sgn, Qccompare. intros H.
  apply Qc_is_canon, Qeq_alt, H.
Qed.

Lemma falsy_finite (q : Qc) : Num.truthy (Fin q) = false -> Fin q = zero.
Proof.
  simpl. destruct (sgn q) eqn:E; try discriminate.
  intros _. rewrite (sgn_Eq q E). reflexivity.
Qed.

Lemma compare_antisym (a b : number) :
  Num.compare b a = option_map CompOpp (Num.compare a b).
Proof.
  destruct a as [| | |p], b as [| | |q]; simpl; try reflexivity.
  unfold Qccompare. rewrite <- Qcompare_antisym. reflexivity.
Qed.

(** Away from [NaN], [a < b] is the negation of [b <= a]. *)
Lemma lt_not_le (a b : number) :
  isNaN a = false -> isNaN b = false -> Num.lt a b = negb (Num.le b a).
Proof.
  intros Ha Hb. unfold Num.lt, Num.le. rewrite (compare_antisym a b).
  destruct a as [| | |p], b as [| | |q]; simpl in *; try discriminate;
    try reflexivity.
  destruct (p ?= q)%Qc; reflexivity.
Qed.

Lemma orNum_default (v : option number) :
  v <> Some NaN -> orNum v zero = default zero v.
Proof.
  destruct v as [n|]; simpl; [|reflexivity].
  intros Hn. unfold Num.or. destruct (Num.truthy n) eqn:E; [reflexivity|].
  destruct n as [| | |q]; try discriminate; [congruence|].
  symmetry. apply falsy_finite, E.
Qed.

Lemma strOr_default (v : option string) : Str.or v "" = default "" v.
Proof.
  destruct v as [s|]; simpl; [|reflexivity].
  destruct s; reflexivity.
Qed.

End NumFacts.

(* ===================================================================== *)
(** * Rounding to a double *)
(* ===================================================================== *)

Section Rounding.

Local Open Scope Q_scope.

Lemma pow2_pos (k : Z) : 0 < pow2 k.
Proof. apply Qpower_0_lt. reflexivity. Qed.

Lemma pow2_mono (j k : Z) : (j <= k)%Z -> pow2 j <= pow2 k.
Proof. intros H. apply Qpower_le_compat_l; [exact H | discriminate]. Qed.

Lemma pow2_add (j k : Z) : pow2 (j + k) == pow2 j * pow2 k.
Proof. apply Qpower_plus. discriminate. Qed.

Lemma pow2_Z (k : Z) : (0 <= k)%Z -> pow2 k == inject_Z (2 ^ k).
Proof. intros H. symmetry. apply (Zpower_Qpower 2 k H). Qed.

Lemma pow2_sub (j k : Z) : pow2 (j - k) == pow2 j / pow2 k.
Proof. apply Qpower_minus. discriminate. Qed.

(** The exponent [binade] finds is the right one. *)
Lemma binade_lower (q : Q) : ~ q == 0 -> pow2 (binade q) <= Qabs q.
Proof.
  intros Hq. unfold binade.
  destruct (Qle_bool _ _) eqn:E; [apply Qle_bool_iff, E|].
  destruct q as [n d]. cbn [Qnum Qden].
  assert (Hn : (0 < Z.abs n)%Z).
  { unfold Qeq in Hq; simpl in Hq. lia. }
  pose proof (Z.log2_spec _ Hn) as [Hlo _].
  pose proof (Z.log2_spec (Zpos d) ltac:(lia)) as [_ Hhi].
  pose proof (Z.log2_nonneg (Z.abs n)) as Hln.
  pose proof (Z.log2_nonneg (Zpos d)) as Hld.
  replace (Z.log2 (Z.abs n) - Z.log2 (Z.pos d) - 1)%Z
    with (Z.log2 (Z.abs n) - Z.succ (Z.log2 (Z.pos d)))%Z by lia.
  rewrite pow2_sub, !pow2_Z by lia.
  set (A := (2 ^ Z.log2 (Z.abs n))%Z) in *.
  set (B := (2 ^ Z.succ (Z.log2 (Z.pos d)))%Z) in *.
  apply Qle_shift_div_r.
  - change 0 with (inject_Z 0). rewrite <- Zlt_Qlt. lia.
  - unfold Qle, Qabs, inject_Z, Qmult; cbn [Qnum Qden].
    rewrite Pos.mul_1_r. nia.
Qed.

Lemma binade_upper (q : Q) : ~ q == 0 -> Qabs q < pow2 (binade q + 1).
Proof.
  intros Hq. unfold binade.
  destruct (Qle_bool _ _) eqn:E.
  - destruct q as [n d]. cbn [Qnum Qden].
    assert (Hn : (0 < Z.abs n)%Z).
    { unfold Qeq in Hq; simpl in Hq. lia. }
    pose proof (Z.log2_spec _ Hn) as [_ Hhi].
    pose proof (Z.log2_spec (Zpos d) ltac:(lia)) as [Hlo _].
    pose proof (Z.log2_nonneg (Z.abs n)) as Hln.
    pose proof (Z.log2_nonneg (Zpos d)) as Hld.
    replace (Z.log2 (Z.abs n) - Z.log2 (Z.pos d) + 1)%Z
      with (Z.succ (Z.log2 (Z.abs n)) - Z.log2 (Z.pos d))%Z by lia.
    rewrite pow2_sub, !pow2_Z by lia.
    set (A := (2 ^ Z.succ (Z.log2 (Z.abs n)))%Z) in *.
    set (B := (2 ^ Z.log2 (Z.pos d))%Z) in *.
    apply Qlt_shift_div_l.
    + change 0 with (inject_Z 0). rewrite <- Zlt_Qlt. lia.
    + unfold Qlt, Qabs, inject_Z, Qmult; cbn [Qnum Qden].
      rewrite Pos.mul_1_r. nia.
  - replace (Z.log2 (Z.abs (Qnum q)) - Z.log2 (Z.pos (Qden q)) - 1 + 1)%Z
      with (Z.log2 (Z.abs (Qnum q)) - Z.log2 (Z.pos (Qden q)))%Z by lia.
    apply Qnot_le_lt. intros H. apply Qle_bool_iff in H. congruence.
Qed.

(** Rounding to an integer stays between the integers around. *)
Lemma roundHalfEven_floor (x : Q) :
  (Qfloor x <= roundHalfEven x <= Qfloor x + 1)%Z.
Proof.
  unfold roundHalfEven. destruct (_ ?= _); [destruct (Z.even _)| |]; lia.
Qed.

Lemma roundHalfEven_lower (x : Q) (z : Z) :
  inject_Z z <= x -> (z <= roundHalfEven x)%Z.
Proof.
  intros H. apply Qfloor_resp_le in H. rewrite Qfloor_Z in H.
  pose proof (roundHalfEven_floor x). lia.
Qed.

Lemma roundHalfEven_upper (x : Q) (z : Z) :
  x <= inject_Z z -> (roundHalfEven x <= z)%Z.
Proof.
  intros H. pose proof (Qfloor_resp_le _ _ H) as Hf. rewrite Qfloor_Z in Hf.
  pose proof (roundHalfEven_floor x) as Hr.
  destruct (Z.eq_dec (Qfloor x) z) as [E|E]; [|lia].
  unfold roundHalfEven. rewrite E.
  assert (Hx : x - inject_Z z <= 0) by lra.
  destruct (Qcompare_spec (x - inject_Z z) (1 # 2)) as [H1|H1|H1]; try lia; lra.
Qed.

(** The nearest double of a rational is on the same side of a power of
    two as the rational. *)
Lemma nearest_lower (q : Q) (j : Z) :
  ~ q == 0 -> (-1074 <= j)%Z -> pow2 j <= Qabs q -> pow2 j <= nearest q.
Proof.
  intros Hq Hj Hle. unfold nearest, ulp.
  set (k := Z.max (binade q - 52) (-1074)).
  pose proof (pow2_pos k) as Hk.
  destruct (Z_le_gt_dec k j) as [Hkj|Hkj].
  - assert (Hs : pow2 j == inject_Z (2 ^ (j - k)) * pow2 k).
    { rewrite <- pow2_Z by lia. rewrite <- pow2_add. f_equiv. lia. }
    rewrite Hs. apply Qmult_le_compat_r; [|apply Qlt_le_weak, Hk].
    rewrite <- Zle_Qle. apply roundHalfEven_lower.
    apply Qle_shift_div_l; [exact Hk|]. rewrite <- Hs. exact Hle.
  - assert (Ek : k = (binade q - 52)%Z) by lia.
    apply Qle_trans with (pow2 k); [apply pow2_mono; lia|].
    rewrite <- (Qmult_1_l (pow2 k)) at 1.
    apply Qmult_le_compat_r; [|apply Qlt_le_weak, Hk].
    change 1 with (inject_Z 1). rewrite <- Zle_Qle. apply roundHalfEven_lower.
    apply Qle_shift_div_l; [exact Hk|]. rewrite Qmult_1_l.
    apply Qle_trans with (pow2 (binade q)); [apply pow2_mono; lia|].
    apply binade_lower, Hq.
Qed.

Lemma nearest_nonneg (q : Q) : 0 <= nearest q.
Proof.
  unfold nearest. apply Qmult_le_0_compat; [|apply Qlt_le_weak, pow2_pos].
  change 0 with (inject_Z 0). rewrite <- Zle_Qle.
  apply roundHalfEven_lower. apply Qle_shift_div_l; [apply pow2_pos|].
  rewrite Qmult_0_l. apply Qabs_nonneg.
Qed.


(** A value that is an integer is left as it is by [roundHalfEven]. *)
Lemma roundHalfEven_Z (x : Q) (z : Z) : x == inject_Z z -> roundHalfEven x = z.
Proof.
  intros H.
  assert (H1 : (z <= roundHalfEven x)%Z) by (apply roundHalfEven_lower; lra).
  assert (H2 : (roundHalfEven x <= z)%Z) by (apply roundHalfEven_upper; lra).
  lia.
Qed.

Lemma pow2_lt_inv (j k : Z) : pow2 j < pow2 k -> (j < k)%Z.
Proof.
  intros H. destruct (Z_lt_le_dec j k) as [L|L]; [exact L|].
  apply pow2_mono in L. lra.
Qed.

(** The significand has at most 53 bits. *)
Lemma significand_bound (q : Q) :
  ~ q == 0 -> (roundHalfEven (Qabs q / ulp q) <= 2 ^ 53)%Z.
Proof.
  intros Hq. apply roundHalfEven_upper. unfold ulp.
  set (k := Z.max (binade q - 52) (-1074)).
  apply Qle_shift_div_r; [apply pow2_pos|].
  rewrite <- pow2_Z, <- pow2_add by lia.
  apply Qle_trans with (pow2 (binade q + 1));
    [apply Qlt_le_weak, binade_upper, Hq | apply pow2_mono; lia].
Qed.

(** A multiple of a spacing with a significand of at most 53 bits is its
    own nearest multiple. *)
Lemma nearest_representable (p : Q) (m k : Z) :
  (1 <= m <= 2 ^ 53)%Z -> (-1074 <= k)%Z ->
  Qabs p == inject_Z m * pow2 k -> nearest p == Qabs p.
Proof.
  intros Hm Hk Hp.
  assert (Hp0 : ~ p == 0).
  { intros E. rewrite E in Hp. change (Qabs 0) with 0 in Hp.
    pose proof (pow2_pos k).
    assert (0 < inject_Z m) by (change 0 with (inject_Z 0); rewrite <- Zlt_Qlt; lia).
    nra. }
  pose proof (binade_lower p Hp0) as Blo.
  assert (Hb : (binade p - 52 <= k + 1)%Z
               /\ ((binade p - 52 = k + 1)%Z -> m = (2 ^ 53)%Z)).
  { assert (Hle : Qabs p <= pow2 (53 + k)).
    { rewrite Hp, pow2_add, (pow2_Z 53) by lia.
      apply Qmult_le_compat_r; [rewrite <- Zle_Qle; lia | apply Qlt_le_weak, pow2_pos]. }
    split.
    - assert (binade p <= 53 + k)%Z; [|lia].
      apply (Qpower_le_compat_l_inv 2); [|reflexivity].
      apply Qle_trans with (Qabs p); assumption.
    - intros E. destruct (Z.eq_dec m (2 ^ 53)%Z) as [|Hne]; [assumption|exfalso].
      assert (Hlt : Qabs p < pow2 (53 + k)).
      { rewrite Hp, pow2_add, (pow2_Z 53) by lia.
        apply Qmult_lt_compat_r; [apply pow2_pos | rewrite <- Zlt_Qlt; lia]. }
      assert (binade p < 53 + k)%Z by (apply pow2_lt_inv; fold (pow2 (binade p)) in *; lra).
      lia. }
  destruct Hb as [Hb1 Hb2].
  unfold nearest, ulp. set (k' := Z.max (binade p - 52) (-1074)).
  assert (HM : exists M : Z, Qabs p == inject_Z M * pow2 k').
  { destruct (Z_le_gt_dec k' k) as [L|G].
    - exists (m * 2 ^ (k - k'))%Z.
      rewrite Hp, inject_Z_mult, <- pow2_Z by lia.
      rewrite <- Qmult_assoc, <- pow2_add. do 2 f_equiv. lia.
    - assert (Ek : k' = (k + 1)%Z) by lia.
      exists (2 ^ 52)%Z. rewrite Hp, Hb2 by lia.
      rewrite Ek, <- !pow2_Z, <- !pow2_add by lia. f_equiv. lia. }
  destruct HM as [M HM].
  rewrite (roundHalfEven_Z _ M); [symmetry; exact HM|].
  rewrite HM. field. pose proof (pow2_pos k'). lra.
Qed.


Lemma Qnum_neg (p : Q) : (Qnum p <? 0)%Z = true <-> p < 0.
Proof. rewrite Z.ltb_lt. unfold Qlt; simpl. lia. Qed.

Lemma fast_path_zero (q : Q) :
  Qeq_bool q (inject_Z (Qfloor q)) && (Z.abs (Qfloor q) <=? maxSafeInteger)%Z = false ->
  ~ q == 0.
Proof.
  intros H E. rewrite (Qfloor_comp _ _ E) in H. change (Qfloor 0) with 0%Z in H.
  rewrite (proj2 (Qeq_bool_iff q (inject_Z 0)) E) in H. discriminate.
Qed.

(** Rounding a double gives the double back. *)
Lemma double_idempotent (q p : Qc) : double q = Fin p -> double p = Fin p.
Proof.
  intros H. unfold double in H.
  destruct (Qeq_bool q _ && _) eqn:Hc.
  { injection H as <-. unfold double. rewrite Hc. reflexivity. }
  apply fast_path_zero in Hc.
  destruct (Qle_bool (pow2 1024) (nearest q)) eqn:Ho;
    [destruct (Qnum q <? 0)%Z; discriminate|].
  injection H as <-.
  set (v := nearest q) in *.
  set (s := if (Qnum q <? 0)%Z then - v else v).
  assert (Hv0 : 0 <= v) by apply nearest_nonneg.
  assert (Hs : Qabs s == v).
  { unfold s. destruct (Qnum q <? 0)%Z.
    - rewrite Qabs_opp. apply Qabs_pos, Hv0.
    - apply Qabs_pos, Hv0. }
  set (p := Q2Qc s).
  assert (Hp : (p : Q) == s) by apply Qred_correct.
  unfold double.
  destruct (Qeq_bool p _ && _) eqn:Hc'; [reflexivity|].
  apply fast_path_zero in Hc'.
  assert (Hv : 0 < v).
  { destruct (Qlt_le_dec 0 v) as [L|L]; [exact L|exfalso].
    apply Hc'. rewrite Hp.
    assert (E : v == 0) by lra.
    unfold s. destruct (Qnum q <? 0)%Z; rewrite E; reflexivity. }
  assert (Hn : nearest p == v).
  { set (m := roundHalfEven (Qabs q / ulp q)).
    assert (Hm1 : (1 <= m)%Z).
    { destruct (Z_lt_le_dec m 1) as [L|L]; [exfalso | exact L].
      pose proof (roundHalfEven_lower (Qabs q / ulp q) 0) as H0.
      assert (E : m = 0%Z).
      { assert (0 <= m)%Z; [|lia]. apply H0.
        apply Qle_shift_div_l; [apply pow2_pos|]. rewrite Qmult_0_l. apply Qabs_nonneg. }
      unfold v, nearest in Hv. fold m in Hv. rewrite E in Hv.
      rewrite Qmult_0_l in Hv. lra. }
    rewrite (nearest_representable p m (Z.max (binade q - 52) (-1074))).
    - rewrite Hp. exact Hs.
    - split; [exact Hm1 | apply significand_bound, Hc].
    - lia.
    - rewrite Hp, Hs. reflexivity. }
  assert (Ho' : Qle_bool (pow2 1024) (nearest p) = false).
  { destruct (Qle_bool (pow2 1024) (nearest p)) eqn:E; [|reflexivity].
    apply Qle_bool_iff in E. rewrite Hn in E. apply Qle_bool_iff in E. congruence. }
  assert (Hsign : (Qnum p <? 0)%Z = (Qnum q <? 0)%Z).
  { unfold s in Hp. destruct (Qnum q <? 0)%Z.
    - apply Qnum_neg. lra.
    - destruct (Qnum p <? 0)%Z eqn:E; [|reflexivity].
      apply Qnum_neg in E. lra. }
  rewrite Ho', Hsign. f_equal. apply Qc_is_canon.
  apply Qeq_trans with (if (Qnum q <? 0)%Z then - nearest p else nearest p);
    [apply Qred_correct|].
  apply Qeq_trans with s; [|symmetry; exact Hp].
  unfold s. destruct (Qnum q <? 0)%Z; rewrite Hn; reflexivity.
Qed.

Lemma toDouble_idempotent (a : number) : toDouble (toDouble a) = toDouble a.
Proof.
  destruct a as [| | |q]; try reflexivity. simpl.
  destruct (double q) as [| | |p] eqn:E; try reflexivity.
  simpl. apply (double_idempotent q p E).
Qed.

(** A rational that is no less than a power of two rounds to a double
    that is no less, and a rational that is not negative, to a double
    that is not negative. *)
Lemma double_lower (q : Qc) (j : Z) (b : Qc) :
  (-1074 <= j)%Z -> b == pow2 j -> b <= q ->
  Num.le (Fin b) (double q) = true.
Proof.
  intros Hj Hb Hle. pose proof (pow2_pos j) as Hpos.
  unfold double. destruct (Qeq_bool q _ && _) eqn:Hc.
  { unfold Num.le; simpl. unfold Qccompare.
    destruct (b ?= q) eqn:E; try reflexivity.
    apply Qgt_alt in E. lra. }
  apply fast_path_zero in Hc.
  assert (Hs : (Qnum q <? 0)%Z = false).
  { destruct (Qnum q <? 0)%Z eqn:E; [|reflexivity]. apply Qnum_neg in E. lra. }
  rewrite Hs. destruct (Qle_bool _ _); [reflexivity|].
  unfold Num.le; simpl. unfold Qccompare. cbn [this Q2Qc].
  destruct (b ?= Qred (nearest q)) eqn:E; try reflexivity.
  apply Qgt_alt in E. rewrite Qred_correct in E.
  pose proof (nearest_lower q j Hc Hj) as Hn.
  rewrite Qabs_pos in Hn by lra. lra.
Qed.

Lemma double_nonneg (q : Qc) : 0 <= q -> Num.le zero (double q) = true.
Proof.
  intros Hq. unfold double. destruct (Qeq_bool q _ && _) eqn:Hc.
  { unfold Num.le, zero, ofZ, dec; simpl. unfold Qccompare. cbn [this Q2Qc].
    destruct (Qred (0 # 1) ?= q) eqn:E; try reflexivity.
    apply Qgt_alt in E. rewrite Qred_correct in E. lra. }
  assert (Hs : (Qnum q <? 0)%Z = false).
  { destruct (Qnum q <? 0)%Z eqn:E; [|reflexivity]. apply Qnum_neg in E. lra. }
  rewrite Hs. destruct (Qle_bool _ _); [reflexivity|].
  unfold Num.le, zero, ofZ, dec; simpl. unfold Qccompare. cbn [this Q2Qc].
  destruct (Qred (0 # 1) ?= Qred (nearest q)) eqn:E; try reflexivity.
  apply Qgt_alt in E. rewrite !Qred_correct in E.
  pose proof (nearest_nonneg q). lra.
Qed.

Lemma roundHalfEven_error (x : Q) :
  (Qabs (inject_Z (roundHalfEven x) - x) <= 1 # 2)%Q.
Proof.
  pose proof (Qfloor_le x) as H1. pose proof (Qlt_floor x) as H2.
  rewrite inject_Z_plus in H2. change (inject_Z 1) with 1%Q in H2.
  apply Qabs_Qle_condition. unfold roundHalfEven.
  destruct (Qcompare_spec (x - inject_Z (Qfloor x)) (1 # 2)) as [E|E|E].
  - destruct (Z.even _);
      [|rewrite inject_Z_plus; change (inject_Z 1) with 1%Q]; lra.
  - lra.
  - rewrite inject_Z_plus. change (inject_Z 1) with 1%Q. lra.
Qed.

(** The nearest multiple of the spacing is within half a spacing. *)
Lemma nearest_error (q : Q) :
  (Qabs (nearest q - Qabs q) <= ulp q * (1 # 2))%Q.
Proof.
  unfold nearest.
  assert (Hu : (0 < ulp q)%Q) by apply pow2_pos.
  set (u := ulp q) in *. set (x := (Qabs q / u)%Q).
  assert (Hx : (Qabs q == x * u)%Q) by (unfold x; field; lra).
  pose proof (roundHalfEven_error x) as He.
  apply Qabs_Qle_condition in He. apply Qabs_Qle_condition.
  rewrite Hx. nra.
Qed.

Lemma ulp_bound (q : Q) (j : Z) :
  ~ (q == 0)%Q -> (-1074 <= j - 52)%Z -> (Qabs q < pow2 (j + 1))%Q ->
  (ulp q <= pow2 (j - 52))%Q.
Proof.
  intros Hq Hj Hlt. unfold ulp. apply pow2_mono.
  assert (binade q < j + 1)%Z.
  { apply pow2_lt_inv. pose proof (binade_lower q Hq). lra. }
  lia.
Qed.

End Rounding.

Section RoundedValues.

(** Rounding never yields [NaN], and leaves a count as it is. *)
Lemma toDouble_NaN (a : number) : isNaN (toDouble a) = isNaN a.
Proof.
  destruct a as [| | |q]; try reflexivity.
  unfold toDouble, double.
  destruct (_ && _); [reflexivity|].
  destruct (Qle_bool _ _); [|reflexivity].
  destruct (_ <? _); reflexivity.
Qed.

Lemma toDouble_ofZ (z : Z) :
  Z.abs z <= maxSafeInteger -> toDouble (ofZ z) = ofZ z.
Proof.
  intros Hz. unfold toDouble, ofZ, dec, double.
  set (q := Q2Qc (z # 1)).
  assert (Hq : (q == inject_Z z)%Q)
    by (unfold q, Q2Qc; cbn [this]; apply Qred_correct).
  assert (Hf : Qfloor q = z) by (rewrite Hq; apply Qfloor_Z).
  rewrite Hf, (proj2 (Qeq_bool_iff _ _) Hq).
  rewrite (proj2 (Z.leb_le _ _) Hz). reflexivity.
Qed.

Lemma toDouble_ofNat (n : nat) :
  Z.of_nat n <= maxArrayLength -> toDouble (ofNat n) = ofNat n.
Proof.
  intros Hn. apply toDouble_ofZ. unfold maxArrayLength, maxSafeInteger in *. lia.
Qed.

End RoundedValues.

(* ===================================================================== *)
(** * The filter evaluator *)
(* ===================================================================== *)

Section FilterEvaluator.

Import HeatMap.

Lemma nonEmpty_guard {A : Type} (allow : list A) (b : bool) :
  negb (nonEmpty allow && negb b) = match allow with [] => true | _ => b end.
Proof. destruct allow, b; reflexivity. Qed.

(** On real values and with no simulated outcome selected, the callback
    of the memo is the conjunction of the specification's predicates. *)
Lemma passes_satisfies (filters : FilterState) (shot : ShotData) :
  selectedShotOutcomes filters = [] ->
  Spec.realRange filters -> Spec.realRecord shot ->
  passes filters shot = Spec.satisfies filters shot.
Proof.
  intros Hout [Hmin Hmax] [HxG Hper].
  unfold passes, Spec.satisfies, Spec.teamPasses, Spec.periodPasses,
    Spec.rangePasses, Spec.shotTypePasses, Spec.highQualityPasses,
    Spec.highDangerPasses, Num.gt, Num.ge.
  rewrite Hout, strOr_default, strOr_default, (orNum_default _ Hper).
  rewrite (lt_not_le (xG shot) (minXG filters)) by assumption.
  rewrite (lt_not_le (maxXG filters) (xG shot)) by assumption.
  rewrite (lt_not_le (xG shot) (dec 8 10)) by (assumption || reflexivity).
  rewrite (lt_not_le (xG shot) (dec 15 100)) by (assumption || reflexivity).
  destruct (selectedTeams filters), (selectedPeriods filters), (shotType filters);
    cbn [nonEmpty andb negb orb];
    repeat match goal with
           | |- context [Str.includes ?l ?v] => destruct (Str.includes l v)
           | |- context [Num.includes ?l ?v] => destruct (Num.includes l v)
           | |- context [Num.le ?a ?b] => destruct (Num.le a b)
           | |- context [showOnlyGoals ?f] => destruct (showOnlyGoals f)
           | |- context [showOnlyHighDanger ?f] => destruct (showOnlyHighDanger f)
           end; reflexivity.
Qed.

Lemma filter_ext_Forall {A : Type} (f g : A -> bool) (l : list A) :
  Forall (fun a => f a = g a) l -> List.filter f l = List.filter g l.
Proof.
  induction 1 as [|a l Ha _ IH]; simpl; [reflexivity|].
  rewrite Ha, IH. reflexivity.
Qed.

Lemma filter_all {A : Type} (f : A -> bool) (l : list A) :
  Forall (fun a => f a = true) l -> List.filter f l = l.
Proof.
  induction 1 as [|a l Ha _ IH]; simpl; [reflexivity|].
  rewrite Ha, IH. reflexivity.
Qed.

Lemma filteredData_filter (shotData : list ShotData) (filters : FilterState) :
  filteredData shotData filters = List.filter (passes filters) shotData.
Proof. destruct shotData; reflexivity. Qed.

End FilterEvaluator.

Section FilterClaims.

Import HeatMap.

(** C1.  For every collection of real-valued records and every filter
    configuration (real range bounds, no simulated outcome selected), the
    output of the filter evaluator is the input filtered, in its order, by
    the conjunction of the predicates: team, period and shot type pass
    when their allowlist is empty or contains the record's value (absent
    team as the empty string, absent period as 0), the range passes when
    min <= xG <= max, and the high-quality and high-danger flags require
    xG >= 0.8 and xG >= 0.15.  In particular, with empty allowlists, both
    flags off and a range that covers every record, the output is the
    input. *)
Theorem filteredData_is_satisfying_subsequence
    (shotData : list ShotData) (filters : FilterState) :
  selectedShotOutcomes filters = [] ->
  Spec.realRange filters ->
  Forall Spec.realRecord shotData ->
  filteredData shotData filters = List.filter (Spec.satisfies filters) shotData
  /\ (selectedTeams filters = [] -> selectedPeriods filters = [] ->
      shotType filters = [] ->
      showOnlyGoals filters = false -> showOnlyHighDanger filters = false ->
      Forall (fun r => Spec.rangePasses filters r = true) shotData ->
      filteredData shotData filters = shotData).
Proof.
  intros Hout Hrange Hreal.
  assert (Heq : filteredData shotData filters
                = List.filter (Spec.satisfies filters) shotData).
  { rewrite filteredData_filter. apply filter_ext_Forall.
    eapply List.Forall_impl; [|exact Hreal].
    intros r Hr. apply passes_satisfies; assumption. }
  split; [exact Heq|].
  intros Ht Hp Hs Hg Hd Hcover. rewrite Heq. apply filter_all.
  eapply List.Forall_impl; [|exact Hcover].
  intros r Hr. unfold Spec.satisfies, Spec.teamPasses, Spec.periodPasses,
    Spec.shotTypePasses, Spec.highQualityPasses, Spec.highDangerPasses.
  rewrite Ht, Hp, Hs, Hg, Hd, Hr. reflexivity.
Qed.

(** C7.  Filtering is idempotent under a fixed configuration. *)
Theorem filteredData_idempotent (shotData : list ShotData) (filters : FilterState) :
  filteredData (filteredData shotData filters) filters
  = filteredData shotData filters.
Proof.
  rewrite !filteredData_filter.
  induction shotData as [|r rest IH]; simpl; [reflexivity|].
  destruct (passes filters r) eqn:E; simpl; [|exact IH].
  rewrite E, IH. reflexivity.
Qed.

End FilterClaims.

(* ===================================================================== *)
(** * Order facts and [Math.min] / [Math.max] *)
(* ===================================================================== *)

Section MinMax.

Lemma le_refl (a : number) : isNaN a = false -> Num.le a a = true.
Proof.
  destruct a as [| | |p]; simpl; try discriminate; try reflexivity.
  intros _. unfold Num.le; simpl. unfold Qccompare.
  rewrite (proj1 (Qeq_alt p p)) by reflexivity. reflexivity.
Qed.

Lemma le_Fin (p q : Qc) : Num.le (Fin p) (Fin q) = true <-> (p <= q)%Qc.
Proof.
  unfold Num.le; simpl. rewrite Qcle_alt.
  destruct (p ?= q)%Qc; split; intros H; try reflexivity; try discriminate.
  exfalso. apply H. reflexivity.
Qed.

Lemma le_trans (a b c : number) :
  Num.le a b = true -> Num.le b c = true -> Num.le a c = true.
Proof.
  destruct a as [| | |p], b as [| | |q], c as [| | |r];
    try (intros; reflexivity); try (intros; discriminate);
    try (unfold Num.le; simpl; intros; discriminate).
  rewrite !le_Fin. apply Qcle_trans.
Qed.

Lemma lt_le (a b : number) : Num.lt a b = true -> Num.le a b = true.
Proof.
  unfold Num.lt, Num.le. destruct (Num.compare a b) as [[]|]; congruence.
Qed.

Lemma not_lt_le (a b : number) :
  isNaN a = false -> isNaN b = false -> Num.lt a b = false -> Num.le b a = true.
Proof.
  intros Ha Hb H. rewrite (lt_not_le a b Ha Hb) in H.
  destruct (Num.le b a); [reflexivity | discriminate].
Qed.

Lemma min2_spec (a b : number) :
  isNaN a = false -> isNaN b = false ->
  isNaN (min2 a b) = false
  /\ Num.le (min2 a b) a = true /\ Num.le (min2 a b) b = true.
Proof.
  intros Ha Hb. unfold min2. rewrite Ha, Hb. simpl.
  destruct (Num.lt b a) eqn:E.
  - repeat split; [assumption | apply lt_le, E | apply le_refl, Hb].
  - repeat split; [assumption | apply le_refl, Ha | apply not_lt_le; assumption].
Qed.

Lemma max2_spec (a b : number) :
  isNaN a = false -> isNaN b = false ->
  isNaN (max2 a b) = false
  /\ Num.le a (max2 a b) = true /\ Num.le b (max2 a b) = true.
Proof.
  intros Ha Hb. unfold max2. rewrite Ha, Hb. simpl.
  destruct (Num.lt a b) eqn:E.
  - repeat split; [assumption | apply lt_le, E | apply le_refl, Hb].
  - repeat split; [assumption | apply le_refl, Ha | apply not_lt_le; assumption].
Qed.

Lemma fold_min2_spec (xs : list number) (acc : number) :
  isNaN acc = false -> Forall (fun v => isNaN v = false) xs ->
  isNaN (fold_left min2 xs acc) = false
  /\ Num.le (fold_left min2 xs acc) acc = true
  /\ Forall (fun v => Num.le (fold_left min2 xs acc) v = true) xs.
Proof.
  intros Hacc Hxs. revert acc Hacc.
  induction Hxs as [|v xs Hv _ IH]; intros acc Hacc; simpl.
  - repeat split; [assumption | apply le_refl, Hacc | constructor].
  - destruct (min2_spec acc v Hacc Hv) as (Hn & Hl & Hr).
    destruct (IH (min2 acc v) Hn) as (Hn' & Hl' & Hall).
    repeat split; [assumption | eapply le_trans; eassumption |].
    constructor; [eapply le_trans; eassumption | assumption].
Qed.

Lemma fold_max2_spec (xs : list number) (acc : number) :
  isNaN acc = false -> Forall (fun v => isNaN v = false) xs ->
  isNaN (fold_left max2 xs acc) = false
  /\ Num.le acc (fold_left max2 xs acc) = true
  /\ Forall (fun v => Num.le v (fold_left max2 xs acc) = true) xs.
Proof.
  intros Hacc Hxs. revert acc Hacc.
  induction Hxs as [|v xs Hv _ IH]; intros acc Hacc; simpl.
  - repeat split; [assumption | apply le_refl, Hacc | constructor].
  - destruct (max2_spec acc v Hacc Hv) as (Hn & Hl & Hr).
    destruct (IH (max2 acc v) Hn) as (Hn' & Hl' & Hall).
    repeat split; [assumption | eapply le_trans; eassumption |].
    constructor; [eapply le_trans; eassumption | assumption].
Qed.

(** [Math.min(...xs)] is below and [Math.max(...xs)] above every element
    of a list without [NaN]. *)
Lemma min_max_bounds (xs : list number) :
  Forall (fun v => isNaN v = false) xs ->
  Forall (fun v => Num.le (Num.min xs) v = true /\ Num.le v (Num.max xs) = true) xs.
Proof.
  intros Hxs.
  destruct (fold_min2_spec xs PosInf eq_refl Hxs) as (_ & _ & Hmin).
  destruct (fold_max2_spec xs NegInf eq_refl Hxs) as (_ & _ & Hmax).
  rewrite List.Forall_forall in *. intros v Hv. split; [apply Hmin | apply Hmax]; exact Hv.
Qed.

(** On finite values the folds stay finite. *)
Lemma fold_min2_finite (xs : list number) (p : Qc) :
  Forall (fun v => isFinite v = true) xs ->
  isFinite (fold_left min2 xs (Fin p)) = true.
Proof.
  intros Hxs. revert p.
  induction Hxs as [|v xs Hv _ IH]; intros p; simpl; [reflexivity|].
  destruct v as [| | |q]; try discriminate.
  unfold min2; simpl. destruct (Num.lt (Fin q) (Fin p)); apply IH.
Qed.

Lemma fold_max2_finite (xs : list number) (p : Qc) :
  Forall (fun v => isFinite v = true) xs ->
  isFinite (fold_left max2 xs (Fin p)) = true.
Proof.
  intros Hxs. revert p.
  induction Hxs as [|v xs Hv _ IH]; intros p; simpl; [reflexivity|].
  destruct v as [| | |q]; try discriminate.
  unfold max2; simpl. destruct (Num.lt (Fin p) (Fin q)); apply IH.
Qed.

Lemma min_max_finite (xs : list number) :
  xs <> [] -> Forall (fun v => isFinite v = true) xs ->
  isFinite (Num.min xs) = true /\ isFinite (Num.max xs) = true.
Proof.
  intros Hne Hxs. destruct Hxs as [|v xs Hv Hxs]; [congruence|].
  destruct v as [| | |q]; try discriminate.
  split; [apply (fold_min2_finite xs q Hxs) | apply (fold_max2_finite xs q Hxs)].
Qed.

Lemma lt_irrefl (a : number) : Num.lt a a = false.
Proof.
  destruct a as [| | |p]; try reflexivity.
  unfold Num.lt; simpl. unfold Qccompare.
  rewrite (proj1 (Qeq_alt p p)) by reflexivity. reflexivity.
Qed.

(** When every element is the same finite value, so are both bounds. *)
Lemma min_max_constant (xs : list number) (a : Qc) :
  xs <> [] -> Forall (fun v => v = Fin a) xs ->
  Num.min xs = Fin a /\ Num.max xs = Fin a.
Proof.
  intros Hne Hxs. destruct Hxs as [|v xs -> Hxs]; [congruence|].
  unfold Num.min, Num.max; simpl.
  change (min2 PosInf (Fin a)) with (Fin a).
  change (max2 NegInf (Fin a)) with (Fin a).
  clear Hne. induction Hxs as [|v xs -> _ [IH1 IH2]]; simpl; [split; reflexivity|].
  unfold min2, max2; simpl. rewrite (lt_irrefl (Fin a)). split; assumption.
Qed.

End MinMax.


(* ===================================================================== *)
(** * The dataset summary and the loader *)
(* ===================================================================== *)

Section Loader.

Import CsvLoaderService.


(** C2.  On the empty collection the summary's average is the quotient of
    0 by 0, which is [NaN] and not 0; the average the chart computes for
    its statistics and for a bin, [d3.mean(...) || 0], is 0 there. *)
Theorem getDatasetSummary_empty_average :
  avgXG (getDatasetSummary []) = NaN
  /\ orNum (D3.mean ([] : list ShotData) xG) zero = zero.
Proof. split; reflexivity. Qed.

(** C9, as stated, fails: on the empty collection the four bounds are
    infinities, not finite values or a marker of emptiness. *)
Lemma getDatasetSummary_empty_bounds_infinite :
  let bounds := coordinateRanges (getDatasetSummary []) in
  isFinite (xMin bounds) = false /\ isFinite (xMax bounds) = false
  /\ isFinite (yMin bounds) = false /\ isFinite (yMax bounds) = false.
Proof. repeat split. Qed.

(** C9, amended.  On the empty collection the bounds are [Infinity] for
    the minima and [-Infinity] for the maxima, none of them [NaN]; they do
    not reach the scales, because the chart effect does nothing when there
    is no record. *)
Theorem getDatasetSummary_empty_bounds :
  coordinateRanges (getDatasetSummary [])
  = {| xMin := PosInf; xMax := NegInf; yMin := PosInf; yMax := NegInf |}
  /\ forall (Color : Type) (reds ylOrRd : number -> Color) (unknown : Color)
       (dataSummary : option DatasetSummary) (filters : HeatMap.FilterState),
       HeatMap.chart Color reds ylOrRd unknown [] dataSummary filters = None.
Proof. split; reflexivity. Qed.

(** C6, as stated, fails: a row whose x cell is no number is not dropped;
    it yields a record whose x is [NaN]. *)
Lemma malformed_row_is_kept :
  Str.parseFloatV (Samples.malformedRow !! "x") = NaN
  /\ @loadHockeyDataFromCsv unit (inr [Samples.malformedRow])
     = inr [convertCsvRowToShotData Samples.malformedRow]
  /\ x (convertCsvRowToShotData Samples.malformedRow) = NaN.
Proof. repeat split. Qed.

(** C6, amended.  Loading drops no row: the collection has one record per
    row, in the order of the rows, and the coordinates of a record are the
    values [parseFloat] reads from the x and y cells, [NaN] when a cell is
    no number (no repair). *)
Theorem loadHockeyDataFromCsv_keeps_every_row (E : Type) (rows : list CsvRow) :
  exists data : list ShotData,
    @loadHockeyDataFromCsv E (inr rows) = inr data
    /\ length data = length rows
    /\ Forall2 (fun row shot =>
                  x shot = Str.parseFloatV (row !! "x")
                  /\ y shot = Str.parseFloatV (row !! "y"))
               rows data.
Proof.
  exists (map convertCsvRowToShotData rows). split; [reflexivity|].
  split; [apply length_map|].
  induction rows as [|row rows IH]; simpl; constructor; [split; reflexivity | exact IH].
Qed.

(** C10, as stated, fails: with an empty team list, a record whose team
    is present but is the empty text is kept; and so is, with an empty
    period list, a record whose period is 0. *)
Lemma filterData_keeps_present_falsy_field :
  teamId Samples.shotNoTeam = Some ""
  /\ filterData [Samples.shotNoTeam] Samples.noTeamAllowed = [Samples.shotNoTeam]
  /\ period (Samples.shot zero zero zero 0 "EDM") = Some zero
  /\ filterData [Samples.shot zero zero zero 0 "EDM"] Samples.noPeriodAllowed
     = [Samples.shot zero zero zero 0 "EDM"].
Proof. repeat split. Qed.

(** C10, amended.  In [filterData], a record whose team (period) is absent
    or falsy passes the team (period) test whatever list is supplied, and
    an empty, defined team (period) list rejects every record whose team
    (period) is present and truthy: a non-empty text, a number other than
    0 and [NaN]. *)
Theorem filterData_absent_passes_empty_rejects
    (data : list ShotData) (filters : Criteria) :
  (forall (shot : ShotData) (ts : option (list string)),
      Str.truthyOpt (teamId shot) = false ->
      keeps (withTeams ts filters) shot = keeps (withTeams None filters) shot)
  /\ (forall (shot : ShotData) (ps : option (list number)),
      truthyNum (period shot) = false ->
      keeps (withPeriods ps filters) shot = keeps (withPeriods None filters) shot)
  /\ (teams filters = Some [] ->
      Forall (fun shot => Str.truthyOpt (teamId shot) = false)
             (filterData data filters))
  /\ (periods filters = Some [] ->
      Forall (fun shot => truthyNum (period shot) = false)
             (filterData data filters)).
Proof.
  repeat split.
  - intros shot ts Hteam. unfold keeps, withTeams; simpl.
    destruct ts as [ts|]; [|reflexivity].
    destruct (teamId shot) as [t|]; [|reflexivity].
    simpl in Hteam. rewrite Hteam. reflexivity.
  - intros shot ps Hper. unfold keeps, withPeriods; simpl.
    destruct ps as [ps|]; [|reflexivity].
    destruct (period shot) as [p|]; [|reflexivity].
    simpl in Hper. rewrite Hper. reflexivity.
  - intros Hts. apply List.Forall_forall. intros shot Hin.
    apply filter_In in Hin. destruct Hin as [_ Hk].
    unfold keeps in Hk. rewrite Hts in Hk.
    destruct (teamId shot) as [t|]; [|reflexivity]. simpl in *.
    destruct (Str.truthy t); [discriminate | reflexivity].
  - intros Hps. apply List.Forall_forall. intros shot Hin.
    apply filter_In in Hin. destruct Hin as [_ Hk].
    unfold keeps in Hk. rewrite Hps in Hk.
    destruct (period shot) as [p|]; [|reflexivity]. simpl in *.
    destruct (Num.truthy p); [|reflexivity].
    simpl in Hk. destruct (match teams filters with Some _ => _ | None => _ end);
      discriminate.
Qed.

End Loader.

(* ===================================================================== *)
(** * The coordinate-to-pixel scales *)
(* ===================================================================== *)

Section Scales.

Import CsvLoaderService HeatMap.

Lemma sub_self (a : Qc) : sub (Fin a) (Fin a) = zero.
Proof.
  unfold sub; simpl. rewrite Qcplus_opp_r. reflexivity.
Qed.

(** On a domain of zero width nothing is divided: the position in the
    domain is the constant one half. *)
Lemma normalize_zero_width (a : Qc) (v : number) :
  D3.normalize (Fin a) (Fin a) v = dec 1 2.
Proof. unfold D3.normalize. rewrite sub_self. reflexivity. Qed.

Lemma bimap_zero_width (a : Qc) (range : number * number) (v : number) :
  D3.bimap (Fin a, Fin a) range v
  = D3.interpolateNumber (fst range) (snd range) (dec 1 2).
Proof.
  destruct range as [r0 r1]. unfold D3.bimap.
  rewrite (lt_irrefl (Fin a)), normalize_zero_width. reflexivity.
Qed.

Lemma truthy_sgn (q : Qc) : Num.truthy (Fin q) = true -> sgn q <> Eq.
Proof. simpl. destruct (sgn q); congruence. Qed.

Lemma div_finite (p q : Qc) :
  Num.truthy (Fin q) = true -> div (Fin p) (Fin q) = Fin (p / q)%Qc.
Proof.
  intros H. apply truthy_sgn in H. unfold div.
  destruct (sgn q); [congruence | reflexivity | reflexivity].
Qed.

Lemma normalize_finite (a b v : Qc) :
  isFinite (D3.normalize (Fin a) (Fin b) (Fin v)) = true.
Proof.
  unfold D3.normalize.
  change (sub (Fin b) (Fin a)) with (Fin (b + - a)%Qc).
  destruct (Num.truthy (Fin (b + - a)%Qc)) eqn:E; [|reflexivity].
  change (sub (Fin v) (Fin a)) with (Fin (v + - a)%Qc).
  rewrite (div_finite _ _ E). reflexivity.
Qed.

Lemma interpolateNumber_finite (a b t : number) :
  isFinite a = true -> isFinite b = true -> isFinite t = true ->
  isFinite (D3.interpolateNumber a b t) = true.
Proof.
  destruct a, b, t; try discriminate. reflexivity.
Qed.

(** A scale with finite domain and range maps a finite value to a finite
    pixel position. *)
Lemma scaleLinear_finite (d0 d1 r0 r1 v : number) :
  isFinite d0 = true -> isFinite d1 = true ->
  isFinite r0 = true -> isFinite r1 = true -> isFinite v = true ->
  isFinite (D3.toNumber (D3.scaleLinear (d0, d1) (r0, r1) v)) = true.
Proof.
  intros H0 H1 Hr0 Hr1 Hv.
  destruct d0 as [| | |a], d1 as [| | |b], v as [| | |c]; try discriminate.
  unfold D3.scaleLinear, D3.bimap; simpl.
  destruct (Num.lt (Fin b) (Fin a));
    apply interpolateNumber_finite; try assumption; apply normalize_finite.
Qed.

(** C8.  When every record has the same finite x (respectively y), the
    domain of the x (respectively y) scale has zero width; the scale then
    divides by nothing (the position in the domain is the constant one
    half) and sends every number to one fixed pixel position, the middle
    of the pixel range: 440 for x and 350 for y. *)
Theorem zero_width_domain_maps_to_fixed_pixel
    (data : list ShotData) (a : Qc) (v : number) :
  data <> [] -> isNaN v = false ->
  (Forall (fun shot => x shot = Fin a) data ->
     D3.normalize (xMin (coordinateRanges (getDatasetSummary data)))
                  (xMax (coordinateRanges (getDatasetSummary data))) v = dec 1 2
     /\ xScale (getDatasetSummary data) v = Some (ofZ 440))
  /\ (Forall (fun shot => y shot = Fin a) data ->
     D3.normalize (yMin (coordinateRanges (getDatasetSummary data)))
                  (yMax (coordinateRanges (getDatasetSummary data))) v = dec 1 2
     /\ yScale (getDatasetSummary data) v = Some (ofZ 350)).
Proof.
  intros Hne Hv.
  assert (Hmap : forall f : ShotData -> number,
             Forall (fun shot => f shot = Fin a) data ->
             Num.min (map f data) = Fin a /\ Num.max (map f data) = Fin a).
  { intros f Hf. apply min_max_constant.
    - destruct data; [congruence | discriminate].
    - apply List.Forall_map. exact Hf. }
  split; intros Hall; destruct (Hmap _ Hall) as [Hmin Hmax].
  - unfold xScale, D3.scaleLinear, getDatasetSummary.
    cbn [coordinateRanges xMin xMax]. rewrite Hmin, Hmax, Hv.
    split; [apply normalize_zero_width|].
    rewrite bimap_zero_width. f_equal; number_eq.
  - unfold yScale, D3.scaleLinear, getDatasetSummary.
    cbn [coordinateRanges yMin yMax]. rewrite Hmin, Hmax, Hv.
    split; [apply normalize_zero_width|].
    rewrite bimap_zero_width. f_equal; number_eq.
Qed.

End Scales.

(* ===================================================================== *)
(** * The spatial binning *)
(* ===================================================================== *)

Section Binning.

Import CsvLoaderService HeatMap.

Context {A : Type}.
Variables (px py : A -> number) (r : number).


Lemma addPoint_members (id : D3.BinId) (point : A) (bins : list (D3.BinId * D3.Bin A)) :
  Permutation (membersOf (D3.addPoint r id point bins)) (point :: membersOf bins).
Proof.
  unfold membersOf.
  induction bins as [|[id' bin] rest IH]; simpl.
  - apply Permutation_refl.
  - destruct (decide (id' = id)) as [_|_]; simpl.
    + rewrite <- app_assoc; simpl. symmetry. apply Permutation_middle.
    + rewrite IH. symmetry. apply Permutation_middle.
Qed.

Lemma addPoint_nonempty (id : D3.BinId) (point : A) (bins : list (D3.BinId * D3.Bin A)) :
  Forall (fun b => D3.points (snd b) <> []) bins ->
  Forall (fun b => D3.points (snd b) <> []) (D3.addPoint r id point bins).
Proof.
  induction 1 as [|[id' bin] rest Hb Hrest IH]; simpl.
  - constructor; [discriminate | constructor].
  - destruct (decide (id' = id)) as [_|_]; constructor; simpl; try assumption.
    destruct (D3.points bin); discriminate.
Qed.

Lemma hexbinLoop_nonempty (pts : list A) (bins : list (D3.BinId * D3.Bin A)) :
  Forall (fun b => D3.points (snd b) <> []) bins ->
  Forall (fun b => D3.points (snd b) <> [])
         (fold_left (D3.hexbinStep px py r) pts bins).
Proof.
  revert bins. induction pts as [|p pts IH]; intros bins Hb; simpl; [exact Hb|].
  apply IH. unfold D3.hexbinStep.
  destruct (isNaN (px p) || isNaN (py p)); [exact Hb | apply addPoint_nonempty, Hb].
Qed.

(** The loop keeps, once each, the points whose position is a number, and
    passes over the others. *)
Lemma hexbinLoop_positioned (pts : list A) (bins : list (D3.BinId * D3.Bin A)) :
  Permutation
    (membersOf (fold_left (D3.hexbinStep px py r) pts bins))
    (membersOf bins
       ++ List.filter (fun p => negb (isNaN (px p) || isNaN (py p))) pts)%list.
Proof.
  revert bins. induction pts as [|p pts IH]; intros bins; simpl.
  - rewrite app_nil_r. apply Permutation_refl.
  - rewrite IH. unfold D3.hexbinStep.
    destruct (isNaN (px p) || isNaN (py p)); simpl.
    + apply Permutation_refl.
    + rewrite addPoint_members. apply Permutation_middle.
Qed.

Lemma hexbin_positioned (pts : list A) :
  Permutation (concat (map D3.points (D3.hexbin px py r pts)))
              (List.filter (fun p => negb (isNaN (px p) || isNaN (py p))) pts).
Proof.
  unfold D3.hexbin, D3.hexbinLoop.
  rewrite map_map. apply (hexbinLoop_positioned pts []).
Qed.

Lemma hexbin_nonempty (pts : list A) :
  Forall (fun b => D3.points b <> []) (D3.hexbin px py r pts).
Proof.
  unfold D3.hexbin, D3.hexbinLoop. apply List.Forall_map.
  apply hexbinLoop_nonempty. constructor.
Qed.

End Binning.

Section BinningClaim.

Import CsvLoaderService HeatMap.

Lemma isFinite_not_NaN (a : number) : isFinite a = true -> isNaN a = false.
Proof. destruct a; try discriminate; reflexivity. Qed.

Lemma drawnBins_all (bins : list (D3.Bin ShotData)) :
  Forall (fun b => D3.points b <> []) bins -> drawnBins bins = bins.
Proof.
  intros H. apply filter_all. eapply List.Forall_impl; [|exact H].
  intros b Hb. cbv beta in Hb. destruct (D3.points b); [congruence | reflexivity].
Qed.

Lemma filteredData_incl (shotData : list ShotData) (filters : FilterState) (P : ShotData -> Prop) :
  Forall P shotData -> Forall P (filteredData shotData filters).
Proof.
  rewrite filteredData_filter, !List.Forall_forall.
  intros H s Hs. apply filter_In in Hs. apply H, Hs.
Qed.

(** The pixel position of a record with finite coordinates, under the
    scales of the summary of a collection of such records, is finite. *)
Lemma pixel_position_finite (shotData : list ShotData) (shot : ShotData) :
  shotData <> [] ->
  Forall (fun s => isFinite (x s) = true /\ isFinite (y s) = true) shotData ->
  isFinite (x shot) = true -> isFinite (y shot) = true ->
  isFinite (D3.toNumber (xScale (getDatasetSummary shotData) (x shot))) = true
  /\ isFinite (D3.toNumber (yScale (getDatasetSummary shotData) (y shot))) = true.
Proof.
  intros Hne Hall Hx Hy.
  assert (Hxs : Forall (fun v => isFinite v = true) (map x shotData)).
  { apply List.Forall_map. eapply List.Forall_impl; [|exact Hall]. intros s Hs; apply Hs. }
  assert (Hys : Forall (fun v => isFinite v = true) (map y shotData)).
  { apply List.Forall_map. eapply List.Forall_impl; [|exact Hall]. intros s Hs; apply Hs. }
  assert (Hnx : map x shotData <> []) by (destruct shotData; [congruence | discriminate]).
  assert (Hny : map y shotData <> []) by (destruct shotData; [congruence | discriminate]).
  destruct (min_max_finite _ Hnx Hxs) as [Hx0 Hx1].
  destruct (min_max_finite _ Hny Hys) as [Hy0 Hy1].
  split; apply scaleLinear_finite; try assumption; reflexivity.
Qed.

(** C3, as stated, fails.  A file of three rows, the first with an x
    cell that is no number, loads as three records, the first with x
    [NaN]; with the filters the component sets on load the three records
    are in the filtered sequence.  The bound of the x scale is [NaN],
    every pixel position is [NaN], the binning passes over every record
    and no bin is drawn: the bins do not hold the filtered records. *)
Lemma malformed_coordinate_leaves_no_bin :
  let shotData :=
    map convertCsvRowToShotData
        [Samples.malformedRow; Samples.timedRow; Samples.bareRow] in
  let filters := filtersOnLoad initialFilters shotData in
  let filtered := filteredData shotData filters in
  let bins :=
    drawnBins (hexData (getDatasetSummary shotData) filters filtered) in
  x (convertCsvRowToShotData Samples.malformedRow) = NaN
  /\ filtered = shotData
  /\ bins = []
  /\ ~ Permutation (concat (map D3.points bins)) filtered.
Proof.
  cbv zeta.
  set (shotData := map convertCsvRowToShotData
                       [Samples.malformedRow; Samples.timedRow; Samples.bareRow]).
  set (filters := filtersOnLoad initialFilters shotData).
  assert (Hf : filteredData shotData filters = shotData)
    by (vm_compute; reflexivity).
  assert (Hb : drawnBins (hexData (getDatasetSummary shotData) filters
                                  (filteredData shotData filters)) = [])
    by (vm_compute; reflexivity).
  split; [reflexivity|]. split; [exact Hf|]. split; [exact Hb|].
  rewrite Hb, Hf. intros Hp. apply Permutation_length in Hp. discriminate.
Qed.

(** C3, amended.  Every bin the chart draws has at least one member, and
    the members of the drawn bins, taken together, are, each exactly once,
    the filtered records whose pixel position is a number.  They are all
    the filtered records when the coordinates of the collection are
    finite. *)
Theorem drawn_bins_partition_positioned_records
    (shotData : list ShotData) (filters : FilterState) :
  let filtered := filteredData shotData filters in
  let summary := getDatasetSummary shotData in
  let bins := drawnBins (hexData summary filters filtered) in
  let positioned (s : ShotData) :=
    negb (isNaN (D3.toNumber (xScale summary (x s)))
          || isNaN (D3.toNumber (yScale summary (y s)))) in
  Forall (fun b => (1 <= length (D3.points b))%nat) bins
  /\ Permutation (concat (map D3.points bins)) (List.filter positioned filtered)
  /\ (Forall (fun s => isFinite (x s) = true /\ isFinite (y s) = true) shotData ->
      Permutation (concat (map D3.points bins)) filtered).
Proof.
  intros filtered summary bins positioned.
  assert (Hpos : Permutation (concat (map D3.points bins))
                             (List.filter positioned filtered)).
  { subst bins. unfold hexData.
    rewrite drawnBins_all by apply hexbin_nonempty.
    apply hexbin_positioned. }
  split; [|split; [exact Hpos|]].
  - apply List.Forall_forall. intros b Hb. apply filter_In in Hb.
    destruct Hb as [_ Hb]. apply Nat.ltb_lt in Hb. lia.
  - intros Hall. rewrite Hpos.
    replace (List.filter positioned filtered) with filtered;
      [apply Permutation_refl|].
    symmetry. apply filter_all.
    assert (Hcase : shotData = [] \/ shotData <> [])
      by (destruct shotData; [left; reflexivity | right; discriminate]).
    destruct Hcase as [E | Hne]; [subst filtered; rewrite E; constructor|].
    eapply List.Forall_impl; [|exact (filteredData_incl _ filters _ Hall)].
    intros s [Hx Hy]. subst positioned summary. cbv beta.
    destruct (pixel_position_finite shotData s Hne Hall Hx Hy) as [Hpx Hpy].
    rewrite (isFinite_not_NaN _ Hpx), (isFinite_not_NaN _ Hpy). reflexivity.
Qed.

End BinningClaim.

(* ===================================================================== *)
(** * The colour of a bin *)
(* ===================================================================== *)

Section ColorMapper.

Import CsvLoaderService HeatMap.

Lemma truthy_ofNat (n : nat) : (1 <= n)%nat -> Num.truthy (ofNat n) = true.
Proof.
  intros Hn. unfold ofNat, ofZ, dec; simpl.
  destruct (sgn (Q2Qc (Z.of_nat n # 1))) eqn:E; try reflexivity.
  apply sgn_Eq, Q2Qc_eq_iff in E. unfold Qeq in E; simpl in E. lia.
Qed.

Lemma or_zero (m : number) : isNaN m = false -> Num.or m zero = m.
Proof.
  intros Hm. unfold Num.or. destruct (Num.truthy m) eqn:E; [reflexivity|].
  destruct m as [| | |q]; try discriminate. symmetry. apply falsy_finite, E.
Qed.

Lemma add_not_NaN (a b : number) :
  isNaN a = false -> isFinite b = true -> isNaN (add a b) = false.
Proof. destruct a, b; try discriminate; reflexivity. Qed.

Lemma addD_not_NaN (a b : number) :
  isNaN a = false -> isFinite (toDouble b) = true -> isNaN (addD a b) = false.
Proof.
  intros Ha Hb. unfold addD. rewrite toDouble_NaN.
  apply add_not_NaN; [rewrite toDouble_NaN; exact Ha | exact Hb].
Qed.

(** A sum of finite doubles may overflow to an infinity, never to [NaN]. *)
Lemma sum_not_NaN (vs : list number) (s : number) :
  isNaN s = false ->
  Forall (fun v => isFinite (toDouble v) = true) vs ->
  isNaN (fold_left addD vs s) = false.
Proof.
  intros Hs Hvs. revert s Hs.
  induction Hvs as [|v vs Hv _ IH]; intros s Hs; simpl; [exact Hs|].
  apply IH, addD_not_NaN; assumption.
Qed.

Lemma divD_count_not_NaN (s : number) (n : nat) :
  isNaN s = false -> (1 <= n)%nat -> Z.of_nat n <= maxArrayLength ->
  isNaN (divD s (ofNat n)) = false.
Proof.
  intros Hs Hn Hmax. unfold divD.
  rewrite toDouble_NaN, (toDouble_ofNat n Hmax).
  pose proof (truthy_ofNat n Hn) as Ht.
  rewrite <- toDouble_NaN in Hs.
  destruct (toDouble s) as [| | |p]; try discriminate;
    unfold ofNat, ofZ, dec in *; simpl in *;
    destruct (sgn (Q2Qc (Z.of_nat n # 1))); try discriminate; reflexivity.
Qed.

(** [d3.mean] counts every value that is a number. *)
Lemma meanStep_fold (vs : list number) (n : nat) (s : number) :
  Forall (fun v => isNaN v = false) vs ->
  fold_left D3.meanStep vs (n, s) = ((n + length vs)%nat, fold_left addD vs s).
Proof.
  intros Hvs. revert n s.
  induction Hvs as [|v vs Hv _ IH]; intros n s; simpl.
  - rewrite Nat.add_0_r. reflexivity.
  - unfold D3.meanStep at 2. unfold Num.ge.
    rewrite le_refl by exact Hv. simpl.
    rewrite IH. f_equal. lia.
Qed.

(** On a bin with a member whose values are numbers, the mean [d3.mean]
    computes is the bin's [averageExpectedGoal]. *)
Lemma mean_is_average (members : list ShotData) :
  members <> [] -> Forall (fun s => isNaN (xG s) = false) members ->
  D3.mean members xG = Some (Spec.averageExpectedGoal members).
Proof.
  intros Hne Hnum.
  assert (Hvs : Forall (fun v => isNaN v = false) (map xG members))
    by (apply List.Forall_map; exact Hnum).
  unfold D3.mean, Spec.averageExpectedGoal, Num.sum.
  rewrite (meanStep_fold _ _ _ Hvs), length_map. simpl.
  destruct members; [congruence | reflexivity].
Qed.

Lemma finite_double_not_NaN (a : number) :
  isFinite (toDouble a) = true -> isNaN a = false.
Proof.
  intros H. rewrite <- toDouble_NaN. apply isFinite_not_NaN, H.
Qed.

(** When the values are finite doubles, the average is a number, so that
    the [|| 0] of the callback leaves it as it is. *)
Lemma average_not_NaN (members : list ShotData) :
  members <> [] -> Z.of_nat (length members) <= maxArrayLength ->
  Forall (fun s => isFinite (toDouble (xG s)) = true) members ->
  isNaN (Spec.averageExpectedGoal members) = false.
Proof.
  intros Hne Hlen Hfin. unfold Spec.averageExpectedGoal, Num.sum.
  apply divD_count_not_NaN.
  - apply sum_not_NaN; [reflexivity | apply List.Forall_map; exact Hfin].
  - destruct members; [congruence | simpl; lia].
  - exact Hlen.
Qed.

Lemma avgXG_is_average (members : list ShotData) :
  members <> [] -> Z.of_nat (length members) <= maxArrayLength ->
  Forall (fun s => isFinite (toDouble (xG s)) = true) members ->
  orNum (D3.mean members xG) zero = Spec.averageExpectedGoal members.
Proof.
  intros Hne Hlen Hfin. rewrite mean_is_average; [|exact Hne|].
  - simpl. apply or_zero, average_not_NaN; assumption.
  - eapply List.Forall_impl; [|exact Hfin].
    intros s Hs. apply finite_double_not_NaN, Hs.
Qed.

Lemma sub_zero (q : Qc) : sub (Fin q) zero = Fin q.
Proof.
  unfold sub, zero, ofZ, dec; simpl. f_equal.
  change (Q2Qc (0 # 1)) with 0%Qc. ring.
Qed.

Lemma subD_zero (n : nat) :
  Z.of_nat n <= maxArrayLength -> subD (ofNat n) zero = ofNat n.
Proof.
  intros Hn. unfold subD.
  change (toDouble zero) with zero. rewrite (toDouble_ofNat n Hn).
  unfold ofNat, ofZ, dec. rewrite sub_zero. apply (toDouble_ofNat n Hn).
Qed.

(** The reciprocal of a count is a double above 2^-32: it is not 0. *)
Lemma reciprocal_not_zero (m : nat) :
  (1 <= m)%nat -> Z.of_nat m <= maxArrayLength ->
  divD one (ofNat m) <> zero.
Proof.
  intros Hm Hmax E. unfold divD in E.
  change (toDouble one) with one in E. rewrite (toDouble_ofNat m Hmax) in E.
  pose proof (truthy_ofNat m Hm) as Ht.
  unfold one, ofNat, ofZ, dec in E, Ht. rewrite (div_finite _ _ Ht) in E.
  cbn [toDouble] in E.
  pose proof (double_lower (Q2Qc (1 # 1) / Q2Qc (Z.of_nat m # 1))%Qc (-32)
                (Q2Qc (1 # 4294967296))) as Hlow.
  rewrite E in Hlow.
  assert (Hle : Num.le (Fin (Q2Qc (1 # 4294967296))) zero = true).
  { apply Hlow; [lia | apply Qred_correct |].
    unfold Qcdiv, Qcmult, Qcinv, Q2Qc; cbn [this]. rewrite !Qred_correct.
    unfold maxArrayLength in Hmax.
    apply Qle_shift_div_l; [unfold Qlt; simpl; lia|].
    unfold Qle, Qmult; cbn [Qnum Qden]. lia. }
  vm_compute in Hle. discriminate.
Qed.

(** The density scale over [[0, m]] evaluates its ramp at the count times
    the reciprocal of [m]. *)
Lemma colorScale_is_densityRamp (Color : Type) (ylOrRd : number -> Color)
    (unknown : Color) (m c : nat) :
  (1 <= m)%nat -> Z.of_nat m <= maxArrayLength -> Z.of_nat c <= maxArrayLength ->
  colorScale Color ylOrRd unknown m (ofNat c) = Spec.densityRamp ylOrRd m c.
Proof.
  intros Hm Hmax Hc. pose proof (truthy_ofNat m Hm) as Ht.
  unfold colorScale, D3.scaleSequential, Spec.densityRamp.
  assert (Hz : Num.strictEq zero (ofNat m) = false).
  { unfold Num.strictEq; simpl. apply bool_decide_eq_false.
    intros E. rewrite <- E in Ht. discriminate. }
  rewrite Hz, !subD_zero by assumption.
  assert (Hk : Num.strictEq (divD one (ofNat m)) zero = false).
  { unfold Num.strictEq. apply andb_false_intro2, bool_decide_eq_false.
    apply reciprocal_not_zero; assumption. }
  rewrite Hk. reflexivity.
Qed.

(** C4.  For every bin with a member whose values are finite doubles,
    every maximum bin count of at least 1 and either state of the
    high-danger flag, the colour follows three branches, the first that
    applies winning: in high-danger mode the red ramp at the bin's
    average value alone; otherwise, when the average exceeds 0.1, the red
    ramp at min(1, count / maxBinCount + average); otherwise the
    density-only ramp at the bin count.  The average, the quotient and
    the sum are the doubles the machine computes, and 0.1 is the double
    of that literal; the lengths are those of arrays. *)
Theorem fill_three_branches (Color : Type) (reds ylOrRd : number -> Color)
    (unknown : Color) (filters : FilterState) (maxBinCount : nat)
    (members : list ShotData) :
  (1 <= maxBinCount)%nat -> Z.of_nat maxBinCount <= maxArrayLength ->
  members <> [] -> Z.of_nat (length members) <= maxArrayLength ->
  Forall (fun s => isFinite (toDouble (xG s)) = true) members ->
  let count := length members in
  let averageExpectedGoal := Spec.averageExpectedGoal members in
  fill Color reds ylOrRd unknown filters maxBinCount members
  = if showOnlyHighDanger filters then reds averageExpectedGoal
    else if Num.gt averageExpectedGoal (toDouble (dec 1 10)) then
      reds (Num.min [one; addD (divD (ofNat count) (ofNat maxBinCount))
                               averageExpectedGoal])
    else Spec.densityRamp ylOrRd maxBinCount count.
Proof.
  intros Hmax Hmaxlen Hne Hlen Hfin count avg. unfold fill.
  rewrite (avgXG_is_average members Hne Hlen Hfin).
  rewrite (colorScale_is_densityRamp Color ylOrRd unknown _ _ Hmax Hmaxlen Hlen).
  reflexivity.
Qed.

(** C5.  In high-danger mode two bins with the same average value have
    the same colour, whatever their counts and whatever the maximum bin
    count. *)
Theorem fill_high_danger_ignores_count (Color : Type) (reds ylOrRd : number -> Color)
    (unknown : Color) (filters : FilterState) (max1 max2 : nat)
    (members1 members2 : list ShotData) :
  showOnlyHighDanger filters = true ->
  members1 <> [] -> Forall (fun s => isFinite (xG s) = true) members1 ->
  members2 <> [] -> Forall (fun s => isFinite (xG s) = true) members2 ->
  Spec.averageExpectedGoal members1 = Spec.averageExpectedGoal members2 ->
  fill Color reds ylOrRd unknown filters max1 members1
  = fill Color reds ylOrRd unknown filters max2 members2.
Proof.
  intros Hd Hne1 Hfin1 Hne2 Hfin2 Havg. unfold fill. rewrite Hd.
  assert (Hnum : forall members,
             Forall (fun s => isFinite (xG s) = true) members ->
             Forall (fun s => isNaN (xG s) = false) members).
  { intros members H. eapply List.Forall_impl; [|exact H].
    intros s Hs. apply isFinite_not_NaN, Hs. }
  rewrite (mean_is_average members1 Hne1 (Hnum _ Hfin1)).
  rewrite (mean_is_average members2 Hne2 (Hnum _ Hfin2)).
  rewrite Havg. reflexivity.
Qed.

End ColorMapper.

(* ===================================================================== *)
(** * The filters set on load, and the properties on sample inputs *)
(* ===================================================================== *)

Section OnLoad.

Import CsvLoaderService HeatMap.

(** The range the component sets once the data is loaded covers every
    record, so that the whole collection is shown. *)
Lemma filtersOnLoad_shows_everything (shotData : list ShotData) :
  Forall Spec.realRecord shotData ->
  filteredData shotData (filtersOnLoad initialFilters shotData) = shotData.
Proof.
  intros Hreal.
  assert (Hx : Forall (fun v => isNaN v = false) (map xG shotData)).
  { apply List.Forall_map. eapply List.Forall_impl; [|exact Hreal].
    intros r Hr; apply Hr. }
  assert (Hrange : Spec.realRange (filtersOnLoad initialFilters shotData)).
  { split; simpl.
    - apply (fold_min2_spec _ PosInf eq_refl Hx).
    - apply (fold_max2_spec _ NegInf eq_refl Hx). }
  rewrite filteredData_filter. apply filter_all.
  pose proof (min_max_bounds _ Hx) as Hb. rewrite List.Forall_map in Hb.
  apply List.Forall_forall. intros r Hr.
  rewrite passes_satisfies;
    [| reflexivity | exact Hrange
     | exact (proj1 (List.Forall_forall _ _) Hreal r Hr)].
  destruct (proj1 (List.Forall_forall _ _) Hb r Hr) as [Hlo Hhi].
  unfold Spec.satisfies, Spec.rangePasses; simpl. rewrite Hlo, Hhi. reflexivity.
Qed.

End OnLoad.

Section Witnesses.

Import CsvLoaderService HeatMap.

(** The specification's scenario: with only period 2 selected, the one
    record of period 2 is returned. *)
Example filteredData_period_two :
  filteredData Samples.threeShots Samples.periodTwo = [Samples.shotFar].
Proof. vm_compute. reflexivity. Qed.

(** The specification's binning scenario: the two neighbouring records
    share a bin of count 2 and average 0.20. *)
Example hexData_scenario :
  map (fun b => D3.points b)
      (drawnBins (hexData (getDatasetSummary Samples.threeShots)
                          Samples.loadedFilters Samples.threeShots))
  = [[Samples.shotEDM; Samples.shotTOR]; [Samples.shotFar]]
  /\ Spec.averageExpectedGoal [Samples.shotEDM; Samples.shotTOR]
     = toDouble (dec 20 100).
Proof. split; [vm_compute; reflexivity | number_eq]. Qed.

(** The rounding of the average decides the branch.  Three records of xG
    0.1 average to 0.10000000000000002, which exceeds 0.1: the bin is on
    the red ramp, at min(1, 3/3 + average) = 1.  Records of xG 0.2 and
    1e-17 average to 0.1 exactly, which does not: the bin is on the
    density ramp, at 2 * (1 / 2) = 1. *)
Example fill_rounded_average :
  Spec.averageExpectedGoal
    [Samples.shot zero zero (dec 1 10) 1 "EDM";
     Samples.shot zero zero (dec 1 10) 1 "EDM";
     Samples.shot zero zero (dec 1 10) 1 "EDM"]
  = dec 7205759403792795 72057594037927936
  /\ fill _ Samples.sampleReds Samples.sampleYlOrRd Samples.sampleUnknown
          HeatMap.initialFilters 3
          [Samples.shot zero zero (dec 1 10) 1 "EDM";
           Samples.shot zero zero (dec 1 10) 1 "EDM";
           Samples.shot zero zero (dec 1 10) 1 "EDM"]
     = ("Reds", one)
  /\ Spec.averageExpectedGoal
       [Samples.shot zero zero (dec 2 10) 1 "EDM";
        Samples.shot zero zero (dec 1 100000000000000000) 1 "EDM"]
     = toDouble (dec 1 10)
  /\ fill _ Samples.sampleReds Samples.sampleYlOrRd Samples.sampleUnknown
          HeatMap.initialFilters 2
          [Samples.shot zero zero (dec 2 10) 1 "EDM";
           Samples.shot zero zero (dec 1 100000000000000000) 1 "EDM"]
     = ("YlOrRd", one).
Proof. repeat split; number_eq. Qed.

(** A malformed coordinate empties the chart: the bound of the scale is
    [NaN], every position is [NaN], and every point is skipped. *)
Example hexData_with_malformed_coordinate :
  hexData (getDatasetSummary
             (convertCsvRowToShotData Samples.malformedRow :: Samples.threeShots))
          HeatMap.initialFilters
          (convertCsvRowToShotData Samples.malformedRow :: Samples.threeShots)
  = [].
Proof. vm_compute. reflexivity. Qed.

Lemma filteredData_is_satisfying_subsequence_witness :
  Samples.threeShots <> []
  /\ filteredData Samples.threeShots Samples.periodTwo
     = List.filter (Spec.satisfies Samples.periodTwo) Samples.threeShots
  /\ filteredData Samples.threeShots Samples.loadedFilters = Samples.threeShots.
Proof.
  split; [discriminate|]. split.
  - apply (filteredData_is_satisfying_subsequence
             Samples.threeShots Samples.periodTwo).
    + reflexivity.
    + split; reflexivity.
    + repeat constructor; discriminate.
  - apply (filteredData_is_satisfying_subsequence
             Samples.threeShots Samples.loadedFilters).
    + reflexivity.
    + split; reflexivity.
    + repeat constructor; discriminate.
    + reflexivity.
    + reflexivity.
    + reflexivity.
    + reflexivity.
    + reflexivity.
    + repeat constructor.
Defined.

Lemma filterData_absent_passes_empty_rejects_witness :
  Str.truthyOpt (teamId Samples.shotAbsentTeam) = false
  /\ keeps (withTeams (Some ["TOR"]) Samples.noPeriodAllowed) Samples.shotAbsentTeam
     = keeps (withTeams None Samples.noPeriodAllowed) Samples.shotAbsentTeam
  /\ teams Samples.noTeamAllowed = Some []
  /\ Forall (fun shot => Str.truthyOpt (teamId shot) = false)
            (filterData (Samples.shotNoTeam :: Samples.threeShots)
                        Samples.noTeamAllowed).
Proof.
  pose proof (filterData_absent_passes_empty_rejects
                (Samples.shotNoTeam :: Samples.threeShots) Samples.noPeriodAllowed)
    as (Hteam & _).
  pose proof (filterData_absent_passes_empty_rejects
                (Samples.shotNoTeam :: Samples.threeShots) Samples.noTeamAllowed)
    as (_ & _ & Hempty & _).
  split; [reflexivity|]. split; [apply Hteam; reflexivity|].
  split; [reflexivity|]. apply Hempty. reflexivity.
Defined.

Lemma zero_width_domain_maps_to_fixed_pixel_witness :
  Forall (fun shot => x shot = Fin (Q2Qc 15))
         [Samples.shotEDM; Samples.shotNoTeam]
  /\ xScale (getDatasetSummary [Samples.shotEDM; Samples.shotNoTeam]) (ofZ 99)
     = Some (ofZ 440)
  /\ Forall (fun shot => y shot = Fin (Q2Qc 5))
            [Samples.shotEDM; Samples.shotNoTeam]
  /\ yScale (getDatasetSummary [Samples.shotEDM; Samples.shotNoTeam]) (ofZ (-7))
     = Some (ofZ 350).
Proof.
  assert (Hx : Forall (fun shot => x shot = Fin (Q2Qc 15))
                      [Samples.shotEDM; Samples.shotNoTeam])
    by (repeat constructor).
  assert (Hy : Forall (fun shot => y shot = Fin (Q2Qc 5))
                      [Samples.shotEDM; Samples.shotNoTeam])
    by (repeat constructor).
  split; [exact Hx|]. split.
  - apply (zero_width_domain_maps_to_fixed_pixel
             [Samples.shotEDM; Samples.shotNoTeam] (Q2Qc 15) (ofZ 99));
      [discriminate | reflexivity | exact Hx].
  - split; [exact Hy|].
    apply (zero_width_domain_maps_to_fixed_pixel
             [Samples.shotEDM; Samples.shotNoTeam] (Q2Qc 5) (ofZ (-7)));
      [discriminate | reflexivity | exact Hy].
Defined.

Lemma drawn_bins_partition_positioned_records_witness :
  Forall (fun s => isFinite (x s) = true /\ isFinite (y s) = true) Samples.threeShots
  /\ Permutation
       (concat (map D3.points
          (drawnBins (hexData (getDatasetSummary Samples.threeShots)
                              Samples.loadedFilters
                              (filteredData Samples.threeShots Samples.loadedFilters)))))
       (filteredData Samples.threeShots Samples.loadedFilters).
Proof.
  assert (H : Forall (fun s => isFinite (x s) = true /\ isFinite (y s) = true)
                     Samples.threeShots)
    by (repeat constructor).
  split; [exact H|].
  exact (proj2 (proj2 (drawn_bins_partition_positioned_records
                         Samples.threeShots Samples.loadedFilters)) H).
Defined.

Lemma fill_three_branches_witness :
  Forall (fun s => isFinite (toDouble (xG s)) = true)
         [Samples.shotEDM; Samples.shotTOR]
  /\ fill _ Samples.sampleReds Samples.sampleYlOrRd Samples.sampleUnknown Samples.loadedFilters 2
          [Samples.shotEDM; Samples.shotTOR]
     = if showOnlyHighDanger Samples.loadedFilters
       then Samples.sampleReds (Spec.averageExpectedGoal [Samples.shotEDM; Samples.shotTOR])
       else if Num.gt (Spec.averageExpectedGoal [Samples.shotEDM; Samples.shotTOR])
                      (toDouble (dec 1 10))
       then Samples.sampleReds
              (Num.min [one; addD (divD (ofNat 2) (ofNat 2))
                                  (Spec.averageExpectedGoal
                                     [Samples.shotEDM; Samples.shotTOR])])
       else Spec.densityRamp Samples.sampleYlOrRd 2 2.
Proof.
  assert (H : Forall (fun s => isFinite (toDouble (xG s)) = true)
                     [Samples.shotEDM; Samples.shotTOR])
    by (repeat (constructor; [vm_compute; reflexivity|]); constructor).
  split; [exact H|].
  apply (fill_three_branches _ Samples.sampleReds Samples.sampleYlOrRd Samples.sampleUnknown
           Samples.loadedFilters 2 [Samples.shotEDM; Samples.shotTOR]).
  - lia.
  - vm_compute. discriminate.
  - discriminate.
  - vm_compute. discriminate.
  - exact H.
Defined.

Lemma fill_high_danger_ignores_count_witness :
  Spec.averageExpectedGoal [Samples.shot zero zero (dec 2 10) 1 "EDM"]
  = Spec.averageExpectedGoal [Samples.shotEDM; Samples.shotTOR]
  /\ fill _ Samples.sampleReds Samples.sampleYlOrRd Samples.sampleUnknown Samples.highDanger 1
          [Samples.shot zero zero (dec 2 10) 1 "EDM"]
     = fill _ Samples.sampleReds Samples.sampleYlOrRd Samples.sampleUnknown Samples.highDanger 2
            [Samples.shotEDM; Samples.shotTOR].
Proof.
  assert (Havg : Spec.averageExpectedGoal [Samples.shot zero zero (dec 2 10) 1 "EDM"]
                 = Spec.averageExpectedGoal [Samples.shotEDM; Samples.shotTOR])
    by number_eq.
  split; [exact Havg|].
  apply (fill_high_danger_ignores_count _ Samples.sampleReds Samples.sampleYlOrRd
           Samples.sampleUnknown Samples.highDanger 1 2).
  - reflexivity.
  - discriminate.
  - repeat constructor.
  - discriminate.
  - repeat constructor.
  - exact Havg.
Defined.

End Witnesses.

(* ===================================================================== *)
(** * Further properties: the loader *)
(* ===================================================================== *)

Section LoaderProperties.

Import CsvLoaderService.

Lemma truthy_not_NaN (a : number) : Num.truthy a = true -> isNaN a = false.
Proof. destruct a; simpl; congruence. Qed.

Lemma or_zero_not_NaN (a : number) : isNaN (Num.or a zero) = false.
Proof.
  unfold Num.or. destruct (Num.truthy a) eqn:E; [|reflexivity].
  apply truthy_not_NaN, E.
Qed.

Lemma or_one_truthy (a : number) : Num.truthy (Num.or a one) = true.
Proof.
  unfold Num.or. destruct (Num.truthy a) eqn:E; [exact E | reflexivity].
Qed.

Lemma strOr_truthy (v : option string) (d : string) :
  Str.truthy d = true -> Str.truthy (Str.or v d) = true.
Proof.
  intros Hd. unfold Str.or. destruct v as [s|]; [|exact Hd].
  destruct (Str.truthy s) eqn:E; [exact E | exact Hd].
Qed.

Lemma convertCsvRowToShotData_loadedRecord (row : CsvRow) :
  loadedRecord (convertCsvRowToShotData row).
Proof.
  unfold loadedRecord, convertCsvRowToShotData; cbn [xG period shotType time playerId].
  repeat split.
  - apply or_zero_not_NaN.
  - apply or_one_truthy.
  - apply strOr_truthy. reflexivity.
  - discriminate.
Qed.

(** X1.  Whatever the rows hold, every record the loader produces has an
    xG that is a number (0 when the cell is missing or no number), a
    period that is a number other than 0 (1 when the cell is missing, no
    number or 0), a non-empty shot type, a time and no player. *)
Theorem loaded_records_have_safe_defaults (E : Type) (rows : list CsvRow) :
  exists data : list ShotData,
    @loadHockeyDataFromCsv E (inr rows) = inr data
    /\ Forall loadedRecord data.
Proof.
  exists (map convertCsvRowToShotData rows). split; [reflexivity|].
  apply List.Forall_map, List.Forall_forall. intros row _.
  apply convertCsvRowToShotData_loadedRecord.
Qed.

(** X2.  A row that lacks the xG, period, shot_type and
    period_seconds_remaining columns loads with xG 0, period 1, shot type
    "Unknown" and time "0:00"; a row that lacks the x or y column loads
    with that coordinate [NaN]. *)
Theorem missing_columns_load_as_defaults (row : CsvRow) :
  (row !! "xG" = None -> xG (convertCsvRowToShotData row) = zero)
  /\ (row !! "period" = None -> period (convertCsvRowToShotData row) = Some one)
  /\ (row !! "shot_type" = None ->
      shotType (convertCsvRowToShotData row) = Some "Unknown")
  /\ (row !! "period_seconds_remaining" = None ->
      time (convertCsvRowToShotData row) = Some "0:00")
  /\ (row !! "x" = None -> x (convertCsvRowToShotData row) = NaN)
  /\ (row !! "y" = None -> y (convertCsvRowToShotData row) = NaN).
Proof.
  unfold convertCsvRowToShotData; simpl.
  repeat split; intros ->; reflexivity.
Qed.

(** Cells beyond the range of the doubles: the period is the double
    nearest to the integer, an infinity where the digits are too many;
    the time is written from the double quotient; an xG too large is an
    infinity, and one too small is 0. *)
Example large_integer_cells :
  period (convertCsvRowToShotData {[ "period" := "9007199254740993" ]})
  = Some (ofZ 9007199254740992)
  /\ period (convertCsvRowToShotData {[ "period" := String "1" (Str.zeros 400) ]})
     = Some PosInf
  /\ time (convertCsvRowToShotData
             {[ "period_seconds_remaining" := "1000000000000000000000" ]})
     = Some "16666666666666666000:40"
  /\ time (convertCsvRowToShotData
             {[ "period_seconds_remaining" := String "1" (Str.zeros 400) ]})
     = Some "Infinity:NaN"
  /\ time (convertCsvRowToShotData {[ "period_seconds_remaining" := "-125" ]})
     = Some "-3:-5"
  /\ xG (convertCsvRowToShotData {[ "xG" := "1e999" ]}) = PosInf
  /\ xG (convertCsvRowToShotData {[ "xG" := "1e-999" ]}) = zero.
Proof. repeat split; vm_compute; reflexivity. Qed.

End LoaderProperties.

(* ===================================================================== *)
(** * Further properties: integers as text *)
(* ===================================================================== *)

Section IntegerText.

Import CsvLoaderService.

Lemma valueOf_acc (ds : list Z) (acc : Z) :
  fold_left (fun a d => 10 * a + d) ds acc
  = acc * 10 ^ Z.of_nat (length ds) + Str.valueOf 10 ds.
Proof.
  unfold Str.valueOf. revert acc.
  induction ds as [|d ds IH]; intros acc; simpl fold_left.
  - simpl. lia.
  - rewrite (IH (10 * acc + d)), (IH (10 * 0 + d)).
    change (length (d :: ds)) with (S (length ds)).
    rewrite Nat2Z.inj_succ, Z.pow_succ_r by lia. ring.
Qed.

Lemma digit_chars_check :
  forallb (fun k => match Str.digitOf 10 (pretty_N_char (N.of_nat k)) with
                    | Some d => d =? Z.of_nat k
                    | None => false
                    end)
          (seq 0 10) = true.
Proof. vm_compute. reflexivity. Qed.

Lemma digitOf_pretty_N_char (n : N) :
  (n < 10)%N -> Str.digitOf 10 (pretty_N_char n) = Some (Z.of_N n).
Proof.
  intros Hn. pose proof digit_chars_check as H.
  rewrite forallb_forall in H. specialize (H (N.to_nat n)).
  rewrite N2Nat.id in H.
  assert (Hin : In (N.to_nat n) (seq 0 10)) by (apply in_seq; lia).
  apply H in Hin.
  destruct (Str.digitOf 10 (pretty_N_char n)) as [d|]; [|discriminate].
  apply Z.eqb_eq in Hin. rewrite Hin. f_equal. lia.
Qed.

(** The digits [pretty_N_go] writes in front of a text are read back by
    [digits]. *)
Lemma digits_pretty_N_go (n : N) (s : string) :
  exists ds : list Z,
    Str.digits 10 (pretty_N_go n s)
    = ((ds ++ fst (Str.digits 10 s))%list, snd (Str.digits 10 s))
    /\ Str.valueOf 10 (ds ++ fst (Str.digits 10 s))%list
       = Z.of_N n * 10 ^ Z.of_nat (length (fst (Str.digits 10 s)))
         + Str.valueOf 10 (fst (Str.digits 10 s))
    /\ ((0 < n)%N -> ds <> []).
Proof.
  revert s. induction (N.lt_wf_0 n) as [n _ IH]; intros s.
  destruct (decide (n = 0%N)) as [->|Hn].
  - exists []. rewrite pretty_N_go_0. simpl.
    split; [destruct (Str.digits 10 s); reflexivity|].
    split; [lia | intros H; lia].
  - assert (Hpos : (0 < n)%N) by lia.
    rewrite pretty_N_go_step by exact Hpos.
    destruct (IH (n `div` 10)%N (N.div_lt n 10 Hpos eq_refl)
                 (String (pretty_N_char (n `mod` 10)) s)) as (ds & Hd & Hv & _).
    assert (Hc : Str.digits 10 (String (pretty_N_char (n `mod` 10)) s)
                 = (Z.of_N (n `mod` 10) :: fst (Str.digits 10 s),
                    snd (Str.digits 10 s))).
    { simpl. rewrite digitOf_pretty_N_char by (apply N.mod_lt; lia).
      destruct (Str.digits 10 s); reflexivity. }
    rewrite Hc in Hd, Hv. simpl fst in *. simpl snd in *.
    exists (ds ++ [Z.of_N (n `mod` 10)])%list.
    rewrite <- !app_assoc. simpl app. split; [exact Hd|]. split.
    + rewrite Hv. unfold Str.valueOf at 1. simpl fold_left.
      rewrite valueOf_acc.
      change (length (Z.of_N (n `mod` 10) :: fst (Str.digits 10 s)))
        with (S (length (fst (Str.digits 10 s)))).
      rewrite Nat2Z.inj_succ, Z.pow_succ_r by lia.
      pose proof (N.div_mod n 10 ltac:(lia)) as Hdm.
      apply (f_equal Z.of_N) in Hdm. rewrite N2Z.inj_add, N2Z.inj_mul in Hdm.
      change (Z.of_N 10) with 10 in Hdm.
      set (q := Z.of_N (n `div` 10)) in *. set (m := Z.of_N (n `mod` 10)) in *.
      rewrite Hdm. ring.
    + intros _. destruct ds; discriminate.
Qed.

Lemma digits_pretty_positive (p : positive) :
  exists ds : list Z,
    Str.digits 10 (pretty (N.pos p)) = (ds, "")
    /\ Str.valueOf 10 ds = Z.pos p /\ ds <> [].
Proof.
  destruct (digits_pretty_N_go (N.pos p) "") as (ds & Hd & Hv & Hne).
  simpl in Hd, Hv. rewrite app_nil_r in Hd, Hv.
  exists ds. unfold pretty, pretty_N.
  destruct (decide (N.pos p = 0%N)) as [E|_]; [discriminate|].
  split; [exact Hd|]. split; [|apply Hne; lia].
  rewrite Hv. unfold Str.valueOf; simpl. lia.
Qed.

(** A decimal digit is no white space, no sign and no radix mark. *)
Lemma digit_char (c : ascii) (d : Z) (r : string) :
  Str.digitOf 10 c = Some d ->
  Str.isWhite c = false
  /\ Str.sign (String c r) = (false, String c r)
  /\ (Ascii.eqb c "x" || Ascii.eqb c "X")%bool = false.
Proof.
  destruct c as [[] [] [] [] [] [] [] []]; intros H;
    try (exfalso; vm_compute in H; discriminate H);
    repeat split.
Qed.

Lemma digits_cons (c : ascii) (r : string) (ds : list Z) (rest : string) :
  Str.digits 10 (String c r) = (ds, rest) -> ds <> [] ->
  exists d ds', Str.digitOf 10 c = Some d /\ ds = d :: ds'
                /\ Str.digits 10 r = (ds', rest).
Proof.
  simpl. destruct (Str.digitOf 10 c) as [d|]; [|intros [= <- _] H; congruence].
  destruct (Str.digits 10 r) as [ds' rest'] eqn:E.
  intros [= <- <-] _. exists d, ds'. repeat split.
Qed.

(** A text made of decimal digits only is read in radix 10. *)
Lemma radix_of_digits (s : string) (ds : list Z) :
  Str.digits 10 s = (ds, "") -> ds <> [] ->
  match s with
  | String "0" (String c r) =>
      if (Ascii.eqb c "x" || Ascii.eqb c "X")%bool then (16, r) else (10, s)
  | _ => (10, s)
  end = (10, s).
Proof.
  intros Hd Hne. destruct s as [|c r]; [reflexivity|].
  destruct (digits_cons _ _ _ _ Hd Hne) as (d & ds' & _ & -> & Hr).
  destruct r as [|c' r'].
  - destruct c as [[] [] [] [] [] [] [] []]; reflexivity.
  - assert (Hne' : ds' <> []).
    { intros ->. simpl in Hr. destruct (Str.digitOf 10 c');
        [destruct (Str.digits 10 r'); discriminate | discriminate]. }
    destruct (digits_cons _ _ _ _ Hr Hne') as (d' & _ & Hc' & _).
    destruct (digit_char c' d' r' Hc') as (_ & _ & Hx).
    destruct c as [[] [] [] [] [] [] [] []]; try reflexivity.
    rewrite Hx. reflexivity.
Qed.

Lemma integerOf_digits (s : string) (ds : list Z) :
  Str.digits 10 s = (ds, "") -> ds <> [] ->
  Str.integerOf s = Some (Str.valueOf 10 ds)
  /\ Str.integerOf (String "-" s) = Some (- Str.valueOf 10 ds).
Proof.
  intros Hd Hne. pose proof (radix_of_digits s ds Hd Hne) as Hr.
  destruct s as [|c r]; [simpl in Hd; congruence|].
  destruct (digits_cons _ _ _ _ Hd Hne) as (d & ds' & Hc & -> & _).
  destruct (digit_char c d r Hc) as (Hw & Hs & _).
  split.
  - unfold Str.integerOf. simpl Str.skipWhite. rewrite Hw, Hs, Hr, Hd. reflexivity.
  - unfold Str.integerOf. change (Str.skipWhite (String "-" (String c r)))
      with (String "-" (String c r)).
    change (Str.sign (String "-" (String c r))) with (true, String c r).
    cbv beta iota. rewrite Hr, Hd. reflexivity.
Qed.

(** An integer written by [toString] is read back by [parseInt]. *)
Lemma integerOf_toString (z : Z) : Str.integerOf (Str.toString z) = Some z.
Proof.
  unfold Str.toString, pretty, pretty_Z. destruct z as [|p|p].
  - reflexivity.
  - destruct (digits_pretty_positive p) as (ds & Hd & Hv & Hne).
    change (pretty p) with (pretty (N.pos p)).
    rewrite (proj1 (integerOf_digits _ _ Hd Hne)), Hv. reflexivity.
  - destruct (digits_pretty_positive p) as (ds & Hd & Hv & Hne).
    change (pretty p) with (pretty (N.pos p)).
    change ("-" +:+ pretty (N.pos p)) with (String "-" (pretty (N.pos p))).
    rewrite (proj2 (integerOf_digits _ _ Hd Hne)), Hv. reflexivity.
Qed.

Lemma two_digit_seconds_check :
  forallb (fun n =>
             (String.length (Str.padStart2 (Str.toString (Z.of_nat n))) =? 2)%nat
             && match Str.integerOf (Str.padStart2 (Str.toString (Z.of_nat n))) with
                | Some v => v =? Z.of_nat n
                | None => false
                end)
          (seq 0 60) = true.
Proof. vm_compute. reflexivity. Qed.

Lemma two_digit_seconds (k : Z) :
  0 <= k < 60 ->
  String.length (Str.padStart2 (Str.toString k)) = 2%nat
  /\ Str.integerOf (Str.padStart2 (Str.toString k)) = Some k.
Proof.
  intros Hk. pose proof two_digit_seconds_check as H.
  rewrite forallb_forall in H. specialize (H (Z.to_nat k)).
  rewrite Z2Nat.id in H by lia.
  assert (Hin : In (Z.to_nat k) (seq 0 60)) by (apply in_seq; lia).
  apply H in Hin. apply andb_prop in Hin as [Hlen Hparse].
  split; [apply Nat.eqb_eq, Hlen|].
  destruct (Str.integerOf (Str.padStart2 (Str.toString k))) as [v|]; [|discriminate].
  apply Z.eqb_eq in Hparse. congruence.
Qed.

Lemma parseInt_integer (s : string) (z : Z) :
  Str.integerOf s = Some z -> Z.abs z <= maxSafeInteger -> Str.parseInt s = ofZ z.
Proof.
  intros Hs Hz. unfold Str.parseInt. rewrite Hs. apply toDouble_ofZ, Hz.
Qed.

Lemma ofNumber_ofZ (z : Z) :
  Z.abs z <= maxSafeInteger -> Str.ofNumber (ofZ z) = Str.toString z.
Proof.
  intros Hz. unfold Str.ofNumber, ofZ, dec.
  set (q := Q2Qc (z # 1)).
  assert (Hq : (q == inject_Z z)%Q)
    by (unfold q, Q2Qc; cbn [this]; apply Qred_correct).
  assert (Hf : Qfloor q = z) by (rewrite Hq; apply Qfloor_Z).
  rewrite Hf, (proj2 (Qeq_bool_iff _ _) Hq), (proj2 (Z.leb_le _ _) Hz).
  reflexivity.
Qed.

Lemma truthy_sixty : Num.truthy (ofZ 60) = true.
Proof. reflexivity. Qed.

(** The quotient by 60 as a rational. *)
Lemma quotient_sixty (z : Z) :
  ((Q2Qc (z # 1) / Q2Qc (60 # 1))%Qc == inject_Z z / inject_Z 60)%Q.
Proof.
  unfold Qcdiv, Qcmult, Qcinv, Q2Qc; cbn [this]. rewrite !Qred_correct.
  reflexivity.
Qed.

Lemma Qfloor_unique (p : Q) (n : Z) :
  (inject_Z n <= p)%Q -> (p < inject_Z (n + 1))%Q -> Qfloor p = n.
Proof.
  intros Hlo Hhi.
  pose proof (Qfloor_le p) as H1. pose proof (Qlt_floor p) as H2.
  assert (Ha : (inject_Z (Qfloor p) < inject_Z (n + 1))%Q) by lra.
  assert (Hb : (inject_Z n < inject_Z (Qfloor p + 1))%Q) by lra.
  rewrite <- Zlt_Qlt in Ha, Hb. lia.
Qed.

(** Up to 2^53 the rounding of the quotient by 60 does not reach the
    next integer: its floor is the integer quotient. *)
Lemma floor_quotient_sixty (z : Z) :
  Z.abs z <= maxSafeInteger ->
  Num.floor (divD (ofZ z) (ofZ 60)) = ofZ (z / 60).
Proof.
  intros Hz. unfold divD.
  rewrite (toDouble_ofZ z Hz), (toDouble_ofZ 60) by (unfold maxSafeInteger; lia).
  unfold ofZ at 1 2. unfold dec. rewrite (div_finite _ _ truthy_sixty).
  cbn [toDouble]. set (q := (Q2Qc (z # 1) / Q2Qc (60 # 1))%Qc).
  pose proof (quotient_sixty z) as Hq. fold q in Hq.
  assert (Hfl : Qfloor q = z / 60).
  { rewrite (Qfloor_comp _ _ Hq). symmetry. apply Zdiv_Qdiv. }
  pose proof (Z.div_mod z 60 ltac:(lia)) as Hdm.
  pose proof (Z.mod_pos_bound z 60 ltac:(lia)) as Hm.
  set (n := z / 60) in *. set (r := z mod 60) in *.
  assert (Hval : (q == inject_Z n + inject_Z r * (1 # 60))%Q).
  { rewrite Hq. rewrite Hdm at 1. rewrite inject_Z_plus, inject_Z_mult.
    change (inject_Z 60) with 60%Q. field. }
  unfold maxSafeInteger in Hz.
  assert (Hzq : (- 9007199254740992 <= inject_Z z <= 9007199254740992)%Q).
  { change (- 9007199254740992)%Q with (inject_Z (- 9007199254740992)).
    change 9007199254740992%Q with (inject_Z 9007199254740992).
    rewrite <- !Zle_Qle. lia. }
  unfold double. rewrite Hfl.
  destruct (Qeq_bool q (inject_Z n) && _) eqn:Hc.
  { cbn [Num.floor]. rewrite Hfl. reflexivity. }
  assert (Hr : 1 <= r).
  { destruct (Z.eq_dec r 0) as [E|E]; [exfalso | lia].
    rewrite E in Hval.
    assert (Hint : (q == inject_Z n)%Q) by (rewrite Hval; ring).
    rewrite (proj2 (Qeq_bool_iff _ _) Hint) in Hc.
    assert (Hsafe : (Z.abs n <=? maxSafeInteger) = true).
    { apply Z.leb_le. unfold maxSafeInteger. lia. }
    rewrite Hsafe in Hc. discriminate. }
  assert (Hrq : (1 <= inject_Z r <= 59)%Q).
  { change 1%Q with (inject_Z 1). change 59%Q with (inject_Z 59).
    rewrite <- !Zle_Qle. lia. }
  assert (Hq0 : ~ (q == 0)%Q).
  { pose proof Hc as Hc'. rewrite <- Hfl in Hc'.
    exact (fast_path_zero q Hc'). }
  assert (Hp48 : (pow2 48 == 281474976710656)%Q) by (vm_compute; reflexivity).
  assert (Hp5 : (pow2 (47 - 52) == 1 # 32)%Q) by (vm_compute; reflexivity).
  assert (Habs : (Qabs q < pow2 (47 + 1))%Q).
  { change (47 + 1) with 48. rewrite Hp48, Hq.
    change (inject_Z 60) with 60%Q.
    apply Qabs_Qlt_condition. split.
    - apply Qlt_shift_div_l; lra.
    - apply Qlt_shift_div_r; lra. }
  pose proof (ulp_bound q 47 Hq0 ltac:(lia) Habs) as Hulp. rewrite Hp5 in Hulp.
  pose proof (nearest_error q) as Herr.
  apply Qabs_Qle_condition in Herr.
  change (47 + 1) with 48 in Habs. rewrite Hp48 in Habs.
  destruct (Qle_bool (pow2 1024) (nearest q)) eqn:Ho.
  { exfalso. apply Qle_bool_iff in Ho.
    assert (Hp49 : (pow2 49 == 562949953421312)%Q) by (vm_compute; reflexivity).
    pose proof (pow2_mono 49 1024 ltac:(lia)) as Hbig. rewrite Hp49 in Hbig. lra. }
  cbn [Num.floor]. unfold ofZ, dec. do 3 f_equal.
  cbn [this Q2Qc]. rewrite (Qfloor_comp _ _ (Qred_correct _)).
  assert (Hn1 : (inject_Z (n + 1) == inject_Z n + 1)%Q)
    by (rewrite inject_Z_plus; reflexivity).
  destruct (Qnum q <? 0) eqn:Hs.
  - apply Qnum_neg in Hs. rewrite (Qabs_neg q) in Herr by lra.
    apply Qfloor_unique; [|rewrite Hn1]; lra.
  - assert (Hpos : (0 <= q)%Q).
    { destruct (Qlt_le_dec q 0) as [L|L]; [|exact L].
      apply Qnum_neg in L. congruence. }
    rewrite (Qabs_pos q Hpos) in Herr.
    apply Qfloor_unique; [|rewrite Hn1]; lra.
Qed.


Lemma rem_sixty (z : Z) : 0 <= z -> Num.rem (ofZ z) (ofZ 60) = ofZ (z mod 60).
Proof.
  intros Hz. unfold Num.rem, ofZ, dec.
  change (sgn (Q2Qc (60 # 1))) with Gt. cbv iota.
  set (t := (Q2Qc (z # 1) / Q2Qc (60 # 1))%Qc).
  pose proof (quotient_sixty z) as Ht. fold t in Ht.
  assert (Hfl : Qfloor t = z / 60).
  { rewrite (Qfloor_comp _ _ Ht). symmetry. apply Zdiv_Qdiv. }
  assert (Hn : match sgn t with Lt => Qceiling t | _ => Qfloor t end = z / 60).
  { destruct (sgn t) eqn:E; try exact Hfl. exfalso.
    unfold sgn, Qccompare in E. apply Qlt_alt in E.
    change (this (Q2Qc 0)) with 0%Q in E. rewrite Ht in E.
    assert (Hzq : (0 <= inject_Z z)%Q)
      by (change 0%Q with (inject_Z 0); rewrite <- Zle_Qle; exact Hz).
    change (inject_Z 60) with 60%Q in E.
    assert (0 <= inject_Z z / 60)%Q; [|lra].
    apply Qle_shift_div_l; lra. }
  rewrite Hn. f_equal. apply Qc_is_canon.
  unfold Qcminus, Qcplus, Qcopp, Qcmult, Q2Qc; cbn [this].
  rewrite !Qred_correct.
  pose proof (Z.div_mod z 60 ltac:(lia)) as Hdm.
  unfold Qeq, Qplus, Qopp, Qmult, inject_Z; cbn [Qnum Qden]. lia.
Qed.

(** X3.  For a number of seconds that is a non-negative integer of at most
    2^53, [secondsRemainingToTime] writes the minutes, a colon and the
    seconds on exactly two characters; read back with [parseInt], the two
    parts are the quotient and the remainder by 60, so that the text
    determines the seconds. *)
Theorem secondsRemainingToTime_format (secondsRemaining : Z) :
  0 <= secondsRemaining <= maxSafeInteger ->
  exists minutes seconds : string,
    secondsRemainingToTime (ofZ secondsRemaining) = minutes ++ ":" ++ seconds
    /\ String.length seconds = 2%nat
    /\ Str.parseInt minutes = ofZ (secondsRemaining / 60)
    /\ Str.parseInt seconds = ofZ (secondsRemaining mod 60)
    /\ 60 * (secondsRemaining / 60) + secondsRemaining mod 60 = secondsRemaining.
Proof.
  intros Hs. unfold secondsRemainingToTime.
  pose proof (Z.mod_pos_bound secondsRemaining 60 ltac:(lia)) as Hm.
  assert (Hq : 0 <= secondsRemaining / 60 <= maxSafeInteger).
  { split; [apply Z.div_pos; lia|].
    apply Z.div_le_upper_bound; unfold maxSafeInteger in *; lia. }
  rewrite floor_quotient_sixty, rem_sixty by lia.
  rewrite !ofNumber_ofZ by (unfold maxSafeInteger in *; lia).
  destruct (two_digit_seconds (secondsRemaining mod 60) Hm) as [Hlen Hparse].
  eexists _, _. split; [reflexivity|]. split; [exact Hlen|].
  split; [|split].
  - apply parseInt_integer; [apply integerOf_toString | lia].
  - apply parseInt_integer; [exact Hparse | unfold maxSafeInteger; lia].
  - symmetry. apply Z.div_mod. lia.
Qed.

Lemma truthy_ofZ (z : Z) : z <> 0 -> Num.truthy (ofZ z) = true.
Proof.
  intros Hz. unfold ofZ, dec; simpl.
  destruct (sgn (Q2Qc (z # 1))) eqn:E; try reflexivity.
  apply sgn_Eq, Q2Qc_eq_iff in E. unfold Qeq in E; simpl in E. lia.
Qed.

(** X4.  For integers of magnitude at most 2^53, a period cell that holds
    the decimal text of a non-zero integer loads as that period, and a
    seconds cell that holds the decimal text of an integer loads as the
    time of that many seconds. *)
Theorem integer_cells_load_exactly (row : CsvRow) (p s : Z) :
  p <> 0 -> Z.abs p <= maxSafeInteger -> Z.abs s <= maxSafeInteger ->
  row !! "period" = Some (Str.toString p) ->
  row !! "period_seconds_remaining" = Some (Str.toString s) ->
  period (convertCsvRowToShotData row) = Some (ofZ p)
  /\ time (convertCsvRowToShotData row) = Some (secondsRemainingToTime (ofZ s)).
Proof.
  intros Hp Hpmax Hsmax Hrp Hrs.
  unfold convertCsvRowToShotData; cbn [period time].
  unfold Str.parseIntV. rewrite Hrp, Hrs.
  rewrite (parseInt_integer _ p (integerOf_toString p) Hpmax).
  rewrite (parseInt_integer _ s (integerOf_toString s) Hsmax).
  unfold Num.or at 1. rewrite (truthy_ofZ p Hp).
  rewrite (or_zero (ofZ s) eq_refl). split; reflexivity.
Qed.

End IntegerText.

(* ===================================================================== *)
(** * Further properties: the dataset summary *)
(* ===================================================================== *)

Section SummaryProperties.

Import CsvLoaderService.



Lemma distinctFrom_spec {A : Type} (eqb : A -> A -> bool)
    (Heqb : forall a b, eqb a b = true <-> a = b) (xs seen : list A) :
  List.NoDup (distinctFrom eqb seen xs)
  /\ (forall v, In v (distinctFrom eqb seen xs) <-> In v xs /\ ~ In v seen).
Proof.
  revert seen. induction xs as [|a xs IH]; intros seen; simpl.
  - split; [constructor | tauto].
  - destruct (existsb (eqb a) seen) eqn:E.
    + destruct (IH seen) as [Hnd Hin]. split; [exact Hnd|].
      apply existsb_exists in E as (b & Hb & Hab). apply Heqb in Hab. subst b.
      intros v. rewrite Hin. split; [tauto|].
      intros [[->|Hv] Hs]; [contradiction | tauto].
    + destruct (IH (a :: seen)) as [Hnd Hin].
      assert (Ha : ~ In a seen).
      { intros Hs. apply not_true_iff_false in E. apply E.
        apply existsb_exists. exists a. split; [exact Hs | apply Heqb; reflexivity]. }
      split.
      * constructor; [|exact Hnd]. intros Hbad. apply Hin in Hbad. simpl in Hbad. tauto.
      * intros v. simpl. rewrite Hin. simpl. split.
        -- intros [->|[Hv Hs]]; tauto.
        -- intros [[->|Hv] Hs]; [tauto|].
           destruct (eqb a v) eqn:Eav.
           ++ left. apply Heqb, Eav.
           ++ right. split; [exact Hv|]. intros [->|Hs']; [|contradiction].
              rewrite (proj2 (Heqb v v) eq_refl) in Eav. discriminate.
Qed.

Lemma distinct_spec {A : Type} (eqb : A -> A -> bool)
    (Heqb : forall a b, eqb a b = true <-> a = b) (xs : list A) :
  List.NoDup (distinct eqb xs) /\ (forall v, In v (distinct eqb xs) <-> In v xs).
Proof.
  destruct (distinctFrom_spec eqb Heqb xs []) as [Hnd Hin].
  split; [exact Hnd|]. intros v. rewrite (Hin v). simpl. tauto.
Qed.

Lemma sameValueZero_eq (a b : number) : Num.sameValueZero a b = true <-> a = b.
Proof. unfold Num.sameValueZero. apply bool_decide_eq_true. Qed.

Lemma in_truthyStrings (xs : list (option string)) (t : string) :
  In t (truthyStrings xs) <-> Str.truthy t = true /\ In (Some t) xs.
Proof.
  unfold truthyStrings. induction xs as [|v xs IH]; simpl; [tauto|].
  destruct v as [s|]; simpl.
  - destruct (Str.truthy s) eqn:E; simpl; rewrite IH.
    + split.
      * intros [->|[H1 H2]]; [split; [exact E | left; reflexivity] | tauto].
      * intros [H1 [[= ->]|H2]]; tauto.
    + split; [tauto|]. intros [H1 [[= ->]|H2]]; [congruence | tauto].
  - rewrite IH. split; [tauto|]. intros [H1 [H|H2]]; [discriminate | tauto].
Qed.

Lemma in_truthyNumbers (xs : list (option number)) (p : number) :
  In p (truthyNumbers xs) <-> Num.truthy p = true /\ In (Some p) xs.
Proof.
  unfold truthyNumbers. induction xs as [|v xs IH]; simpl; [tauto|].
  destruct v as [n|]; simpl.
  - destruct (Num.truthy n) eqn:E; simpl; rewrite IH.
    + split.
      * intros [->|[H1 H2]]; [split; [exact E | left; reflexivity] | tauto].
      * intros [H1 [[= ->]|H2]]; tauto.
    + split; [tauto|]. intros [H1 [[= ->]|H2]]; [congruence | tauto].
  - rewrite IH. split; [tauto|]. intros [H1 [H|H2]]; [discriminate | tauto].
Qed.

(** X6.  The teams, the periods and the shot types of the summary list
    each value once, and they are exactly the truthy values that occur in
    the records: the non-empty team and shot type texts, and the periods
    other than 0 and [NaN]. *)
Theorem summary_lists_distinct_truthy_values (data : list ShotData) :
  let summary := getDatasetSummary data in
  List.NoDup (summaryTeams summary)
  /\ List.NoDup (summaryPeriods summary)
  /\ List.NoDup (shotTypes summary)
  /\ (forall t, In t (summaryTeams summary)
                <-> Str.truthy t = true /\ exists s, In s data /\ teamId s = Some t)
  /\ (forall p, In p (summaryPeriods summary)
                <-> Num.truthy p = true /\ exists s, In s data /\ period s = Some p)
  /\ (forall t, In t (shotTypes summary)
                <-> Str.truthy t = true /\ exists s, In s data /\ shotType s = Some t).
Proof.
  cbv zeta. unfold getDatasetSummary;
    cbn [summaryTeams summaryPeriods CsvLoaderService.shotTypes].
  destruct (distinct_spec String.eqb String.eqb_eq (truthyStrings (map teamId data)))
    as [Hnt Hit].
  destruct (distinct_spec Num.sameValueZero sameValueZero_eq
              (truthyNumbers (map period data))) as [Hnp Hip].
  destruct (distinct_spec String.eqb String.eqb_eq (truthyStrings (map shotType data)))
    as [Hns His].
  repeat split; try assumption.
  - apply Hit in H. apply in_truthyStrings in H. tauto.
  - apply Hit in H. apply in_truthyStrings in H as [_ H].
    apply in_map_iff in H as (s & Hs & Hin). exists s. tauto.
  - intros [Ht (s & Hin & Hs)]. apply Hit, in_truthyStrings. split; [exact Ht|].
    apply in_map_iff. exists s. tauto.
  - apply Hip in H. apply in_truthyNumbers in H. tauto.
  - apply Hip in H. apply in_truthyNumbers in H as [_ H].
    apply in_map_iff in H as (s & Hs & Hin). exists s. tauto.
  - intros [Ht (s & Hin & Hs)]. apply Hip, in_truthyNumbers. split; [exact Ht|].
    apply in_map_iff. exists s. tauto.
  - apply His in H. apply in_truthyStrings in H. tauto.
  - apply His in H. apply in_truthyStrings in H as [_ H].
    apply in_map_iff in H as (s & Hs & Hin). exists s. tauto.
  - intros [Ht (s & Hin & Hs)]. apply His, in_truthyStrings. split; [exact Ht|].
    apply in_map_iff. exists s. tauto.
Qed.

Lemma min2_PosInf (v : number) : isNaN v = false -> min2 PosInf v = v.
Proof. destruct v; try discriminate; reflexivity. Qed.

Lemma max2_NegInf (v : number) : isNaN v = false -> max2 NegInf v = v.
Proof. destruct v; try discriminate; reflexivity. Qed.

Lemma fold_min2_in (xs : list number) (acc : number) :
  fold_left min2 xs acc = acc \/ In (fold_left min2 xs acc) xs
  \/ fold_left min2 xs acc = NaN.
Proof.
  revert acc. induction xs as [|v xs IH]; intros acc; simpl; [left; reflexivity|].
  destruct (IH (min2 acc v)) as [H|[H|H]]; [|tauto|tauto].
  rewrite H. unfold min2.
  destruct (isNaN acc || isNaN v); [tauto|].
  destruct (Num.lt v acc); tauto.
Qed.

Lemma fold_max2_in (xs : list number) (acc : number) :
  fold_left max2 xs acc = acc \/ In (fold_left max2 xs acc) xs
  \/ fold_left max2 xs acc = NaN.
Proof.
  revert acc. induction xs as [|v xs IH]; intros acc; simpl; [left; reflexivity|].
  destruct (IH (max2 acc v)) as [H|[H|H]]; [|tauto|tauto].
  rewrite H. unfold max2.
  destruct (isNaN acc || isNaN v); [tauto|].
  destruct (Num.lt acc v); tauto.
Qed.

(** On a non-empty list without [NaN], the bounds are elements. *)
Lemma min_max_attained (xs : list number) :
  xs <> [] -> Forall (fun v => isNaN v = false) xs ->
  In (Num.min xs) xs /\ In (Num.max xs) xs.
Proof.
  intros Hne Hxs. destruct Hxs as [|v xs Hv Hxs]; [congruence|].
  unfold Num.min, Num.max; simpl fold_left.
  rewrite (min2_PosInf v Hv), (max2_NegInf v Hv).
  destruct (fold_min2_spec xs v Hv Hxs) as (Hn1 & _).
  destruct (fold_max2_spec xs v Hv Hxs) as (Hn2 & _).
  split.
  - destruct (fold_min2_in xs v) as [H|[H|H]];
      [rewrite H; left; reflexivity | right; exact H | rewrite H in Hn1; discriminate].
  - destruct (fold_max2_in xs v) as [H|[H|H]];
      [rewrite H; left; reflexivity | right; exact H | rewrite H in Hn2; discriminate].
Qed.

Lemma fold_min2_NaN (xs : list number) : fold_left min2 xs NaN = NaN.
Proof. induction xs as [|v xs IH]; simpl; [reflexivity | exact IH]. Qed.

Lemma fold_max2_NaN (xs : list number) : fold_left max2 xs NaN = NaN.
Proof. induction xs as [|v xs IH]; simpl; [reflexivity | exact IH]. Qed.

(** One [NaN] among the arguments makes both bounds [NaN]. *)
Lemma min_max_NaN (xs : list number) :
  In NaN xs -> Num.min xs = NaN /\ Num.max xs = NaN.
Proof.
  unfold Num.min, Num.max. generalize PosInf at 1. generalize NegInf at 1.
  induction xs as [|v xs IH]; intros a b; simpl; [tauto|].
  intros [->|Hin]; [|apply IH, Hin].
  unfold min2, max2. rewrite !orb_true_r.
  rewrite fold_min2_NaN, fold_max2_NaN. split; reflexivity.
Qed.

(** X7.  On a collection whose coordinates are numbers, the coordinate
    ranges of the summary enclose every record, and when there is a
    record each bound is the coordinate of some record. *)
Theorem coordinateRanges_enclose_and_are_attained (data : list ShotData) :
  Forall (fun s => isNaN (x s) = false /\ isNaN (y s) = false) data ->
  let ranges := coordinateRanges (getDatasetSummary data) in
  Forall (fun s => Num.le (xMin ranges) (x s) = true
                   /\ Num.le (x s) (xMax ranges) = true
                   /\ Num.le (yMin ranges) (y s) = true
                   /\ Num.le (y s) (yMax ranges) = true) data
  /\ (data <> [] ->
      (exists s, In s data /\ x s = xMin ranges)
      /\ (exists s, In s data /\ x s = xMax ranges)
      /\ (exists s, In s data /\ y s = yMin ranges)
      /\ (exists s, In s data /\ y s = yMax ranges)).
Proof.
  intros Hall. cbv zeta. unfold getDatasetSummary.
  cbn [coordinateRanges xMin xMax yMin yMax].
  assert (Hx : Forall (fun v => isNaN v = false) (map x data)).
  { apply List.Forall_map. eapply List.Forall_impl; [|exact Hall]. intros s Hs; apply Hs. }
  assert (Hy : Forall (fun v => isNaN v = false) (map y data)).
  { apply List.Forall_map. eapply List.Forall_impl; [|exact Hall]. intros s Hs; apply Hs. }
  split.
  - pose proof (min_max_bounds _ Hx) as Bx. pose proof (min_max_bounds _ Hy) as By.
    rewrite List.Forall_map in Bx, By. rewrite List.Forall_forall in *.
    intros s Hs. specialize (Bx s Hs). specialize (By s Hs). tauto.
  - intros Hne.
    assert (Hnx : map x data <> []) by (destruct data; [congruence | discriminate]).
    assert (Hny : map y data <> []) by (destruct data; [congruence | discriminate]).
    destruct (min_max_attained _ Hnx Hx) as [Hx0 Hx1].
    destruct (min_max_attained _ Hny Hy) as [Hy0 Hy1].
    apply in_map_iff in Hx0 as (s0 & E0 & I0). apply in_map_iff in Hx1 as (s1 & E1 & I1).
    apply in_map_iff in Hy0 as (s2 & E2 & I2). apply in_map_iff in Hy1 as (s3 & E3 & I3).
    repeat split; eauto.
Qed.

End SummaryProperties.

(* ===================================================================== *)
(** * Further properties: the two filters *)
(* ===================================================================== *)

Section FilterProperties.

Import CsvLoaderService HeatMap Component.

Lemma lt_Fin (p q : Qc) : Num.lt (Fin p) (Fin q) = true <-> (p < q)%Qc.
Proof.
  unfold Num.lt; simpl. rewrite Qclt_alt.
  destruct (p ?= q)%Qc; split; intros H; try reflexivity; discriminate.
Qed.

Lemma lt_trans (a b c : number) :
  Num.lt a b = true -> Num.lt b c = true -> Num.lt a c = true.
Proof.
  destruct a as [| | |p], b as [| | |q], c as [| | |r];
    try (intros; reflexivity); try (intros; discriminate);
    try (unfold Num.lt; simpl; intros; discriminate).
  rewrite !lt_Fin. apply Qclt_trans.
Qed.

(** X8.  [filterData] never reads the [shotOutcomes] criterion: whatever
    it holds, the result is the same; and with no criterion at all the
    result is the input. *)
Theorem filterData_ignores_shotOutcomes
    (data : list ShotData) (filters : Criteria) (so : option (list string)) :
  filterData data (withShotOutcomes so filters) = filterData data filters
  /\ filterData data {| teams := None; shotOutcomes := so; periods := None;
                        CsvLoaderService.minXG := None;
                        CsvLoaderService.maxXG := None |} = data.
Proof.
  split; [reflexivity|].
  unfold filterData. apply filter_all. apply List.Forall_forall.
  intros shot _. reflexivity.
Qed.

(** X9.  When at least one team and one period are selected and every
    record has a truthy team and period, [filterData] of the service,
    given the selected teams, periods and range, keeps the same records
    as the [filteredData] memo does with no outcome, no shot type and no
    quick filter. *)
Theorem filterData_agrees_with_filteredData
    (data : list ShotData) (filters : FilterState) :
  selectedTeams filters <> [] -> selectedPeriods filters <> [] ->
  selectedShotOutcomes filters = [] -> shotType filters = [] ->
  showOnlyGoals filters = false -> showOnlyHighDanger filters = false ->
  Forall (fun s => Str.truthyOpt (teamId s) = true /\ truthyNum (period s) = true)
         data ->
  filterData data (criteriaOf filters) = filteredData data filters.
Proof.
  intros Ht Hp Ho Hs Hg Hd Hall.
  rewrite filteredData_filter. unfold filterData. apply filter_ext_Forall.
  eapply List.Forall_impl; [|exact Hall]. intros s [Hteam Hper].
  unfold keeps, passes, criteriaOf; simpl. rewrite Ho, Hs, Hg, Hd.
  destruct (teamId s) as [t|]; [|discriminate]. simpl in Hteam.
  destruct (period s) as [p|]; [|discriminate]. simpl in Hper.
  unfold Str.or, orNum, Num.or. rewrite Hteam, Hper.
  destruct (selectedTeams filters); [congruence|].
  destruct (selectedPeriods filters); [congruence|].
  cbn [nonEmpty andb].
  destruct (Str.includes _ t), (Num.includes _ p),
    (Num.lt (xG s) (minXG filters)), (Num.gt (xG s) (maxXG filters)); reflexivity.
Qed.

(** X10.  Once "high quality shots only" is on, "high danger only" makes
    no difference to the filtered data: a record that is not below 0.8 is
    not below 0.15. *)
Theorem showOnlyGoals_subsumes_showOnlyHighDanger
    (shotData : list ShotData) (filters : FilterState) (value : bool) :
  showOnlyGoals filters = true ->
  filteredData shotData (updateFilter (UpdateShowOnlyHighDanger value) filters)
  = filteredData shotData filters.
Proof.
  intros Hg. rewrite !filteredData_filter. apply filter_ext_Forall.
  apply List.Forall_forall. intros s _.
  unfold passes, updateFilter; simpl. rewrite Hg.
  destruct (Num.lt (xG s) (dec 15 100)) eqn:E.
  - rewrite (lt_trans _ _ (dec 8 10) E) by reflexivity.
    repeat match goal with
           | |- context [if ?b then false else _] => destruct b; try reflexivity
           end.
  - rewrite !andb_false_r. reflexivity.
Qed.

Lemma outcomeOf_cases (shot : ShotData) :
  outcomeOf shot = "GOAL" \/ outcomeOf shot = "SHOT"
  \/ outcomeOf shot = "MISSED_SHOT".
Proof.
  unfold outcomeOf.
  destruct (Num.gt (xG shot) (dec 2 10)); [tauto|].
  destruct (Num.gt (xG shot) (dec 1 10)); tauto.
Qed.

(** X11.  Selecting the three simulated outcomes together filters like
    selecting none. *)
Theorem all_outcomes_selected_is_no_outcome_filter
    (shotData : list ShotData) (filters : FilterState) :
  Str.includes (selectedShotOutcomes filters) "GOAL" = true ->
  Str.includes (selectedShotOutcomes filters) "SHOT" = true ->
  Str.includes (selectedShotOutcomes filters) "MISSED_SHOT" = true ->
  filteredData shotData filters
  = filteredData shotData (updateFilter (UpdateSelectedShotOutcomes []) filters).
Proof.
  intros Hg Hs Hm. rewrite !filteredData_filter. apply filter_ext_Forall.
  apply List.Forall_forall. intros s _.
  unfold passes, updateFilter; simpl.
  assert (Hin : Str.includes (selectedShotOutcomes filters) (outcomeOf s) = true).
  { destruct (outcomeOf_cases s) as [->|[->| ->]]; assumption. }
  rewrite Hin, andb_false_r. reflexivity.
Qed.

(** X12.  A record whose xG is [NaN] is never removed by the range or by
    the quick filters: with any bounds and any setting of the two flags
    it is kept or removed exactly as before. *)
Theorem NaN_xG_escapes_range_and_quick_filters
    (filters : FilterState) (shot : ShotData)
    (lo hi : number) (goals danger : bool) :
  isNaN (xG shot) = true ->
  passes (updateFilter (UpdateMinXG lo)
            (updateFilter (UpdateMaxXG hi)
               (updateFilter (UpdateShowOnlyGoals goals)
                  (updateFilter (UpdateShowOnlyHighDanger danger) filters)))) shot
  = passes filters shot.
Proof.
  intros HN. destruct (xG shot) eqn:E; try discriminate.
  unfold passes, outcomeOf, updateFilter; simpl. rewrite E; simpl.
  rewrite !andb_false_r. simpl.
  destruct (minXG filters), (maxXG filters), lo, hi; reflexivity.
Qed.

(** X27.  The two quick filters keep the boundary values: a displayed
    record whose xG is exactly 0.8 stays with "high quality only" on, and
    one whose xG is exactly 0.15 stays with "high danger only" on; but
    the latter gets no gold circle and does not count as "High Danger" in
    the stats, which both ask for more than 0.15. *)
Theorem quick_filter_boundaries (filters : FilterState) (shot : ShotData) :
  passes filters shot = true ->
  (xG shot = dec 8 10 ->
   passes (updateFilter (UpdateShowOnlyGoals true) filters) shot = true)
  /\ (xG shot = dec 15 100 ->
      passes (updateFilter (UpdateShowOnlyHighDanger true) filters) shot = true
      /\ highXgShots filters [shot] = []
      /\ statsHighDanger [shot] = 0%nat).
Proof.
  intros Hp. split.
  - intros E. revert Hp. unfold passes, updateFilter; simpl. rewrite E.
    change (Num.lt (dec 8 10) (dec 8 10)) with false.
    case_guards; intros; first [reflexivity | discriminate].
  - intros E. split; [|split].
    + revert Hp. unfold passes, updateFilter; simpl. rewrite E.
      change (Num.lt (dec 15 100) (dec 15 100)) with false.
      case_guards; intros; first [reflexivity | discriminate].
    + unfold highXgShots. simpl. rewrite E.
      destruct (showOnlyHighDanger filters); reflexivity.
    + unfold statsHighDanger. simpl. rewrite E. reflexivity.
Qed.

End FilterProperties.

(* ===================================================================== *)
(** * Further properties: the handlers of the component *)
(* ===================================================================== *)

Section HandlerProperties.

Import CsvLoaderService HeatMap Component.

Lemma strIncludes_In (l : list string) (v : string) :
  Str.includes l v = true <-> In v l.
Proof.
  unfold Str.includes. rewrite existsb_exists. split.
  - intros (w & Hw & E). apply String.eqb_eq in E. subst. exact Hw.
  - intros H. exists v. split; [exact H | apply String.eqb_refl].
Qed.

Lemma numIncludes_In (l : list number) (v : number) :
  Num.includes l v = true <-> In v l.
Proof.
  unfold Num.includes. rewrite existsb_exists. split.
  - intros (w & Hw & E). apply sameValueZero_eq in E. subst. exact Hw.
  - intros H. exists v. split; [exact H | apply sameValueZero_eq; reflexivity].
Qed.

Lemma strictEq_eq (a b : number) :
  isNaN b = false -> (Num.strictEq a b = true <-> a = b).
Proof.
  intros Hb. unfold Num.strictEq. rewrite andb_true_iff, bool_decide_eq_true.
  split; [tauto|]. intros ->. rewrite Hb. tauto.
Qed.

(** Toggling, for an equality test that decides equality on the value. *)
Lemma toggleArray_spec {A : Type} (includes : list A -> A -> bool)
    (strictEq : A -> A -> bool) (l : list A) (v : A) :
  (includes l v = true <-> In v l) ->
  (forall a, strictEq a v = true <-> a = v) ->
  (forall w, In w (toggleArray includes strictEq l v)
             <-> (w = v /\ ~ In v l) \/ (w <> v /\ In w l))
  /\ (List.NoDup l -> List.NoDup (toggleArray includes strictEq l v)).
Proof.
  intros Hinc Heq. unfold toggleArray.
  destruct (includes l v) eqn:E.
  - assert (Hv : In v l) by (apply Hinc; reflexivity). split.
    + intros w. rewrite filter_In, negb_true_iff.
      split.
      * intros [Hw Hne]. right. split; [|exact Hw].
        intros ->. rewrite (proj2 (Heq v) eq_refl) in Hne. discriminate.
      * intros [[-> Hn]|[Hne Hw]]; [contradiction|]. split; [exact Hw|].
        destruct (strictEq w v) eqn:E'; [apply Heq in E'; contradiction | reflexivity].
    + intros Hnd. apply List.NoDup_filter, Hnd.
  - assert (Hn : ~ In v l) by (intros H; apply Hinc in H; discriminate).
    split.
    + intros w. rewrite in_app_iff. simpl. split.
      * intros [Hw|[<-|[]]]; [right|left; tauto].
        split; [intros ->; contradiction | exact Hw].
      * intros [[-> _]|[_ Hw]]; tauto.
    + intros Hnd. apply (Permutation_NoDup (Permutation_cons_append l v)).
      constructor; assumption.
Qed.

Lemma toggleArray_twice {A : Type} (includes : list A -> A -> bool)
    (strictEq : A -> A -> bool) (l : list A) (v : A) :
  (forall a b : A, {a = b} + {a <> b}) ->
  (forall l', includes l' v = true <-> In v l') ->
  (forall a, strictEq a v = true <-> a = v) ->
  sameMembers (toggleArray includes strictEq (toggleArray includes strictEq l v) v) l
  /\ (~ In v l ->
      toggleArray includes strictEq (toggleArray includes strictEq l v) v = l).
Proof.
  intros Hdec Hinc Heq. split.
  - intros w.
    destruct (toggleArray_spec includes strictEq l v (Hinc l) Heq) as [H1 _].
    destruct (toggleArray_spec includes strictEq
                (toggleArray includes strictEq l v) v (Hinc _) Heq) as [H2 _].
    rewrite H2, !H1.
    assert (Hv : In v l \/ ~ In v l).
    { destruct (includes l v) eqn:E; [left; apply Hinc, E|].
      right. intros H. apply Hinc in H. congruence. }
    destruct (Hdec w v) as [->|Hne]; tauto.
  - intros Hn. unfold toggleArray at 2.
    destruct (includes l v) eqn:E; [apply Hinc in E; contradiction|].
    unfold toggleArray.
    rewrite (proj2 (Hinc (l ++ [v])%list)
               ltac:(apply in_app_iff; right; left; reflexivity)).
    rewrite List.filter_app. simpl. rewrite (proj2 (Heq v) eq_refl). simpl.
    rewrite app_nil_r. apply filter_all. apply List.Forall_forall.
    intros a Ha. destruct (strictEq a v) eqn:E'; [|reflexivity].
    apply Heq in E'. subst. contradiction.
Qed.

Lemma strIncludes_sameMembers (l l' : list string) :
  sameMembers l l' ->
  nonEmpty l = nonEmpty l' /\ forall w, Str.includes l w = Str.includes l' w.
Proof.
  intros H. split.
  - destruct l as [|a l], l' as [|b l']; try reflexivity.
    + destruct (proj2 (H b)); left; reflexivity.
    + destruct (proj1 (H a)); left; reflexivity.
  - intros w. apply eq_true_iff_eq. rewrite !strIncludes_In. apply H.
Qed.

Lemma numIncludes_sameMembers (l l' : list number) :
  sameMembers l l' ->
  nonEmpty l = nonEmpty l' /\ forall w, Num.includes l w = Num.includes l' w.
Proof.
  intros H. split.
  - destruct l as [|a l], l' as [|b l']; try reflexivity.
    + destruct (proj2 (H b)); left; reflexivity.
    + destruct (proj1 (H a)); left; reflexivity.
  - intros w. apply eq_true_iff_eq. rewrite !numIncludes_In. apply H.
Qed.

(** The memo only looks at which values the lists hold. *)
Lemma passes_sameMembers (f g : FilterState) (shot : ShotData) :
  sameMembers (selectedTeams f) (selectedTeams g) ->
  sameMembers (selectedPeriods f) (selectedPeriods g) ->
  sameMembers (selectedShotOutcomes f) (selectedShotOutcomes g) ->
  sameMembers (shotType f) (shotType g) ->
  minXG f = minXG g -> maxXG f = maxXG g ->
  showOnlyGoals f = showOnlyGoals g ->
  showOnlyHighDanger f = showOnlyHighDanger g ->
  passes f shot = passes g shot.
Proof.
  intros Ht Hp Ho Hs Hlo Hhi Hg Hd. unfold passes.
  destruct (strIncludes_sameMembers _ _ Ht) as [-> Et].
  destruct (numIncludes_sameMembers _ _ Hp) as [-> Ep].
  destruct (strIncludes_sameMembers _ _ Ho) as [-> Eo].
  destruct (strIncludes_sameMembers _ _ Hs) as [-> Es].
  rewrite Et, Ep, Eo, Es, Hlo, Hhi, Hg, Hd. reflexivity.
Qed.

Lemma sameMembers_refl {A : Type} (l : list A) : sameMembers l l.
Proof. intros w. tauto. Qed.

(** X13.  Toggling a team puts it in the selection when it was not there
    and takes it out when it was, leaves the other teams as they are and
    keeps the selection free of repetitions; so does toggling a period
    that is a number, whereas a [NaN] that is selected cannot be toggled
    off. *)
Theorem toggleArrayFilter_flips_membership (prev : FilterState) :
  (forall v w,
      In w (selectedTeams (toggleArrayFilter (ToggleSelectedTeams v) prev))
      <-> (w = v /\ ~ In v (selectedTeams prev))
          \/ (w <> v /\ In w (selectedTeams prev)))
  /\ (forall v, List.NoDup (selectedTeams prev) ->
        List.NoDup (selectedTeams (toggleArrayFilter (ToggleSelectedTeams v) prev)))
  /\ (forall v w, isNaN v = false ->
        In w (selectedPeriods (toggleArrayFilter (ToggleSelectedPeriods v) prev))
        <-> (w = v /\ ~ In v (selectedPeriods prev))
            \/ (w <> v /\ In w (selectedPeriods prev)))
  /\ (forall v, isNaN v = false -> List.NoDup (selectedPeriods prev) ->
        List.NoDup (selectedPeriods
                      (toggleArrayFilter (ToggleSelectedPeriods v) prev)))
  /\ (In NaN (selectedPeriods prev) ->
      toggleArrayFilter (ToggleSelectedPeriods NaN) prev = prev).
Proof.
  split; [|split; [|split; [|split]]].
  - intros v w.
    apply (toggleArray_spec Str.includes String.eqb _ v (strIncludes_In _ v)
             (fun a => String.eqb_eq a v)).
  - intros v.
    apply (toggleArray_spec Str.includes String.eqb _ v (strIncludes_In _ v)
             (fun a => String.eqb_eq a v)).
  - intros v w Hv.
    apply (toggleArray_spec Num.includes Num.strictEq _ v (numIncludes_In _ v)
             (fun a => strictEq_eq a v Hv)).
  - intros v Hv.
    apply (toggleArray_spec Num.includes Num.strictEq _ v (numIncludes_In _ v)
             (fun a => strictEq_eq a v Hv)).
  - intros Hin. destruct prev as [ts ps os lo hi st g d]. simpl in *.
    unfold toggleNumbers, toggleArray.
    rewrite (proj2 (numIncludes_In ps NaN) Hin). f_equal.
    apply filter_all. apply List.Forall_forall. intros a _.
    unfold Num.strictEq. destruct a; reflexivity.
Qed.

(** X14.  Toggling the same value twice restores the filtered data, and
    restores the filters themselves when the value was not selected
    (a period being a number). *)
Theorem toggleArrayFilter_twice (shotData : list ShotData) (t : Toggle)
    (prev : FilterState) :
  toggleOfValue t ->
  filteredData shotData (toggleArrayFilter t (toggleArrayFilter t prev))
  = filteredData shotData prev
  /\ (match t with
      | ToggleSelectedTeams v => ~ In v (selectedTeams prev)
      | ToggleSelectedPeriods v => ~ In v (selectedPeriods prev)
      | ToggleSelectedShotOutcomes v => ~ In v (selectedShotOutcomes prev)
      | ToggleShotType v => ~ In v (shotType prev)
      end ->
      toggleArrayFilter t (toggleArrayFilter t prev) = prev).
Proof.
  intros Ht.
  pose proof (fun l v => toggleArray_twice Str.includes String.eqb l v
                string_dec (fun l' => strIncludes_In l' v)
                (fun a => String.eqb_eq a v)) as Hstr.
  pose proof (fun l v (Hv : isNaN v = false) =>
                toggleArray_twice Num.includes Num.strictEq l v
                  (fun a b => number_eq_dec a b) (fun l' => numIncludes_In l' v)
                  (fun a => strictEq_eq a v Hv)) as Hnum.
  split.
  - rewrite !filteredData_filter. apply filter_ext_Forall.
    apply List.Forall_forall. intros s _.
    destruct t as [v|v|v|v]; simpl in Ht;
      apply passes_sameMembers; simpl;
      try apply sameMembers_refl; try reflexivity;
      try apply (proj1 (Hstr _ v)); apply (proj1 (Hnum _ v Ht)).
  - destruct prev as [ts ps os lo hi st g d].
    destruct t as [v|v|v|v]; simpl in *; intros Hn; f_equal;
      try apply (proj2 (Hstr _ v) Hn); apply (proj2 (Hnum _ v Ht) Hn).
Qed.

Lemma toggleStrings_absent (l : list string) (v : string) :
  ~ In v l -> toggleStrings l v = (l ++ [v])%list.
Proof.
  intros Hn. unfold toggleStrings, toggleArray.
  destruct (Str.includes l v) eqn:E; [apply strIncludes_In in E; contradiction|].
  reflexivity.
Qed.

Lemma filter_filter {A : Type} (f g : A -> bool) (l : list A) :
  List.filter g (List.filter f l) = List.filter (fun a => f a && g a) l.
Proof.
  induction l as [|a l IH]; simpl; [reflexivity|].
  destruct (f a); simpl; [destruct (g a)|]; rewrite IH; reflexivity.
Qed.

Lemma strIncludes_app (l : list string) (v w : string) :
  Str.includes (l ++ [v]) w = Str.includes l w || String.eqb w v.
Proof.
  unfold Str.includes. rewrite existsb_app. simpl. rewrite orb_false_r. reflexivity.
Qed.

(** X25.  Selecting a first team shows, of the records shown before,
    exactly those of that team (a record without team counting as the
    empty text); selecting a further team never hides a record that was
    shown. *)
Theorem selecting_a_team (shotData : list ShotData) (prev : FilterState) (v : string) :
  ~ In v (selectedTeams prev) ->
  (selectedTeams prev = [] ->
   filteredData shotData (toggleArrayFilter (ToggleSelectedTeams v) prev)
   = List.filter (fun r => String.eqb (Str.or (teamId r) "") v)
                 (filteredData shotData prev))
  /\ (selectedTeams prev <> [] ->
      forall r, In r (filteredData shotData prev) ->
                In r (filteredData shotData
                        (toggleArrayFilter (ToggleSelectedTeams v) prev))).
Proof.
  intros Hn. split.
  - intros He. rewrite !filteredData_filter, filter_filter.
    apply filter_ext_Forall, List.Forall_forall. intros r _.
    unfold passes, toggleArrayFilter; simpl.
    rewrite (toggleStrings_absent _ _ Hn), He. simpl.
    rewrite orb_false_r.
    destruct (String.eqb (Str.or (teamId r) "") v); simpl;
      [rewrite andb_true_r; reflexivity | rewrite andb_false_r; reflexivity].
  - intros Hne r. rewrite !filteredData_filter, !filter_In.
    intros [Hin Hp]. split; [exact Hin|]. revert Hp.
    unfold passes, toggleArrayFilter; simpl.
    rewrite (toggleStrings_absent _ _ Hn), strIncludes_app.
    destruct (selectedTeams prev) as [|t0 ts] eqn:E; [congruence|].
    cbn [nonEmpty app andb].
    destruct (Str.includes (t0 :: ts) (Str.or (teamId r) "")); simpl;
      [tauto | discriminate].
Qed.

End HandlerProperties.

(* ===================================================================== *)
(** * Further properties: loading, clearing, the overlay and the stats *)
(* ===================================================================== *)

Section ComponentProperties.

Import CsvLoaderService HeatMap Component.

Lemma loadedRecord_real (shot : ShotData) : loadedRecord shot -> Spec.realRecord shot.
Proof.
  intros (HxG & Hp & _). split; [exact HxG|].
  intros E. rewrite E in Hp. discriminate.
Qed.

(** X15.  After a load from the first render of rows that are not too
    many for the engine to spread, whatever the rows hold, the page is
    shown, there is one record per row, the summary is that of the
    records, and every record is displayed. *)
Theorem loadData_success_shows_every_record (spreads : nat -> bool) (E : Type)
    (rows : list CsvRow) :
  spreads (length rows) = true ->
  let st := @loadData spreads E (inr rows) initialState in
  render st = MainScreen
  /\ error st = None
  /\ length (shotData st) = length rows
  /\ dataSummary st = Some (getDatasetSummary (shotData st))
  /\ filteredData (shotData st) (filters st) = shotData st.
Proof.
  intros Hs. cbv zeta. unfold loadData; simpl. rewrite length_map, Hs. simpl.
  repeat split; [apply length_map|].
  apply filtersOnLoad_shows_everything.
  apply List.Forall_map, List.Forall_forall. intros row _.
  apply loadedRecord_real, convertCsvRowToShotData_loadedRecord.
Qed.

(** X16.  A load fails when [d3.csv] fails or when the rows are too many
    for the engine to spread, and only then.  After a failed load the
    error screen is shown with the fixed message, and the summary and the
    filters are those from before the load; the records are those from
    before when [d3.csv] failed, and the new ones when the summary could
    not be computed.  Without a summary from before, nothing is drawn. *)
Theorem loadData_failure_shows_error (spreads : nat -> bool) (E : Type)
    (csvData : E + list CsvRow) (st : State) :
  let st' := loadData spreads csvData st in
  (error st' = None <->
   exists rows, csvData = inr rows /\ spreads (length rows) = true)
  /\ (error st' <> None ->
      render st' = ErrorScreen "Failed to load hockey data from CSV"
      /\ dataSummary st' = dataSummary st
      /\ filters st' = filters st
      /\ match csvData with
         | inl _ => shotData st' = shotData st
         | inr rows => shotData st' = map convertCsvRowToShotData rows
         end
      /\ (dataSummary st = None ->
          forall (Color : Type) (reds ylOrRd : number -> Color) (unknown : Color),
            chart Color reds ylOrRd unknown
                  (shotData st') (dataSummary st') (filters st') = None)).
Proof.
  cbv zeta. unfold loadData.
  destruct csvData as [failure|rows]; simpl.
  - split.
    + split; [discriminate | intros (rows & Hr & _); discriminate].
    + intros _. repeat split. intros Hnone Color reds ylOrRd unknown.
      unfold chart. rewrite Hnone.
      destruct (filteredData (shotData st) (filters st)); reflexivity.
  - rewrite length_map. destruct (spreads (length rows)) eqn:Hs; simpl.
    + split; [|congruence].
      split; [intros _; exists rows; split; [reflexivity | exact Hs] | reflexivity].
    + split.
      * split; [discriminate|].
        intros (rows' & Hr & Hs'). injection Hr as <-. congruence.
      * intros _. repeat split. intros Hnone Color reds ylOrRd unknown.
        unfold chart. rewrite Hnone.
        destruct (filteredData _ (filters st)); reflexivity.
Qed.

(** X17.  With a summary at hand, [clearFilters] gives the initial
    filters whatever the filters were; the range is then 0 to 1, so that
    of the records with a real xG exactly those between 0 and 1 are
    displayed. *)
Theorem clearFilters_resets_to_unit_range
    (summary : DatasetSummary) (filters : FilterState) (shotData : list ShotData) :
  clearFilters (Some summary) filters = initialFilters
  /\ (Forall Spec.realRecord shotData ->
      filteredData shotData (clearFilters (Some summary) filters)
      = List.filter (fun r => Num.le zero (xG r) && Num.le (xG r) one) shotData).
Proof.
  split; [reflexivity|]. intros Hreal.
  rewrite filteredData_filter. apply filter_ext_Forall.
  eapply List.Forall_impl; [|exact Hreal]. intros r Hr.
  rewrite passes_satisfies; [| reflexivity | split; reflexivity | exact Hr].
  unfold Spec.satisfies, Spec.rangePasses; simpl.
  rewrite !andb_true_r. reflexivity.
Qed.




(** [d3.sum] passes over the values that are 0; adding them changes
    nothing. *)
Lemma add_zero (a : number) : add a zero = a.
Proof.
  destruct a as [| | |p]; try reflexivity.
  unfold zero, ofZ, dec; simpl. f_equal.
  change (Q2Qc (0 # 1)) with 0%Qc. ring.
Qed.

Lemma d3_sum_finite (vs : list number) (a : number) :
  Forall (fun v => isFinite (toDouble v) = true) vs -> toDouble a = a ->
  fold_left (fun acc v => if Num.truthy v then addD acc v else acc) vs a
  = fold_left addD vs a.
Proof.
  intros Hvs. revert a. induction Hvs as [|v vs Hv _ IH]; intros a Ha; [reflexivity|].
  cbn [fold_left].
  assert (Hstep : (if Num.truthy v then addD a v else a) = addD a v).
  { destruct (Num.truthy v) eqn:E; [reflexivity|].
    destruct v as [| | |q]; try discriminate.
    rewrite (falsy_finite q E). unfold addD.
    change (toDouble zero) with zero. rewrite Ha, add_zero, Ha. reflexivity. }
  rewrite Hstep. apply IH. unfold addD. apply toDouble_idempotent.
Qed.

(** X19.  The stats box counts the displayed records as the summary of
    those records does.  When their xG values are finite doubles it
    shows, before formatting, the total and the average of that summary,
    and the average is a number; on no record its total and its average
    are 0, where the average of the summary is [NaN]. *)
Theorem stats_box_numbers (filteredData : list ShotData) :
  statsShots filteredData = totalShots (getDatasetSummary filteredData)
  /\ statsTotalXG [] = zero /\ statsAvgXG [] = zero
  /\ avgXG (getDatasetSummary []) = NaN
  /\ (filteredData <> [] ->
      Z.of_nat (length filteredData) <= maxArrayLength ->
      Forall (fun s => isFinite (toDouble (xG s)) = true) filteredData ->
      statsTotalXG filteredData = totalXG (getDatasetSummary filteredData)
      /\ statsAvgXG filteredData = avgXG (getDatasetSummary filteredData)
      /\ isNaN (statsAvgXG filteredData) = false).
Proof.
  split; [reflexivity|].
  split; [reflexivity|]. split; [reflexivity|]. split; [reflexivity|].
  intros Hne Hlen Hfin.
  assert (Havg : statsAvgXG filteredData = Spec.averageExpectedGoal filteredData).
  { apply avgXG_is_average; assumption. }
  split; [|split; [exact Havg|]].
  - unfold statsTotalXG, D3.sum. apply d3_sum_finite; [|reflexivity].
    apply List.Forall_map. exact Hfin.
  - rewrite Havg. apply average_not_NaN; assumption.
Qed.

(** X20.  The tooltip is never placed left of 10 pixels, and when the
    window is wide enough for 10 <= innerWidth - 220 it is never placed
    right of innerWidth - 220; its position is 10, the pointer's minus
    100, or innerWidth - 220. *)
Theorem tooltipLeft_is_clamped (tooltipX innerWidth : number) :
  isNaN tooltipX = false -> isNaN innerWidth = false ->
  Num.le (ofZ 10) (tooltipLeft tooltipX innerWidth) = true
  /\ (Num.le (ofZ 10) (sub innerWidth (ofZ 220)) = true ->
      Num.le (tooltipLeft tooltipX innerWidth) (sub innerWidth (ofZ 220)) = true)
  /\ (tooltipLeft tooltipX innerWidth = ofZ 10
      \/ tooltipLeft tooltipX innerWidth = sub tooltipX (ofZ 100)
      \/ tooltipLeft tooltipX innerWidth = sub innerWidth (ofZ 220)).
Proof.
  intros Hx Hw.
  assert (Ha : isNaN (sub tooltipX (ofZ 100)) = false)
    by (destruct tooltipX; try discriminate; reflexivity).
  assert (Hb : isNaN (sub innerWidth (ofZ 220)) = false)
    by (destruct innerWidth; try discriminate; reflexivity).
  unfold tooltipLeft, Num.max, Num.min. simpl fold_left.
  set (a := sub tooltipX (ofZ 100)) in *. set (b := sub innerWidth (ofZ 220)) in *.
  rewrite (min2_PosInf a Ha). change (max2 NegInf (ofZ 10)) with (ofZ 10).
  destruct (min2_spec a b Ha Hb) as (Hm & Hma & Hmb).
  destruct (max2_spec (ofZ 10) (min2 a b) eq_refl Hm) as (_ & Hlo & _).
  split; [exact Hlo|]. split.
  - intros Hwide. unfold max2. rewrite Hm. simpl.
    destruct (Num.lt (ofZ 10) (min2 a b)); assumption.
  - unfold max2. rewrite Hm. simpl.
    destruct (Num.lt (ofZ 10) (min2 a b)); [|tauto].
    unfold min2. rewrite Ha, Hb. simpl. destruct (Num.lt b a); tauto.
Qed.

Lemma fold_max_ge (xs : list nat) (acc : nat) :
  (acc <= fold_left Nat.max xs acc)%nat
  /\ Forall (fun n => (n <= fold_left Nat.max xs acc)%nat) xs.
Proof.
  revert acc. induction xs as [|n xs IH]; intros acc; simpl.
  - split; [lia | constructor].
  - destruct (IH (Nat.max acc n)) as [H1 H2]. split; [lia|].
    constructor; [lia | exact H2].
Qed.

(** X21.  The maximum bin size is at least 1 and at least the size of
    every bin, so that the intensity of a bin, its size over the maximum,
    never exceeds 1. *)
Theorem maxBinSize_bounds_every_bin (hexData : list (D3.Bin ShotData)) :
  (1 <= maxBinSize hexData)%nat
  /\ Forall (fun d =>
               (length (D3.points d) <= maxBinSize hexData)%nat
               /\ Num.le (div (ofNat (length (D3.points d)))
                              (ofNat (maxBinSize hexData))) one = true)
            hexData.
Proof.
  assert (H1 : (1 <= maxBinSize hexData)%nat).
  { unfold maxBinSize. destruct (D3.max _ _) as [[|n]|]; lia. }
  split; [exact H1|].
  assert (Hall : Forall (fun d => (length (D3.points d) <= maxBinSize hexData)%nat)
                        hexData).
  { unfold maxBinSize, D3.max.
    destruct hexData as [|b bs]; [constructor|]. simpl map.
    destruct (fold_max_ge (map (fun d => length (D3.points d)) bs)
                          (length (D3.points b))) as [Hb Hbs].
    rewrite List.Forall_map in Hbs.
    set (m := fold_left Nat.max _ _) in *.
    assert (Hm : forall k, (k <= m)%nat -> (k <= match m with S n => S n | O => 1 end)%nat)
      by (intros k; destruct m; lia).
    constructor; [apply Hm, Hb|].
    eapply List.Forall_impl; [|exact Hbs]. intros d Hd. apply Hm, Hd. }
  eapply List.Forall_impl; [|exact Hall]. intros d Hd. split; [exact Hd|].
  pose proof (truthy_ofNat _ H1) as Ht.
  unfold ofNat, ofZ, dec in *. rewrite (div_finite _ _ Ht).
  unfold one, ofZ, dec. rewrite le_Fin.
  set (c := length (D3.points d)) in *. set (m := maxBinSize hexData) in *.
  unfold Qcle, Qcdiv, Qcmult, Qcinv, Q2Qc. cbn [this]. rewrite !Qred_correct.
  apply Qle_shift_div_r.
  - unfold Qlt; simpl. lia.
  - unfold Qle; simpl. lia.
Qed.

End ComponentProperties.

(* ===================================================================== *)
(** * Further properties: positions on the chart *)
(* ===================================================================== *)

Section ChartProperties.

Import CsvLoaderService HeatMap Component.

Lemma truthy_difference (a b : Qc) : (a < b)%Qc -> Num.truthy (Fin (b + - a)%Qc) = true.
Proof.
  intros Hab. simpl. destruct (sgn (b + - a)%Qc) eqn:E; try reflexivity.
  apply sgn_Eq in E. assert (H : (this (b + - a)%Qc == this (Q2Qc 0))%Q)
    by (rewrite E; reflexivity).
  exfalso. qc_lra.
Qed.

(** The position of a value of the domain in the domain lies between 0
    and 1. *)
Lemma normalize_unit (a b v : Qc) :
  (a < b)%Qc -> (a <= v)%Qc -> (v <= b)%Qc ->
  exists t : Qc, D3.normalize (Fin a) (Fin b) (Fin v) = Fin t
                 /\ (0 <= t)%Qc /\ (t <= 1)%Qc.
Proof.
  intros Hab Hav Hvb. unfold D3.normalize.
  change (sub (Fin b) (Fin a)) with (Fin (b + - a)%Qc).
  rewrite (truthy_difference a b Hab).
  change (sub (Fin v) (Fin a)) with (Fin (v + - a)%Qc).
  rewrite (div_finite _ _ (truthy_difference a b Hab)).
  eexists. split; [reflexivity|].
  unfold Qcle, Qclt, Qcdiv, Qcmult, Qcinv, Qcplus, Qcopp, Q2Qc in *.
  cbn [this] in *. rewrite !Qred_correct.
  change (this 0%Qc) with 0%Q. change (this 1%Qc) with 1%Q.
  set (n := (this v + - this a)%Q). set (d := (this b + - this a)%Q).
  assert (Hd : (0 < d)%Q) by (subst d; lra).
  split.
  - apply Qle_shift_div_l; [exact Hd|]. subst n. lra.
  - apply Qle_shift_div_r; [exact Hd|]. subst n d. lra.
Qed.

Lemma interpolate_between (r0 r1 : Z) (t : Qc) :
  (0 <= t)%Qc -> (t <= 1)%Qc ->
  exists p : Qc,
    D3.interpolateNumber (ofZ r0) (ofZ r1) (Fin t) = Fin p
    /\ (Q2Qc (Z.min r0 r1 # 1) <= p)%Qc /\ (p <= Q2Qc (Z.max r0 r1 # 1))%Qc.
Proof.
  intros H0 H1. unfold D3.interpolateNumber, ofZ, dec, one, ofZ, dec.
  eexists. split; [reflexivity|].
  assert (Hmin : (inject_Z (Z.min r0 r1) <= inject_Z r0
                  /\ inject_Z (Z.min r0 r1) <= inject_Z r1)%Q)
    by (rewrite <- !Zle_Qle; lia).
  assert (Hmax : (inject_Z r0 <= inject_Z (Z.max r0 r1)
                  /\ inject_Z r1 <= inject_Z (Z.max r0 r1))%Q)
    by (rewrite <- !Zle_Qle; lia).
  unfold inject_Z in *.
  unfold Qcle, Qcmult, Qcplus, Qcopp, Q2Qc in *. cbn [this] in *.
  rewrite !Qred_correct in *. change (this 0%Qc) with 0%Q in *.
  change (this 1%Qc) with 1%Q in *.
  set (x0 := (r0 # 1)%Q) in *. set (x1 := (r1 # 1)%Q) in *.
  set (lo := (Z.min r0 r1 # 1)%Q) in *. set (hi := (Z.max r0 r1 # 1)%Q) in *.
  set (u := this t) in *.
  split; nra.
Qed.

(** A scale with a finite domain, in either direction, sends a value of
    the domain between the ends of its range. *)
Lemma bimap_between (d0 d1 v : Qc) (r0 r1 : Z) :
  ((d0 <= v)%Qc /\ (v <= d1)%Qc) \/ ((d1 <= v)%Qc /\ (v <= d0)%Qc) ->
  exists p : Qc,
    D3.bimap (Fin d0, Fin d1) (ofZ r0, ofZ r1) (Fin v) = Fin p
    /\ (Q2Qc (Z.min r0 r1 # 1) <= p)%Qc /\ (p <= Q2Qc (Z.max r0 r1 # 1))%Qc.
Proof.
  intros Hv. unfold D3.bimap.
  assert (Hhalf : (0 <= Q2Qc (1 # 2))%Qc /\ (Q2Qc (1 # 2) <= 1)%Qc)
    by (split; apply Qle_bool_imp_le; reflexivity).
  destruct (Num.lt (Fin d1) (Fin d0)) eqn:E.
  - apply lt_Fin in E.
    assert (Hin : (d1 <= v)%Qc /\ (v <= d0)%Qc).
    { destruct Hv as [[H1 H2]|H]; [|exact H]. split; qc_lra. }
    destruct (normalize_unit d1 d0 v E (proj1 Hin) (proj2 Hin)) as (t & -> & Ht0 & Ht1).
    rewrite Z.min_comm, Z.max_comm. apply interpolate_between; assumption.
  - assert (Hle : (d0 <= d1)%Qc).
    { apply le_Fin, not_lt_le; [reflexivity | reflexivity | exact E]. }
    destruct (Qc_eq_dec d0 d1) as [<-|Hne].
    + rewrite normalize_zero_width. apply interpolate_between; tauto.
    + assert (Hlt : (d0 < d1)%Qc).
      { apply Qcle_lt_or_eq in Hle as [H|H]; [exact H | contradiction]. }
      assert (Hin : (d0 <= v)%Qc /\ (v <= d1)%Qc).
      { destruct Hv as [H|[H1 H2]]; [exact H|]. split; qc_lra. }
      destruct (normalize_unit d0 d1 v Hlt (proj1 Hin) (proj2 Hin))
        as (t & -> & Ht0 & Ht1).
      apply interpolate_between; assumption.
Qed.

Lemma plot_right : sub width marginRight = ofZ 800.
Proof. number_eq. Qed.

Lemma plot_bottom : sub height marginBottom = ofZ 620.
Proof. number_eq. Qed.

(** X22.  On a collection whose coordinates are finite, every record is
    placed inside the plotting area: its pixel position lies between the
    left and right margins (80 and 800) and between the top and bottom
    margins (80 and 620), which is also the extent given to the hexagon
    layout. *)
Theorem records_are_placed_inside_the_plot (data : list ShotData) :
  Forall (fun s => isFinite (x s) = true /\ isFinite (y s) = true) data ->
  Forall (fun s =>
            exists px py : number,
              xScale (getDatasetSummary data) (x s) = Some px
              /\ yScale (getDatasetSummary data) (y s) = Some py
              /\ Num.le marginLeft px = true
              /\ Num.le px (sub width marginRight) = true
              /\ Num.le marginTop py = true
              /\ Num.le py (sub height marginBottom) = true) data.
Proof.
  intros Hall.
  assert (Hnn : Forall (fun s => isNaN (x s) = false /\ isNaN (y s) = false) data).
  { eapply List.Forall_impl; [|exact Hall].
    intros s [H1 H2]. split; apply isFinite_not_NaN; assumption. }
  assert (Hxs : Forall (fun v => isFinite v = true) (map x data)).
  { apply List.Forall_map. eapply List.Forall_impl; [|exact Hall]. intros s Hs; apply Hs. }
  assert (Hys : Forall (fun v => isFinite v = true) (map y data)).
  { apply List.Forall_map. eapply List.Forall_impl; [|exact Hall]. intros s Hs; apply Hs. }
  assert (Bx : Forall (fun v => isNaN v = false) (map x data)).
  { eapply List.Forall_impl; [|exact Hxs]. apply isFinite_not_NaN. }
  assert (By : Forall (fun v => isNaN v = false) (map y data)).
  { eapply List.Forall_impl; [|exact Hys]. apply isFinite_not_NaN. }
  apply min_max_bounds in Bx. apply min_max_bounds in By.
  rewrite List.Forall_map in Bx, By.
  rewrite List.Forall_forall in Bx, By, Hall. apply List.Forall_forall.
  intros s Hs. destruct (Hall s Hs) as [Fx Fy].
  destruct (Bx s Hs) as [Bx0 Bx1]. destruct (By s Hs) as [By0 By1].
  assert (Hne : forall f : ShotData -> number, map f data <> []).
  { intros f. destruct data; [destruct Hs | discriminate]. }
  destruct (min_max_finite _ (Hne x) Hxs) as [Hx0 Hx1].
  destruct (min_max_finite _ (Hne y) Hys) as [Hy0 Hy1].
  unfold xScale, yScale, D3.scaleLinear, getDatasetSummary.
  cbn [coordinateRanges xMin xMax yMin yMax].
  rewrite plot_right, plot_bottom.
  rewrite (isFinite_not_NaN _ Fx), (isFinite_not_NaN _ Fy).
  change marginLeft with (ofZ 80). change marginTop with (ofZ 80).
  destruct (x s) as [| | |vx]; try discriminate.
  destruct (y s) as [| | |vy]; try discriminate.
  destruct (Num.min (map x data)) as [| | |x0]; try discriminate.
  destruct (Num.max (map x data)) as [| | |x1]; try discriminate.
  destruct (Num.min (map y data)) as [| | |y0]; try discriminate.
  destruct (Num.max (map y data)) as [| | |y1]; try discriminate.
  apply le_Fin in Bx0, Bx1, By0, By1.
  destruct (bimap_between x0 x1 vx 80 800 (or_introl (conj Bx0 Bx1)))
    as (px & -> & Hpx0 & Hpx1).
  destruct (bimap_between y1 y0 vy 80 620 (or_intror (conj By0 By1)))
    as (py & -> & Hpy0 & Hpy1).
  exists (Fin px), (Fin py). unfold ofZ, dec.
  rewrite !le_Fin. repeat split; assumption.
Qed.

Lemma hexbin_all_skipped {A : Type} (px py : A -> number) (r : number)
    (pts : list A) :
  (forall p, isNaN (px p) || isNaN (py p) = true) ->
  D3.hexbin px py r pts = [].
Proof.
  intros Hskip. unfold D3.hexbin, D3.hexbinLoop.
  assert (H : fold_left (D3.hexbinStep px py r) pts [] = []); [|rewrite H; reflexivity].
  induction pts as [|p pts IH]; [reflexivity|].
  simpl. unfold D3.hexbinStep at 2. rewrite (Hskip p). exact IH.
Qed.

Lemma scaleLinear_NaN_domain (range : number * number) (d v : number) :
  isFinite (fst range) = true -> isFinite (snd range) = true ->
  D3.toNumber (D3.scaleLinear (NaN, d) range v) = NaN
  /\ D3.toNumber (D3.scaleLinear (d, NaN) range v) = NaN.
Proof.
  destruct range as [r0 r1]; simpl. intros H0 H1.
  destruct r0 as [| | |a]; try discriminate.
  destruct r1 as [| | |b]; try discriminate.
  unfold D3.scaleLinear. destruct v as [| | |q]; simpl.
  1: split; reflexivity.
  all: unfold D3.bimap, D3.normalize, D3.interpolateNumber;
    destruct d as [| | |c]; split; reflexivity.
Qed.

(** X23.  A single record whose x or y is [NaN] blanks the heat map: the
    bound of its axis is [NaN], every pixel position on that axis is
    [NaN], the hexagon layout skips every record, and the chart draws no
    hexagon.  Such a record is what the loader builds from a row whose x
    or y cell is no number. *)
Theorem NaN_coordinate_blanks_the_heat_map
    (shotData : list ShotData) (filters : FilterState) :
  (exists s, In s shotData /\ (isNaN (x s) = true \/ isNaN (y s) = true)) ->
  (forall filtered, hexData (getDatasetSummary shotData) filters filtered = [])
  /\ (forall (Color : Type) (reds ylOrRd : number -> Color) (unknown : Color) drawn,
        chart Color reds ylOrRd unknown shotData
              (Some (getDatasetSummary shotData)) filters = Some drawn ->
        drawn = []).
Proof.
  intros (s & Hs & Hnan).
  assert (Hhex : forall filtered,
             hexData (getDatasetSummary shotData) filters filtered = []).
  { intros filtered. unfold hexData. apply hexbin_all_skipped. intros p.
    unfold xScale, yScale, getDatasetSummary.
    cbn [coordinateRanges xMin xMax yMin yMax].
    destruct Hnan as [Hx|Hy].
    - assert (Hin : In NaN (map x shotData)).
      { apply in_map_iff. exists s. split; [|exact Hs].
        destruct (x s); try discriminate; reflexivity. }
      destruct (min_max_NaN _ Hin) as [-> _].
      rewrite (proj1 (scaleLinear_NaN_domain (marginLeft, sub width marginRight)
                        _ _ eq_refl eq_refl)).
      reflexivity.
    - assert (Hin : In NaN (map y shotData)).
      { apply in_map_iff. exists s. split; [|exact Hs].
        destruct (y s); try discriminate; reflexivity. }
      destruct (min_max_NaN _ Hin) as [_ ->].
      rewrite (proj1 (scaleLinear_NaN_domain (marginTop, sub height marginBottom)
                        _ _ eq_refl eq_refl)).
      apply orb_true_r. }
  split; [exact Hhex|].
  intros Color reds ylOrRd unknown drawn. unfold chart.
  destruct (filteredData shotData filters) as [|r rs]; [discriminate|].
  rewrite Hhex. intros [= <-]. reflexivity.
Qed.

Lemma addPoint_ids {A : Type} (r : number) (id : D3.BinId) (point : A)
    (bins : list (D3.BinId * D3.Bin A)) :
  (In id (map fst bins) /\ map fst (D3.addPoint r id point bins) = map fst bins)
  \/ (~ In id (map fst bins)
      /\ map fst (D3.addPoint r id point bins) = (map fst bins ++ [id])%list).
Proof.
  induction bins as [|[id' bin] rest IH]; simpl.
  - right. split; [tauto | reflexivity].
  - destruct (decide (id' = id)) as [->|Hne]; simpl.
    + left. split; [left; reflexivity | reflexivity].
    + destruct IH as [[Hin E]|[Hn E]].
      * left. split; [right; exact Hin | rewrite E; reflexivity].
      * right. split; [intros [H|H]; [contradiction | exact (Hn H)]|].
        rewrite E. reflexivity.
Qed.

Lemma addPoint_grouped {A : Type} (px py : A -> number) (r : number)
    (point : A) (bins : list (D3.BinId * D3.Bin A)) :
  Forall (fun b => Forall (fun p => D3.cellOf r (px p) (py p) = fst b)
                          (D3.points (snd b))) bins ->
  Forall (fun b => Forall (fun p => D3.cellOf r (px p) (py p) = fst b)
                          (D3.points (snd b)))
         (D3.addPoint r (D3.cellOf r (px point) (py point)) point bins).
Proof.
  induction 1 as [|[id' bin] rest Hb Hrest IH]; simpl.
  - repeat constructor.
  - destruct (decide (id' = D3.cellOf r (px point) (py point))) as [E|_].
    + constructor; [|exact Hrest]. simpl in *.
      apply List.Forall_app. split; [exact Hb|]. constructor; [congruence | constructor].
    + constructor; assumption.
Qed.

(** X24.  The hexagon layout groups by cell: no two bins have the same
    cell, and every point of a bin lies in the cell of that bin. *)
Theorem hexbin_groups_by_cell {A : Type} (px py : A -> number) (r : number)
    (pts : list A) :
  List.NoDup (map fst (D3.hexbinLoop px py r pts))
  /\ Forall (fun b => Forall (fun p => D3.cellOf r (px p) (py p) = fst b)
                             (D3.points (snd b)))
            (D3.hexbinLoop px py r pts).
Proof.
  unfold D3.hexbinLoop.
  assert (H : forall bins,
             List.NoDup (map fst bins) ->
             Forall (fun b => Forall (fun p => D3.cellOf r (px p) (py p) = fst b)
                                     (D3.points (snd b))) bins ->
             List.NoDup (map fst (fold_left (D3.hexbinStep px py r) pts bins))
             /\ Forall (fun b => Forall (fun p => D3.cellOf r (px p) (py p) = fst b)
                                        (D3.points (snd b)))
                       (fold_left (D3.hexbinStep px py r) pts bins)).
  { induction pts as [|p pts IH]; intros bins Hnd Hg; simpl; [tauto|].
    apply IH; unfold D3.hexbinStep;
      destruct (isNaN (px p) || isNaN (py p)); try assumption.
    - destruct (addPoint_ids r (D3.cellOf r (px p) (py p)) p bins)
        as [[_ ->]|[Hn ->]]; [exact Hnd|].
      apply (Permutation_NoDup (Permutation_cons_append _ _)).
      constructor; assumption.
    - apply addPoint_grouped, Hg. }
  apply H; constructor.
Qed.

Lemma toDouble_nonneg (a : number) :
  Num.le zero a = true -> Num.le zero (toDouble a) = true.
Proof.
  destruct a as [| | |q]; try (intros H; exact H).
  intros H. cbn [toDouble]. apply double_nonneg.
  unfold zero, ofZ, dec in H. apply le_Fin in H.
  unfold Qcle, Q2Qc in H; cbn [this] in H. rewrite Qred_correct in H. exact H.
Qed.

Lemma add_nonneg (a b : number) :
  Num.le zero a = true -> Num.le zero b = true -> Num.le zero (add a b) = true.
Proof.
  destruct a as [| | |p], b as [| | |q]; try discriminate; try reflexivity.
  unfold zero, ofZ, dec. rewrite !le_Fin. cbn [add]. rewrite le_Fin. qc_lra.
Qed.

Lemma le_one_addD (a : number) :
  Num.le zero a = true -> Num.le one (addD one a) = true.
Proof.
  intros Ha. unfold addD. change (toDouble one) with one.
  apply toDouble_nonneg in Ha.
  destruct (toDouble a) as [| | |p]; try discriminate; [reflexivity|].
  unfold one, ofZ, dec in *. cbn [add toDouble].
  apply le_Fin in Ha.
  apply (double_lower _ 0); [lia | apply Qred_correct |].
  qc_lra.
Qed.

(** X26.  Outside the high-danger view, a bin whose average xG exceeds
    0.1 is painted on the red ramp at a position that never exceeds 1,
    and the fullest bin, whose size is the maximum, at position 1.  The
    average, the quotient and the sum are the doubles the machine
    computes. *)
Theorem quality_bins_saturate_the_red_ramp (Color : Type)
    (reds ylOrRd : number -> Color) (unknown : Color) (filters : FilterState)
    (maxBinCount : nat) (members : list ShotData) :
  showOnlyHighDanger filters = false ->
  members <> [] -> Z.of_nat (length members) <= maxArrayLength ->
  Forall (fun s => isFinite (toDouble (xG s)) = true) members ->
  (1 <= maxBinCount)%nat -> Z.of_nat maxBinCount <= maxArrayLength ->
  Num.gt (Spec.averageExpectedGoal members) (toDouble (dec 1 10)) = true ->
  (exists t : number,
      fill Color reds ylOrRd unknown filters maxBinCount members = reds t
      /\ Num.le t one = true)
  /\ (length members = maxBinCount ->
      fill Color reds ylOrRd unknown filters maxBinCount members = reds one).
Proof.
  intros Hd Hne Hlen Hfin Hmax Hmaxlen Hgt. unfold fill.
  rewrite Hd, (avgXG_is_average members Hne Hlen Hfin), Hgt.
  set (avg := Spec.averageExpectedGoal members) in *.
  assert (Havg : Num.le zero avg = true).
  { apply le_trans with (toDouble (dec 1 10));
      [vm_compute; reflexivity | apply lt_le, Hgt]. }
  pose proof (truthy_ofNat _ Hmax) as Ht.
  set (intensity := divD (ofNat (length members)) (ofNat maxBinCount)).
  assert (Hi : Num.le zero intensity = true
               /\ (length members = maxBinCount -> intensity = one)).
  { unfold intensity, divD. rewrite !toDouble_ofNat by assumption.
    unfold ofNat, ofZ, dec in *. rewrite (div_finite _ _ Ht). cbn [toDouble].
    set (qm := Q2Qc (Z.of_nat maxBinCount # 1)) in *.
    assert (Hqm : (0 < qm)%Q).
    { unfold qm, Q2Qc; cbn [this]. rewrite Qred_correct.
      unfold Qlt; simpl. lia. }
    split.
    - apply double_nonneg.
      unfold Qcdiv, Qcmult, Qcinv, Q2Qc; cbn [this]. rewrite !Qred_correct.
      apply Qmult_le_0_compat; [unfold Qle; simpl; lia|].
      apply Qlt_le_weak, Qinv_lt_0_compat, Hqm.
    - intros ->. fold qm.
      assert (E : (qm / qm)%Qc = Q2Qc (1 # 1)).
      { assert (Hne0 : qm <> 0%Qc).
        { intros E0. rewrite E0 in Hqm. revert Hqm. apply Qlt_irrefl. }
        change (Q2Qc (1 # 1)) with 1%Qc. field. exact Hne0. }
      rewrite E. apply (toDouble_ofZ 1). unfold maxSafeInteger. lia. }
  destruct Hi as [Hi Hfull].
  assert (Hx : Num.le zero (addD intensity avg) = true).
  { unfold addD. apply toDouble_nonneg, add_nonneg; apply toDouble_nonneg; assumption. }
  assert (HxN : isNaN (addD intensity avg) = false)
    by (destruct (addD intensity avg); [discriminate | reflexivity..]).
  unfold Num.min. cbn [fold_left]. change (min2 PosInf one) with one.
  destruct (min2_spec one (addD intensity avg) eq_refl HxN) as (_ & Hle & _).
  split; [eexists; split; [reflexivity | exact Hle]|].
  intros Hlen'. rewrite (Hfull Hlen') in *. f_equal.
  unfold min2. rewrite HxN. cbn [isNaN orb].
  rewrite (lt_not_le (addD one avg) one HxN eq_refl), (le_one_addD avg Havg).
  reflexivity.
Qed.

End ChartProperties.

(* ===================================================================== *)
(** * The further properties on sample inputs *)
(* ===================================================================== *)

Section FurtherWitnesses.

Import CsvLoaderService HeatMap Component.

Lemma missing_columns_load_as_defaults_witness :
  Samples.bareRow !! "xG" = None
  /\ xG (convertCsvRowToShotData Samples.bareRow) = zero
  /\ period (convertCsvRowToShotData Samples.bareRow) = Some one
  /\ Shot.shotType (convertCsvRowToShotData Samples.bareRow) = Some "Unknown"
  /\ time (convertCsvRowToShotData Samples.bareRow) = Some "0:00".
Proof.
  destruct (missing_columns_load_as_defaults Samples.bareRow)
    as (H1 & H2 & H3 & H4 & _).
  split; [reflexivity|].
  split; [apply H1; reflexivity|]. split; [apply H2; reflexivity|].
  split; [apply H3; reflexivity | apply H4; reflexivity].
Defined.

Lemma secondsRemainingToTime_format_witness :
  0 <= 125 <= maxSafeInteger
  /\ exists minutes seconds : string,
       secondsRemainingToTime (ofZ 125) = minutes ++ ":" ++ seconds
       /\ String.length seconds = 2%nat
       /\ Str.parseInt minutes = ofZ (125 / 60)
       /\ Str.parseInt seconds = ofZ (125 mod 60)
       /\ 60 * (125 / 60) + 125 mod 60 = 125.
Proof.
  assert (H : 0 <= 125 <= maxSafeInteger) by (unfold maxSafeInteger; lia).
  split; [exact H|]. apply (secondsRemainingToTime_format 125 H).
Defined.

Lemma integer_cells_load_exactly_witness :
  period (convertCsvRowToShotData Samples.timedRow) = Some (ofZ 2)
  /\ time (convertCsvRowToShotData Samples.timedRow)
     = Some (secondsRemainingToTime (ofZ 125)).
Proof.
  apply (integer_cells_load_exactly Samples.timedRow 2 125);
    [lia | unfold maxSafeInteger; lia | unfold maxSafeInteger; lia
     | reflexivity | reflexivity].
Defined.

Lemma threeShots_finite_coordinates :
  Forall (fun s => isFinite (x s) = true /\ isFinite (y s) = true) Samples.threeShots.
Proof. repeat constructor. Defined.

Lemma loadData_success_shows_every_record_witness :
  (Z.of_nat (length [Samples.bareRow; Samples.timedRow]) <=? 100000) = true
  /\ render (@loadData (fun n => Z.of_nat n <=? 100000) unit
               (inr [Samples.bareRow; Samples.timedRow]) initialState)
     = MainScreen
  /\ length (shotData (@loadData (fun n => Z.of_nat n <=? 100000) unit
                         (inr [Samples.bareRow; Samples.timedRow]) initialState))
     = 2%nat.
Proof.
  assert (H : (Z.of_nat (length [Samples.bareRow; Samples.timedRow]) <=? 100000)
              = true) by reflexivity.
  split; [exact H|].
  destruct (loadData_success_shows_every_record
              (fun n => Z.of_nat n <=? 100000) unit
              [Samples.bareRow; Samples.timedRow] H) as (Hr & _ & Hl & _).
  split; [exact Hr | exact Hl].
Defined.

Lemma loadData_failure_shows_error_witness :
  error (@loadData (fun n => Z.of_nat n <=? 1) unit
           (inr [Samples.bareRow; Samples.timedRow]) initialState) <> None
  /\ render (@loadData (fun n => Z.of_nat n <=? 1) unit
               (inr [Samples.bareRow; Samples.timedRow]) initialState)
     = ErrorScreen "Failed to load hockey data from CSV"
  /\ shotData (@loadData (fun n => Z.of_nat n <=? 1) unit
                 (inr [Samples.bareRow; Samples.timedRow]) initialState)
     = map convertCsvRowToShotData [Samples.bareRow; Samples.timedRow]
  /\ render (@loadData (fun n => Z.of_nat n <=? 1) unit (inl tt) initialState)
     = ErrorScreen "Failed to load hockey data from CSV".
Proof.
  assert (H : error (@loadData (fun n => Z.of_nat n <=? 1) unit
                       (inr [Samples.bareRow; Samples.timedRow]) initialState)
              <> None) by discriminate.
  split; [exact H|].
  destruct (proj2 (loadData_failure_shows_error
                     (fun n => Z.of_nat n <=? 1) unit
                     (inr [Samples.bareRow; Samples.timedRow]) initialState) H)
    as (Hr & _ & _ & Hd & _).
  split; [exact Hr|]. split; [exact Hd|].
  apply (proj2 (loadData_failure_shows_error
                  (fun n => Z.of_nat n <=? 1) unit (inl tt) initialState)).
  discriminate.
Defined.

Lemma coordinateRanges_enclose_and_are_attained_witness :
  Forall (fun s =>
            Num.le (xMin (coordinateRanges (getDatasetSummary Samples.threeShots)))
                   (x s) = true
            /\ Num.le (x s)
                 (xMax (coordinateRanges (getDatasetSummary Samples.threeShots)))
               = true
            /\ Num.le (yMin (coordinateRanges (getDatasetSummary Samples.threeShots)))
                 (y s) = true
            /\ Num.le (y s)
                 (yMax (coordinateRanges (getDatasetSummary Samples.threeShots)))
               = true) Samples.threeShots.
Proof.
  apply (coordinateRanges_enclose_and_are_attained Samples.threeShots).
  repeat constructor.
Defined.

Lemma filterData_agrees_with_filteredData_witness :
  filterData Samples.threeShots (criteriaOf Samples.edmPeriodOne)
  = filteredData Samples.threeShots Samples.edmPeriodOne.
Proof.
  apply (filterData_agrees_with_filteredData Samples.threeShots Samples.edmPeriodOne);
    try discriminate; try reflexivity.
  repeat constructor.
Defined.

Lemma showOnlyGoals_subsumes_showOnlyHighDanger_witness :
  filteredData Samples.threeShots
    (updateFilter (UpdateShowOnlyHighDanger true) Samples.highQuality)
  = filteredData Samples.threeShots Samples.highQuality.
Proof.
  apply (showOnlyGoals_subsumes_showOnlyHighDanger
           Samples.threeShots Samples.highQuality true).
  reflexivity.
Defined.

Lemma all_outcomes_selected_is_no_outcome_filter_witness :
  filteredData Samples.threeShots Samples.everyOutcome
  = filteredData Samples.threeShots
      (updateFilter (UpdateSelectedShotOutcomes []) Samples.everyOutcome).
Proof.
  apply (all_outcomes_selected_is_no_outcome_filter
           Samples.threeShots Samples.everyOutcome); reflexivity.
Defined.

Lemma NaN_xG_escapes_range_and_quick_filters_witness :
  isNaN (xG Samples.shotNaNxG) = true
  /\ passes (updateFilter (UpdateMinXG (dec 9 10))
               (updateFilter (UpdateMaxXG one)
                  (updateFilter (UpdateShowOnlyGoals true)
                     (updateFilter (UpdateShowOnlyHighDanger true)
                        initialFilters)))) Samples.shotNaNxG
     = passes initialFilters Samples.shotNaNxG.
Proof.
  split; [reflexivity|].
  apply (NaN_xG_escapes_range_and_quick_filters initialFilters Samples.shotNaNxG).
  reflexivity.
Defined.

Lemma toggleArrayFilter_flips_membership_witness :
  In "EDM" (selectedTeams (toggleArrayFilter (ToggleSelectedTeams "EDM")
                             initialFilters))
  /\ List.NoDup (selectedTeams (toggleArrayFilter (ToggleSelectedTeams "EDM")
                                  initialFilters))
  /\ In (ofZ 2) (selectedPeriods (toggleArrayFilter (ToggleSelectedPeriods (ofZ 2))
                                    initialFilters)).
Proof.
  destruct (toggleArrayFilter_flips_membership initialFilters)
    as (Ht & Hnt & Hp & _).
  split; [apply Ht; left; split; [reflexivity | intros []]|].
  split; [apply Hnt; constructor|].
  apply Hp; [reflexivity|]. left. split; [reflexivity | intros []].
Defined.

Lemma toggleArrayFilter_twice_witness :
  filteredData Samples.threeShots
    (toggleArrayFilter (ToggleSelectedPeriods (ofZ 2))
       (toggleArrayFilter (ToggleSelectedPeriods (ofZ 2)) Samples.periodTwo))
  = filteredData Samples.threeShots Samples.periodTwo
  /\ toggleArrayFilter (ToggleSelectedTeams "TOR")
       (toggleArrayFilter (ToggleSelectedTeams "TOR") Samples.edmPeriodOne)
     = Samples.edmPeriodOne.
Proof.
  split.
  - apply (toggleArrayFilter_twice Samples.threeShots (ToggleSelectedPeriods (ofZ 2))
             Samples.periodTwo). reflexivity.
  - apply (toggleArrayFilter_twice Samples.threeShots (ToggleSelectedTeams "TOR")
             Samples.edmPeriodOne I). simpl. intros [H|[]]. discriminate.
Defined.

Lemma clearFilters_resets_to_unit_range_witness :
  filteredData Samples.threeShots
    (clearFilters (Some (getDatasetSummary Samples.threeShots)) Samples.periodTwo)
  = List.filter (fun r => Num.le zero (xG r) && Num.le (xG r) one) Samples.threeShots.
Proof.
  apply (clearFilters_resets_to_unit_range
           (getDatasetSummary Samples.threeShots) Samples.periodTwo Samples.threeShots).
  repeat constructor; discriminate.
Defined.


Lemma stats_box_numbers_witness :
  Forall (fun s => isFinite (toDouble (xG s)) = true) Samples.threeShots
  /\ statsTotalXG Samples.threeShots = totalXG (getDatasetSummary Samples.threeShots)
  /\ statsAvgXG Samples.threeShots = avgXG (getDatasetSummary Samples.threeShots)
  /\ isNaN (statsAvgXG Samples.threeShots) = false.
Proof.
  assert (H : Forall (fun s => isFinite (toDouble (xG s)) = true) Samples.threeShots)
    by (repeat (constructor; [vm_compute; reflexivity|]); constructor).
  split; [exact H|].
  apply (proj2 (proj2 (proj2 (proj2 (stats_box_numbers Samples.threeShots)))));
    [discriminate | vm_compute; discriminate | exact H].
Defined.

Lemma tooltipLeft_is_clamped_witness :
  Num.le (ofZ 10) (tooltipLeft (ofZ 30) (ofZ 1200)) = true
  /\ Num.le (tooltipLeft (ofZ 1500) (ofZ 1200)) (sub (ofZ 1200) (ofZ 220)) = true.
Proof.
  split.
  - apply (tooltipLeft_is_clamped (ofZ 30) (ofZ 1200)); reflexivity.
  - apply (tooltipLeft_is_clamped (ofZ 1500) (ofZ 1200)); reflexivity.
Defined.

Lemma records_are_placed_inside_the_plot_witness :
  Forall (fun s =>
            exists px py : number,
              xScale (getDatasetSummary Samples.threeShots) (x s) = Some px
              /\ yScale (getDatasetSummary Samples.threeShots) (y s) = Some py
              /\ Num.le marginLeft px = true
              /\ Num.le px (sub width marginRight) = true
              /\ Num.le marginTop py = true
              /\ Num.le py (sub height marginBottom) = true) Samples.threeShots.
Proof.
  apply (records_are_placed_inside_the_plot Samples.threeShots).
  exact threeShots_finite_coordinates.
Defined.

Lemma NaN_coordinate_blanks_the_heat_map_witness :
  isNaN (x Samples.shotNaNx) = true
  /\ hexData (getDatasetSummary (Samples.shotNaNx :: Samples.threeShots))
             initialFilters (Samples.shotNaNx :: Samples.threeShots) = [].
Proof.
  split; [reflexivity|].
  apply (NaN_coordinate_blanks_the_heat_map
           (Samples.shotNaNx :: Samples.threeShots) initialFilters).
  exists Samples.shotNaNx. split; [left; reflexivity | left; reflexivity].
Defined.

Lemma selecting_a_team_witness :
  filteredData Samples.threeShots
    (toggleArrayFilter (ToggleSelectedTeams "TOR") initialFilters)
  = List.filter (fun r => String.eqb (Str.or (teamId r) "") "TOR")
                (filteredData Samples.threeShots initialFilters)
  /\ forall r, In r (filteredData Samples.threeShots Samples.edmPeriodOne) ->
               In r (filteredData Samples.threeShots
                       (toggleArrayFilter (ToggleSelectedTeams "TOR")
                          Samples.edmPeriodOne)).
Proof.
  split.
  - apply (selecting_a_team Samples.threeShots initialFilters "TOR");
      [intros [] | reflexivity].
  - apply (selecting_a_team Samples.threeShots Samples.edmPeriodOne "TOR");
      [simpl; intros [H|[]]; discriminate | discriminate].
Defined.

Lemma quality_bins_saturate_the_red_ramp_witness :
  Num.gt (Spec.averageExpectedGoal [Samples.shotEDM; Samples.shotTOR])
         (toDouble (dec 1 10)) = true
  /\ fill _ Samples.sampleReds Samples.sampleYlOrRd Samples.sampleUnknown
          initialFilters 2 [Samples.shotEDM; Samples.shotTOR]
     = Samples.sampleReds one.
Proof.
  assert (H : Num.gt (Spec.averageExpectedGoal [Samples.shotEDM; Samples.shotTOR])
                     (toDouble (dec 1 10)) = true) by (vm_compute; reflexivity).
  split; [exact H|].
  apply (quality_bins_saturate_the_red_ramp _ Samples.sampleReds Samples.sampleYlOrRd
           Samples.sampleUnknown initialFilters 2
           [Samples.shotEDM; Samples.shotTOR]);
    [ reflexivity | discriminate | vm_compute; discriminate
    | repeat (constructor; [vm_compute; reflexivity|]); constructor
    | lia | vm_compute; discriminate | exact H | reflexivity ].
Defined.

Lemma quick_filter_boundaries_witness :
  passes initialFilters Samples.shotEight = true
  /\ passes (updateFilter (UpdateShowOnlyGoals true) initialFilters)
            Samples.shotEight = true
  /\ passes (updateFilter (UpdateShowOnlyHighDanger true) initialFilters)
            Samples.shotEDM = true
  /\ highXgShots initialFilters [Samples.shotEDM] = [].
Proof.
  split; [reflexivity|].
  split; [exact (proj1 (quick_filter_boundaries initialFilters Samples.shotEight
                          eq_refl) eq_refl)|].
  destruct (quick_filter_boundaries initialFilters Samples.shotEDM eq_refl)
    as (_ & H). destruct (H eq_refl) as (H1 & H2 & _).
  split; assumption.
Defined.

End FurtherWitnesses.
